(** * CargoExpress back end: dashboard tokens, web sessions, orders, payments

    A shallow embedding of the service classes of the bot back end
    ([RedisHelper], [AdminAuthService], [OrderService], [PaymentService]),
    of the Prisma client they are given and of the Redis strings they
    exchange, with the properties of the token/session life cycle, the order
    status history and the balance bookkeeping that the specification states
    for them.

    Conventions of the embedding.
    - An [async] method is a function in the monad [M]: it threads the
      [World] (clock, random source, the Redis key space, the Prisma tables)
      and ends in [Return v] or [Throw e].  A [throw] keeps every write made
      before it: there is no rollback anywhere in the services.
    - A JavaScript [number] that holds an amount is an IEEE 754 binary64
      value ([spec_float] at precision 53), added, subtracted and compared
      as the standard rounds; an [Int] column or an enumeration index is an
      integer.
    - A [BigInt] column and a [DateTime] column are kept in the shape the
      JavaScript code sees them in: the engine of the client answers with
      [bigint] and [Date] values, and the middleware the client is set up
      with ([convertBigInt]) turns the first into decimal strings and the
      second into empty objects before a service receives the result.
    - An ISO date string is kept as the instant it writes, in milliseconds:
      [toISOString] followed by [new Date(...)] is the identity on instants.
    - A Redis string is either a string written as it is, or the text
      [JSON.stringify] has made of a value; the second is kept as the value
      [JSON.parse] reads from it (no [bigint], no [Date], no number that is
      not finite).  [JSON.parse] of a string written as it is, and the
      decimal text of a [number], are functions the world provides.
    - Calls run one after the other, each to completion, and the clock does
      not move during a call. *)

From stdpp Require Import gmap strings list pretty.
From Stdlib Require Import ZArith Lia SpecFloat QArith.

Local Open Scope Z_scope.

(* ===================================================================== *)
(** ** JavaScript values of the columns *)
(* ===================================================================== *)

(** A JavaScript [number]. *)
Definition number : Type := spec_float.

Module Number.

Definition prec : Z := 53.
Definition emax : Z := 1024.

(** [x + y], [x - y], [x < y] *)
Definition add (x y : number) : number := SFadd prec emax x y.
Definition sub (x y : number) : number := SFsub prec emax x y.
Definition lt (x y : number) : bool := SFltb x y.

(** The number an integer literal denotes. *)
Definition of_Z (n : Z) : number := binary_normalize prec emax n 0 false.

Definition isFinite (x : number) : bool :=
  match x with
  | S754_zero _ | S754_finite _ _ _ => true
  | S754_infinity _ | S754_nan => false
  end.

(** [ToNumber] of a value that is a number or [null]: [null] counts as 0. *)
Definition of_nullable (x : option number) : number :=
  match x with
  | Some n => n
  | None => S754_zero false
  end.

(** A number in a condition: 0, -0 and NaN are falsy. *)
Definition truthy (x : number) : bool :=
  match x with
  | S754_zero _ | S754_nan => false
  | S754_infinity _ | S754_finite _ _ _ => true
  end.

(** The real number a finite [number] stands for. *)
Definition value (x : number) : Q :=
  match x with
  | S754_finite s m e =>
      ((if s then inject_Z (Zneg m) else inject_Z (Zpos m)) * 2 ^ e)%Q
  | _ => 0%Q
  end.

End Number.

(** A [BigInt] column as JavaScript holds it: the [bigint] the engine
    answers with, or the decimal string [toString()] makes of it. *)
Inductive BigIntValue :=
| BigInt (n : Z)
| BigIntString (n : Z).

(** The integer a [bigint], or the decimal string of one, writes. *)
Definition id_of (v : BigIntValue) : Z :=
  match v with
  | BigInt n => n
  | BigIntString n => n
  end.

(** A [DateTime] column as JavaScript holds it: the [Date] the engine
    answers with, the ISO string JSON makes of a [Date], or the object
    without properties that copying a [Date] property by property leaves. *)
Inductive DateValue :=
| Date (ms : Z)
| ISOString (ms : Z)
| EmptyObject.

(* ===================================================================== *)
(** ** Data model *)
(* ===================================================================== *)

(** [packages/shared/src/types/order.ts] *)
Inductive OrderStatus :=
| CREATED | PAID | WAREHOUSE_RECEIVED | PROCESSING | SHIPPED | CUSTOMS
| IN_TRANSIT | READY_PICKUP | DELIVERED | PROBLEM | CANCELLED.

Inductive PurchaseOrderStatus :=
| P_CREATED | P_PAID | P_PURCHASING | P_PURCHASED | P_WAREHOUSE_RECEIVED
| P_SHIPPED | P_DELIVERED | P_PROBLEM | P_REFUNDED.

(** The enums are string enums; history rows store the string. *)
Definition OrderStatus_str (s : OrderStatus) : string :=
  match s with
  | CREATED => "CREATED" | PAID => "PAID"
  | WAREHOUSE_RECEIVED => "WAREHOUSE_RECEIVED" | PROCESSING => "PROCESSING"
  | SHIPPED => "SHIPPED" | CUSTOMS => "CUSTOMS" | IN_TRANSIT => "IN_TRANSIT"
  | READY_PICKUP => "READY_PICKUP" | DELIVERED => "DELIVERED"
  | PROBLEM => "PROBLEM" | CANCELLED => "CANCELLED"
  end.

Definition PurchaseOrderStatus_str (s : PurchaseOrderStatus) : string :=
  match s with
  | P_CREATED => "CREATED" | P_PAID => "PAID" | P_PURCHASING => "PURCHASING"
  | P_PURCHASED => "PURCHASED" | P_WAREHOUSE_RECEIVED => "WAREHOUSE_RECEIVED"
  | P_SHIPPED => "SHIPPED" | P_DELIVERED => "DELIVERED"
  | P_PROBLEM => "PROBLEM" | P_REFUNDED => "REFUNDED"
  end.

(** ['shipping' | 'purchase'] *)
Inductive OrderType := shipping | purchase.

Global Instance OrderType_eq_dec : EqDecision OrderType.
Proof. solve_decision. Defined.

(** The records below list the columns the services read or write.  A
    [Float] column is a number, or [null] once JSON has replaced a value
    that is not finite. *)
Record ShippingOrder := {
  so_id : BigIntValue;
  so_userId : BigIntValue;
  so_countryFromId : Z;
  so_weight : option number;
  so_declaredValue : option number;
  so_declaredCurrency : string;
  so_description : option string;
  so_recipientName : string;
  so_recipientPhone : string;
  so_recipientAddress : string;
  so_totalCost : option number;
  so_status : OrderStatus;
  so_adminComment : option string;
  so_trackNumber : option string;
  so_createdAt : DateValue;
  so_updatedAt : DateValue
}.

Record PurchaseOrder := {
  po_id : BigIntValue;
  po_userId : BigIntValue;
  po_countryId : Z;
  po_productId : option Z;
  po_productUrl : option string;
  po_productName : string;
  po_quantity : Z;
  po_productPrice : option number;
  po_productCurrency : string;
  po_commission : option number;
  po_deliveryCost : option number;
  po_totalCost : option number;
  po_prepaymentAmount : option number;
  po_status : PurchaseOrderStatus;
  po_adminComment : option string;
  po_customerNotes : option string;
  po_actualWeight : option number;
  po_trackNumber : option string;
  po_createdAt : DateValue;
  po_updatedAt : DateValue
}.

Record OrderStatusHistory := {
  h_orderId : BigIntValue;
  h_orderType : OrderType;
  h_oldStatus : option string;
  h_newStatus : string;
  h_comment : option string;
  h_adminId : option Z;
  h_createdAt : DateValue
}.

(** [User] (first file of part_009) *)
Record User := {
  u_id : BigIntValue;
  u_telegramId : BigIntValue;
  u_balance : option number;
  u_isActive : bool
}.

(** The transaction enums (third file of handlers/commands/admin.ts).
    [TX_PROCESSING] and [TX_CANCELLED] are the members PROCESSING and
    CANCELLED, which [OrderStatus] already names. *)
Inductive TransactionType :=
| PAYMENT | REFUND | BONUS | WITHDRAWAL | COMMISSION | CASHBACK.

Inductive TransactionStatus :=
| PENDING | TX_PROCESSING | COMPLETED | FAILED | TX_CANCELLED | EXPIRED.

Inductive PaymentMethod := CARD | SBP | CRYPTO | BALANCE | BANK_TRANSFER.

Global Instance TransactionStatus_eq_dec : EqDecision TransactionStatus.
Proof. solve_decision. Defined.

Record Transaction := {
  t_id : BigIntValue;
  t_userId : BigIntValue;
  t_orderId : option BigIntValue;
  t_orderType : option OrderType;
  t_amount : option number;
  t_type : TransactionType;
  t_paymentMethod : option PaymentMethod;
  t_paymentId : option string;
  t_status : TransactionStatus;
  t_description : option string;
  t_metadata : option string;
  t_createdAt : DateValue;
  t_completedAt : option DateValue;
  t_updatedAt : DateValue
}.

(** [AdminRole] and [Admin] (part_007) *)
Inductive AdminRole :=
| SUPER_ADMIN | ORDER_MANAGER | FINANCE_MANAGER | SUPPORT_OPERATOR
| CONTENT_MANAGER.

Record Admin := {
  a_id : Z;
  a_telegramId : BigIntValue;
  a_role : AdminRole;
  a_isActive : bool
}.

(** [AdminDashboardToken] (part_007): the durable row. *)
Record AdminDashboardToken := {
  dt_adminId : Z;
  dt_token : string;
  dt_accessKey : string;
  dt_expiresAt : DateValue;
  dt_isUsed : bool;
  dt_createdAt : DateValue;
  dt_usedAt : option DateValue;
  dt_ipAddress : option string
}.

(** The object literal [tokenData] of [generateDashboardAccess] and
    [validateDashboardToken]: the Redis mirror of a token.  Its dates are
    ISO strings. *)
Record TokenData := {
  td_adminId : Z;
  td_accessKey : string;
  td_expiresAt : Z;
  td_isUsed : bool;
  td_createdAt : Z;
  td_ipAddress : option string
}.

(** The object literal [sessionData] of [createWebSession]. *)
Record SessionData := {
  sd_sessionId : string;
  sd_adminId : Z;
  sd_accessToken : string;
  sd_refreshToken : string;
  sd_expiresAt : Z;
  sd_createdAt : Z;
  sd_lastActivity : Z;
  sd_ipAddress : option string;
  sd_userAgent : option string
}.

(** What an order query returns: the row and the relations its [include]
    asks for.  [statusHistory] and [transactions] are [None] when the query
    does not include them.  The country and product relations are carried by
    their foreign keys in the row. *)
Record ShippingOrderPayload := {
  sp_row : ShippingOrder;
  sp_user : option User;
  sp_statusHistory : option (list OrderStatusHistory);
  sp_transactions : option (list Transaction)
}.

Record PurchaseOrderPayload := {
  pp_row : PurchaseOrder;
  pp_user : option User;
  pp_statusHistory : option (list OrderStatusHistory);
  pp_transactions : option (list Transaction)
}.

Inductive OrderBody :=
| ShippingBody (p : ShippingOrderPayload)
| PurchaseBody (p : PurchaseOrderPayload).

(** An order object as the service hands it around.  [ob_type] is the
    [type] property: absent on a query result, present on the object
    [{ ...order, type }] that [cacheOrder] stores. *)
Record OrderObject := {
  ob_body : OrderBody;
  ob_type : option OrderType
}.

(** [currentOrder.status] *)
Definition ob_status (o : OrderObject) : string :=
  match ob_body o with
  | ShippingBody p => OrderStatus_str (so_status (sp_row p))
  | PurchaseBody p => PurchaseOrderStatus_str (po_status (pp_row p))
  end.

(** A transaction with its [user] relation. *)
Record TransactionPayload := {
  tp_row : Transaction;
  tp_user : option User
}.

(** The values [RedisHelper.get] can hand back: what [JSON.parse] reads,
    or a string that is not JSON. *)
Inductive CacheValue :=
| VNull
| VBool (b : bool)
| VNumber (x : number)
| VString (s : string)
| VToken (d : TokenData)
| VSession (d : SessionData)
| VRefresh (sessionId : string) (adminId : Z)
| VOrder (o : OrderObject)
| VTransaction (t : TransactionPayload).

(** A value in a condition: [null], [false], 0, NaN and the empty string
    are falsy, every object is truthy. *)
Definition truthy (v : CacheValue) : bool :=
  match v with
  | VNull => false
  | VBool b => b
  | VNumber x => Number.truthy x
  | VString "" => false
  | VString _ => true
  | VToken _ | VSession _ | VRefresh _ _ | VOrder _ | VTransaction _ => true
  end.

(** A string held by Redis: written as it is, or the text
    [JSON.stringify] made of a value, which is kept as the value
    [JSON.parse] reads from it. *)
Inductive RedisString :=
| Raw (s : string)
| Stringified (v : CacheValue).

(* ===================================================================== *)
(** ** Exceptions and outcomes *)
(* ===================================================================== *)

(** Exceptions the modelled code can raise. *)
Inductive exn :=
| TypeError (msg : string)
| Error (msg : string)
| ReplyError (msg : string)
| PrismaClientKnownRequestError (code : string)
| PrismaClientValidationError.

Inductive outcome (A : Type) :=
| Return (a : A)
| Throw (e : exn).
Arguments Return {A} a.
Arguments Throw {A} e.

(* ===================================================================== *)
(** ** [JSON.stringify] followed by [JSON.parse] *)
(* ===================================================================== *)

Module JSON.

(** A number goes through JSON as itself when it is finite (the text is
    the shortest that reads back as the same number; -0 is written [0]);
    NaN and the infinities are written [null]. *)
Definition image_number (x : option number) : option number :=
  match x with
  | Some (S754_zero _) => Some (S754_zero false)
  | Some (S754_finite s m e) => Some (S754_finite s m e)
  | Some (S754_infinity _) | Some S754_nan | None => None
  end.

(** [Date.prototype.toJSON] is [toISOString]; a string and an empty object
    go through as they are. *)
Definition image_date (d : DateValue) : DateValue :=
  match d with
  | Date ms => ISOString ms
  | ISOString ms => ISOString ms
  | EmptyObject => EmptyObject
  end.

(** Whether a column holds a [bigint], which [JSON.stringify] refuses. *)
Definition is_bigint (v : BigIntValue) : bool :=
  match v with
  | BigInt _ => true
  | BigIntString _ => false
  end.

Definition user_has_bigint (u : User) : bool :=
  is_bigint (u_id u) || is_bigint (u_telegramId u).

Definition image_user (u : User) : User :=
  {| u_id := u_id u; u_telegramId := u_telegramId u;
     u_balance := image_number (u_balance u); u_isActive := u_isActive u |}.

Definition history_has_bigint (h : OrderStatusHistory) : bool :=
  is_bigint (h_orderId h).

Definition image_history (h : OrderStatusHistory) : OrderStatusHistory :=
  {| h_orderId := h_orderId h; h_orderType := h_orderType h;
     h_oldStatus := h_oldStatus h; h_newStatus := h_newStatus h;
     h_comment := h_comment h; h_adminId := h_adminId h;
     h_createdAt := image_date (h_createdAt h) |}.

Definition transaction_has_bigint (t : Transaction) : bool :=
  is_bigint (t_id t) || is_bigint (t_userId t)
  || match t_orderId t with
     | Some v => is_bigint v
     | None => false
     end.

Definition image_transaction (t : Transaction) : Transaction :=
  {| t_id := t_id t; t_userId := t_userId t; t_orderId := t_orderId t;
     t_orderType := t_orderType t; t_amount := image_number (t_amount t);
     t_type := t_type t; t_paymentMethod := t_paymentMethod t;
     t_paymentId := t_paymentId t; t_status := t_status t;
     t_description := t_description t; t_metadata := t_metadata t;
     t_createdAt := image_date (t_createdAt t);
     t_completedAt := image_date <$> t_completedAt t;
     t_updatedAt := image_date (t_updatedAt t) |}.

Definition relations_have_bigint (u : option User)
    (hs : option (list OrderStatusHistory))
    (ts : option (list Transaction)) : bool :=
  match u with
  | Some u => user_has_bigint u
  | None => false
  end
  || match hs with
     | Some hs => existsb history_has_bigint hs
     | None => false
     end
  || match ts with
     | Some ts => existsb transaction_has_bigint ts
     | None => false
     end.

Definition shippingOrder_has_bigint (r : ShippingOrder) : bool :=
  is_bigint (so_id r) || is_bigint (so_userId r).

Definition image_shippingOrder (r : ShippingOrder) : ShippingOrder :=
  {| so_id := so_id r; so_userId := so_userId r;
     so_countryFromId := so_countryFromId r;
     so_weight := image_number (so_weight r);
     so_declaredValue := image_number (so_declaredValue r);
     so_declaredCurrency := so_declaredCurrency r;
     so_description := so_description r;
     so_recipientName := so_recipientName r;
     so_recipientPhone := so_recipientPhone r;
     so_recipientAddress := so_recipientAddress r;
     so_totalCost := image_number (so_totalCost r);
     so_status := so_status r;
     so_adminComment := so_adminComment r;
     so_trackNumber := so_trackNumber r;
     so_createdAt := image_date (so_createdAt r);
     so_updatedAt := image_date (so_updatedAt r) |}.

Definition purchaseOrder_has_bigint (r : PurchaseOrder) : bool :=
  is_bigint (po_id r) || is_bigint (po_userId r).

Definition image_purchaseOrder (r : PurchaseOrder) : PurchaseOrder :=
  {| po_id := po_id r; po_userId := po_userId r;
     po_countryId := po_countryId r; po_productId := po_productId r;
     po_productUrl := po_productUrl r; po_productName := po_productName r;
     po_quantity := po_quantity r;
     po_productPrice := image_number (po_productPrice r);
     po_productCurrency := po_productCurrency r;
     po_commission := image_number (po_commission r);
     po_deliveryCost := image_number (po_deliveryCost r);
     po_totalCost := image_number (po_totalCost r);
     po_prepaymentAmount := image_number (po_prepaymentAmount r);
     po_status := po_status r;
     po_adminComment := po_adminComment r;
     po_customerNotes := po_customerNotes r;
     po_actualWeight := image_number (po_actualWeight r);
     po_trackNumber := po_trackNumber r;
     po_createdAt := image_date (po_createdAt r);
     po_updatedAt := image_date (po_updatedAt r) |}.

Definition order_has_bigint (o : OrderObject) : bool :=
  match ob_body o with
  | ShippingBody p =>
      shippingOrder_has_bigint (sp_row p)
      || relations_have_bigint (sp_user p) (sp_statusHistory p)
           (sp_transactions p)
  | PurchaseBody p =>
      purchaseOrder_has_bigint (pp_row p)
      || relations_have_bigint (pp_user p) (pp_statusHistory p)
           (pp_transactions p)
  end.

Definition image_order (o : OrderObject) : OrderObject :=
  {| ob_body :=
       match ob_body o with
       | ShippingBody p =>
           ShippingBody
             {| sp_row := image_shippingOrder (sp_row p);
                sp_user := image_user <$> sp_user p;
                sp_statusHistory := (fmap (M := list) image_history) <$> sp_statusHistory p;
                sp_transactions := (fmap (M := list) image_transaction) <$> sp_transactions p |}
       | PurchaseBody p =>
           PurchaseBody
             {| pp_row := image_purchaseOrder (pp_row p);
                pp_user := image_user <$> pp_user p;
                pp_statusHistory := (fmap (M := list) image_history) <$> pp_statusHistory p;
                pp_transactions := (fmap (M := list) image_transaction) <$> pp_transactions p |}
       end;
     ob_type := ob_type o |}.

Definition payload_has_bigint (p : TransactionPayload) : bool :=
  transaction_has_bigint (tp_row p)
  || match tp_user p with
     | Some u => user_has_bigint u
     | None => false
     end.

Definition image_payload (p : TransactionPayload) : TransactionPayload :=
  {| tp_row := image_transaction (tp_row p); tp_user := image_user <$> tp_user p |}.

(** Whether [JSON.stringify(v)] meets a [bigint]. *)
Definition has_bigint (v : CacheValue) : bool :=
  match v with
  | VOrder o => order_has_bigint o
  | VTransaction p => payload_has_bigint p
  | VNull | VBool _ | VNumber _ | VString _ | VToken _ | VSession _
  | VRefresh _ _ => false
  end.

(** What [JSON.parse] reads from the text [JSON.stringify(v)] writes, for a
    [v] without [bigint].  The token, session and refresh objects hold
    strings, booleans and integers only. *)
Definition parse_stringify (v : CacheValue) : CacheValue :=
  match v with
  | VNumber x =>
      match image_number (Some x) with
      | Some y => VNumber y
      | None => VNull
      end
  | VOrder o => VOrder (image_order o)
  | VTransaction p => VTransaction (image_payload p)
  | VNull | VBool _ | VString _ | VToken _ | VSession _ | VRefresh _ _ => v
  end.

(** [JSON.stringify(v)]: the text, or the [TypeError] a [bigint] causes. *)
Definition stringify (v : CacheValue) : outcome RedisString :=
  if has_bigint v then
    Throw (TypeError "Do not know how to serialize a BigInt")
  else Return (Stringified (parse_stringify v)).

End JSON.

(* ===================================================================== *)
(** ** The middleware of the Prisma client (second file of
       packages/config/src/runtime-urls.ts) *)
(* ===================================================================== *)

(** [convertBigInt] rebuilds a query result value by value: a [bigint]
    becomes [obj.toString()], an array is mapped, any other object is
    rebuilt from [Object.entries], everything else is kept.  A [Date] is an
    object without entries of its own, so that it comes out as [{}]. *)
Module convertBigInt.

Definition bigint (v : BigIntValue) : BigIntValue :=
  match v with
  | BigInt n => BigIntString n
  | BigIntString n => BigIntString n
  end.

Definition date (d : DateValue) : DateValue :=
  match d with
  | Date _ => EmptyObject
  | ISOString ms => ISOString ms
  | EmptyObject => EmptyObject
  end.

Definition user (u : User) : User :=
  {| u_id := bigint (u_id u); u_telegramId := bigint (u_telegramId u);
     u_balance := u_balance u; u_isActive := u_isActive u |}.

Definition admin (a : Admin) : Admin :=
  {| a_id := a_id a; a_telegramId := bigint (a_telegramId a);
     a_role := a_role a; a_isActive := a_isActive a |}.

Definition adminDashboardToken (r : AdminDashboardToken)
  : AdminDashboardToken :=
  {| dt_adminId := dt_adminId r; dt_token := dt_token r;
     dt_accessKey := dt_accessKey r; dt_expiresAt := date (dt_expiresAt r);
     dt_isUsed := dt_isUsed r; dt_createdAt := date (dt_createdAt r);
     dt_usedAt := date <$> dt_usedAt r; dt_ipAddress := dt_ipAddress r |}.

Definition history (h : OrderStatusHistory) : OrderStatusHistory :=
  {| h_orderId := bigint (h_orderId h); h_orderType := h_orderType h;
     h_oldStatus := h_oldStatus h; h_newStatus := h_newStatus h;
     h_comment := h_comment h; h_adminId := h_adminId h;
     h_createdAt := date (h_createdAt h) |}.

Definition transaction (t : Transaction) : Transaction :=
  {| t_id := bigint (t_id t); t_userId := bigint (t_userId t);
     t_orderId := bigint <$> t_orderId t;
     t_orderType := t_orderType t; t_amount := t_amount t;
     t_type := t_type t; t_paymentMethod := t_paymentMethod t;
     t_paymentId := t_paymentId t; t_status := t_status t;
     t_description := t_description t; t_metadata := t_metadata t;
     t_createdAt := date (t_createdAt t);
     t_completedAt := date <$> t_completedAt t;
     t_updatedAt := date (t_updatedAt t) |}.

Definition shippingOrder (r : ShippingOrder) : ShippingOrder :=
  {| so_id := bigint (so_id r); so_userId := bigint (so_userId r);
     so_countryFromId := so_countryFromId r; so_weight := so_weight r;
     so_declaredValue := so_declaredValue r;
     so_declaredCurrency := so_declaredCurrency r;
     so_description := so_description r;
     so_recipientName := so_recipientName r;
     so_recipientPhone := so_recipientPhone r;
     so_recipientAddress := so_recipientAddress r;
     so_totalCost := so_totalCost r; so_status := so_status r;
     so_adminComment := so_adminComment r;
     so_trackNumber := so_trackNumber r;
     so_createdAt := date (so_createdAt r);
     so_updatedAt := date (so_updatedAt r) |}.

Definition purchaseOrder (r : PurchaseOrder) : PurchaseOrder :=
  {| po_id := bigint (po_id r); po_userId := bigint (po_userId r);
     po_countryId := po_countryId r; po_productId := po_productId r;
     po_productUrl := po_productUrl r; po_productName := po_productName r;
     po_quantity := po_quantity r; po_productPrice := po_productPrice r;
     po_productCurrency := po_productCurrency r;
     po_commission := po_commission r;
     po_deliveryCost := po_deliveryCost r; po_totalCost := po_totalCost r;
     po_prepaymentAmount := po_prepaymentAmount r;
     po_status := po_status r;
     po_adminComment := po_adminComment r;
     po_customerNotes := po_customerNotes r;
     po_actualWeight := po_actualWeight r;
     po_trackNumber := po_trackNumber r;
     po_createdAt := date (po_createdAt r);
     po_updatedAt := date (po_updatedAt r) |}.

Definition shippingOrderPayload (p : ShippingOrderPayload)
  : ShippingOrderPayload :=
  {| sp_row := shippingOrder (sp_row p);
     sp_user := user <$> sp_user p;
     sp_statusHistory := (fmap (M := list) history) <$> sp_statusHistory p;
     sp_transactions := (fmap (M := list) transaction) <$> sp_transactions p |}.

Definition purchaseOrderPayload (p : PurchaseOrderPayload)
  : PurchaseOrderPayload :=
  {| pp_row := purchaseOrder (pp_row p);
     pp_user := user <$> pp_user p;
     pp_statusHistory := (fmap (M := list) history) <$> pp_statusHistory p;
     pp_transactions := (fmap (M := list) transaction) <$> pp_transactions p |}.

Definition transactionPayload (p : TransactionPayload)
  : TransactionPayload :=
  {| tp_row := transaction (tp_row p); tp_user := user <$> tp_user p |}.

Definition tokenRecord (r : AdminDashboardToken * option Admin)
  : AdminDashboardToken * option Admin :=
  (adminDashboardToken (fst r), admin <$> snd r).

End convertBigInt.

(* ===================================================================== *)
(** ** The world and the monad of [async] methods *)
(* ===================================================================== *)

(** The two functions of the JavaScript engine that the model does not
    spell out: [JSON.parse] on a string that was not written by
    [JSON.stringify] ([None] when it throws a [SyntaxError]), and the
    decimal text of a number in a template literal. *)
Record JavaScript := {
  JSON_parse : string -> option CacheValue;
  Number_toString : number -> string
}.

Record World := {
  (** [Date.now()] *)
  clock : Z;
  (** successive values of [Math.floor(Math.random() * chars.length)] *)
  random_draws : nat -> nat;
  random_pos : nat;
  engine : JavaScript;
  (** Redis: key, string, instant at which the key expires *)
  redis : gmap string (RedisString * Z);
  (** number of [findUnique] queries answered by the database *)
  db_reads : nat;
  (** Prisma tables, as the engine holds them: ids are [bigint], dates are
      [Date] *)
  tbl_adminDashboardToken : gmap string AdminDashboardToken;
  tbl_admin : gmap Z Admin;
  tbl_user : gmap Z User;
  tbl_transaction : gmap Z Transaction;
  seq_transaction : Z;
  tbl_shippingOrder : gmap Z ShippingOrder;
  seq_shippingOrder : Z;
  tbl_purchaseOrder : gmap Z PurchaseOrder;
  seq_purchaseOrder : Z;
  tbl_orderStatusHistory : list OrderStatusHistory
}.

(** Field updates. *)
Definition set_clock (c : Z) (w : World) : World :=
  {| clock := c;
     random_draws := random_draws w;
     random_pos := random_pos w;
     engine := engine w;
     redis := redis w;
     db_reads := db_reads w;
     tbl_adminDashboardToken := tbl_adminDashboardToken w;
     tbl_admin := tbl_admin w;
     tbl_user := tbl_user w;
     tbl_transaction := tbl_transaction w;
     seq_transaction := seq_transaction w;
     tbl_shippingOrder := tbl_shippingOrder w;
     seq_shippingOrder := seq_shippingOrder w;
     tbl_purchaseOrder := tbl_purchaseOrder w;
     seq_purchaseOrder := seq_purchaseOrder w;
     tbl_orderStatusHistory := tbl_orderStatusHistory w |}.

Definition set_random_pos (n : nat) (w : World) : World :=
  {| clock := clock w;
     random_draws := random_draws w;
     random_pos := n;
     engine := engine w;
     redis := redis w;
     db_reads := db_reads w;
     tbl_adminDashboardToken := tbl_adminDashboardToken w;
     tbl_admin := tbl_admin w;
     tbl_user := tbl_user w;
     tbl_transaction := tbl_transaction w;
     seq_transaction := seq_transaction w;
     tbl_shippingOrder := tbl_shippingOrder w;
     seq_shippingOrder := seq_shippingOrder w;
     tbl_purchaseOrder := tbl_purchaseOrder w;
     seq_purchaseOrder := seq_purchaseOrder w;
     tbl_orderStatusHistory := tbl_orderStatusHistory w |}.

Definition set_redis (r : gmap string (RedisString * Z)) (w : World) : World :=
  {| clock := clock w;
     random_draws := random_draws w;
     random_pos := random_pos w;
     engine := engine w;
     redis := r;
     db_reads := db_reads w;
     tbl_adminDashboardToken := tbl_adminDashboardToken w;
     tbl_admin := tbl_admin w;
     tbl_user := tbl_user w;
     tbl_transaction := tbl_transaction w;
     seq_transaction := seq_transaction w;
     tbl_shippingOrder := tbl_shippingOrder w;
     seq_shippingOrder := seq_shippingOrder w;
     tbl_purchaseOrder := tbl_purchaseOrder w;
     seq_purchaseOrder := seq_purchaseOrder w;
     tbl_orderStatusHistory := tbl_orderStatusHistory w |}.

Definition set_db_reads (n : nat) (w : World) : World :=
  {| clock := clock w;
     random_draws := random_draws w;
     random_pos := random_pos w;
     engine := engine w;
     redis := redis w;
     db_reads := n;
     tbl_adminDashboardToken := tbl_adminDashboardToken w;
     tbl_admin := tbl_admin w;
     tbl_user := tbl_user w;
     tbl_transaction := tbl_transaction w;
     seq_transaction := seq_transaction w;
     tbl_shippingOrder := tbl_shippingOrder w;
     seq_shippingOrder := seq_shippingOrder w;
     tbl_purchaseOrder := tbl_purchaseOrder w;
     seq_purchaseOrder := seq_purchaseOrder w;
     tbl_orderStatusHistory := tbl_orderStatusHistory w |}.

Definition set_tbl_adminDashboardToken (t : gmap string AdminDashboardToken) (w : World) : World :=
  {| clock := clock w;
     random_draws := random_draws w;
     random_pos := random_pos w;
     engine := engine w;
     redis := redis w;
     db_reads := db_reads w;
     tbl_adminDashboardToken := t;
     tbl_admin := tbl_admin w;
     tbl_user := tbl_user w;
     tbl_transaction := tbl_transaction w;
     seq_transaction := seq_transaction w;
     tbl_shippingOrder := tbl_shippingOrder w;
     seq_shippingOrder := seq_shippingOrder w;
     tbl_purchaseOrder := tbl_purchaseOrder w;
     seq_purchaseOrder := seq_purchaseOrder w;
     tbl_orderStatusHistory := tbl_orderStatusHistory w |}.

Definition set_tbl_admin (t : gmap Z Admin) (w : World) : World :=
  {| clock := clock w;
     random_draws := random_draws w;
     random_pos := random_pos w;
     engine := engine w;
     redis := redis w;
     db_reads := db_reads w;
     tbl_adminDashboardToken := tbl_adminDashboardToken w;
     tbl_admin := t;
     tbl_user := tbl_user w;
     tbl_transaction := tbl_transaction w;
     seq_transaction := seq_transaction w;
     tbl_shippingOrder := tbl_shippingOrder w;
     seq_shippingOrder := seq_shippingOrder w;
     tbl_purchaseOrder := tbl_purchaseOrder w;
     seq_purchaseOrder := seq_purchaseOrder w;
     tbl_orderStatusHistory := tbl_orderStatusHistory w |}.

Definition set_tbl_user (t : gmap Z User) (w : World) : World :=
  {| clock := clock w;
     random_draws := random_draws w;
     random_pos := random_pos w;
     engine := engine w;
     redis := redis w;
     db_reads := db_reads w;
     tbl_adminDashboardToken := tbl_adminDashboardToken w;
     tbl_admin := tbl_admin w;
     tbl_user := t;
     tbl_transaction := tbl_transaction w;
     seq_transaction := seq_transaction w;
     tbl_shippingOrder := tbl_shippingOrder w;
     seq_shippingOrder := seq_shippingOrder w;
     tbl_purchaseOrder := tbl_purchaseOrder w;
     seq_purchaseOrder := seq_purchaseOrder w;
     tbl_orderStatusHistory := tbl_orderStatusHistory w |}.

Definition set_tbl_transaction (t : gmap Z Transaction) (next : Z) (w : World) : World :=
  {| clock := clock w;
     random_draws := random_draws w;
     random_pos := random_pos w;
     engine := engine w;
     redis := redis w;
     db_reads := db_reads w;
     tbl_adminDashboardToken := tbl_adminDashboardToken w;
     tbl_admin := tbl_admin w;
     tbl_user := tbl_user w;
     tbl_transaction := t;
     seq_transaction := next;
     tbl_shippingOrder := tbl_shippingOrder w;
     seq_shippingOrder := seq_shippingOrder w;
     tbl_purchaseOrder := tbl_purchaseOrder w;
     seq_purchaseOrder := seq_purchaseOrder w;
     tbl_orderStatusHistory := tbl_orderStatusHistory w |}.

Definition set_tbl_shippingOrder (t : gmap Z ShippingOrder) (next : Z) (w : World) : World :=
  {| clock := clock w;
     random_draws := random_draws w;
     random_pos := random_pos w;
     engine := engine w;
     redis := redis w;
     db_reads := db_reads w;
     tbl_adminDashboardToken := tbl_adminDashboardToken w;
     tbl_admin := tbl_admin w;
     tbl_user := tbl_user w;
     tbl_transaction := tbl_transaction w;
     seq_transaction := seq_transaction w;
     tbl_shippingOrder := t;
     seq_shippingOrder := next;
     tbl_purchaseOrder := tbl_purchaseOrder w;
     seq_purchaseOrder := seq_purchaseOrder w;
     tbl_orderStatusHistory := tbl_orderStatusHistory w |}.

Definition set_tbl_purchaseOrder (t : gmap Z PurchaseOrder) (next : Z) (w : World) : World :=
  {| clock := clock w;
     random_draws := random_draws w;
     random_pos := random_pos w;
     engine := engine w;
     redis := redis w;
     db_reads := db_reads w;
     tbl_adminDashboardToken := tbl_adminDashboardToken w;
     tbl_admin := tbl_admin w;
     tbl_user := tbl_user w;
     tbl_transaction := tbl_transaction w;
     seq_transaction := seq_transaction w;
     tbl_shippingOrder := tbl_shippingOrder w;
     seq_shippingOrder := seq_shippingOrder w;
     tbl_purchaseOrder := t;
     seq_purchaseOrder := next;
     tbl_orderStatusHistory := tbl_orderStatusHistory w |}.

Definition set_tbl_orderStatusHistory (t : list OrderStatusHistory) (w : World) : World :=
  {| clock := clock w;
     random_draws := random_draws w;
     random_pos := random_pos w;
     engine := engine w;
     redis := redis w;
     db_reads := db_reads w;
     tbl_adminDashboardToken := tbl_adminDashboardToken w;
     tbl_admin := tbl_admin w;
     tbl_user := tbl_user w;
     tbl_transaction := tbl_transaction w;
     seq_transaction := seq_transaction w;
     tbl_shippingOrder := tbl_shippingOrder w;
     seq_shippingOrder := seq_shippingOrder w;
     tbl_purchaseOrder := tbl_purchaseOrder w;
     seq_purchaseOrder := seq_purchaseOrder w;
     tbl_orderStatusHistory := t |}.

Definition M (A : Type) : Type := World -> World * outcome A.

Definition ret {A} (a : A) : M A := fun w => (w, Return a).
Definition throw {A} (e : exn) : M A := fun w => (w, Throw e).
Definition bind {A B} (m : M A) (k : A -> M B) : M B :=
  fun w =>
    match m w with
    | (w', Return a) => k a w'
    | (w', Throw e) => (w', Throw e)
    end.

Notation "'let*' x ':=' m 'in' k" := (bind m (fun x => k))
  (at level 10, x binder, m at level 100, k at level 200,
   format "'[v' 'let*'  x  ':='  m  'in' '/' k ']'").
Notation "m ';;' k" := (bind m (fun _ => k))
  (at level 100, k at level 200, right associativity).

Definition gets {A} (f : World -> A) : M A := fun w => (w, Return (f w)).
Definition modify (f : World -> World) : M unit := fun w => (f w, Return tt).

(** A pure computation that can throw, run inside a method. *)
Definition lift {A} (o : outcome A) : M A := fun w => (w, o).

(** [new Date()] / [Date.now()] *)
Definition Date_now : M Z := gets clock.

(** Time passing between two requests. *)
Definition advance (ms : Z) (w : World) : World := set_clock (clock w + ms) w.

(** [Math.floor(Math.random() * n)]: the next draw, reduced into [0, n). *)
Definition Math_random_below (n : nat) : M nat :=
  fun w =>
    (set_random_pos (S (random_pos w)) w,
     Return (Nat.modulo (random_draws w (random_pos w)) n)).

(** [str.charAt(i)]: the character at [i] as a string, empty out of range. *)
Definition charAt (s : string) (i : nat) : string :=
  match String.get i s with
  | Some c => String c EmptyString
  | None => EmptyString
  end.

(** [packages/shared/src/utils/index.ts], [generateId] *)
Module Utils.

Definition chars : string := "ABCDEFGHIJKLMNOPQRSTUVWXYZ0123456789".

Fixpoint generateId_loop (remaining : nat) (result : string) : M string :=
  match remaining with
  | O => ret result
  | S n =>
      let* i := Math_random_below (String.length chars) in
      generateId_loop n (result +:+ charAt chars i)
  end.

Definition generateId (length : nat) : M string :=
  generateId_loop length "".

End Utils.

(* ===================================================================== *)
(** ** [RedisHelper] (part_006) *)
(* ===================================================================== *)

(** What Redis holds under [key] for a reader at the world's clock: a key
    whose expiry has been reached is gone. *)
Definition cache_lookup (key : string) (w : World) : option RedisString :=
  match redis w !! key with
  | Some (v, expiry) => if decide (clock w < expiry) then Some v else None
  | None => None
  end.

(** Whether a reader at the world's clock finds anything under [key]. *)
Definition cache_has (key : string) (w : World) : bool :=
  match cache_lookup key w with
  | Some _ => true
  | None => false
  end.

(** The ioredis client underneath the helper. *)
Module Client.

(** [SETEX key ttl value]: Redis refuses a non-positive expiry. *)
Definition setex (key : string) (ttl : Z) (value : RedisString) : M unit :=
  fun w =>
    if decide (ttl <= 0) then
      (w, Throw (ReplyError "ERR invalid expire time in 'setex' command"))
    else
      (set_redis (<[key := (value, clock w + ttl * 1000)]> (redis w)) w,
       Return tt).

(** [GET key] *)
Definition get (key : string) : M (option RedisString) :=
  gets (cache_lookup key).

(** [DEL key] *)
Definition del (key : string) : M Z :=
  fun w =>
    match redis w !! key with
    | Some _ => (set_redis (delete key (redis w)) w, Return 1)
    | None => (w, Return 0)
    end.

End Client.

Module RedisHelper.

(** TTL constants, in seconds. *)
Definition TTL_SHORT : Z := 60 * 5.
Definition TTL_MEDIUM : Z := 60 * 30.
Definition TTL_LONG : Z := 60 * 60 * 2.
Definition TTL_DAY : Z := 60 * 60 * 24.
Definition TTL_WEEK : Z := 60 * 60 * 24 * 7.
Definition TTL_MONTH : Z := 60 * 60 * 24 * 30.

(** Every member the class body declares, in source order. *)
Definition members : list string :=
  [ "setWithTTL"; "get"; "mget"; "mset"; "sadd"; "srem"; "smembers";
    "sismember"; "hset"; "hget"; "hgetall"; "incr"; "incrby"; "decr";
    "lock"; "unlock"; "publish"; "deletePattern"; "clearCache"; "ping";
    "info" ].

(** [helper.name(...)]: the property is looked up on the instance; a name
    the class does not declare evaluates to [undefined], and calling it
    raises [TypeError] before anything is sent to Redis. *)
Definition invoke {A} (name : string) (body : M A) : M A :=
  if bool_decide (name ∈ members) then body
  else throw (TypeError (name +:+ " is not a function")).

(** [typeof value === 'string' ? value : JSON.stringify(value)] *)
Definition serialize (value : CacheValue) : outcome RedisString :=
  match value with
  | VString s => Return (Raw s)
  | _ => JSON.stringify value
  end.

Definition setWithTTL (key : string) (value : CacheValue) (ttl : Z)
  : M unit :=
  invoke "setWithTTL"
    (let* serialized := lift (serialize value) in
     Client.setex key ttl serialized).

(** [JSON.parse(value)], with the string itself as the fallback. *)
Definition parse_or_raw (text : RedisString) (w : World) : CacheValue :=
  match text with
  | Raw s =>
      match JSON_parse (engine w) s with
      | Some v => v
      | None => VString s
      end
  | Stringified v => v
  end.

(** [if (!value) return null]: a missing key and the empty string. *)
Definition get (key : string) : M CacheValue :=
  invoke "get"
    (let* value := Client.get key in
     match value with
     | None => ret VNull
     | Some (Raw "") => ret VNull
     | Some text => gets (parse_or_raw text)
     end).

Definition unlock (key : string) : M unit :=
  invoke "unlock" (Client.del key ;; ret tt).

(** [helper.del(key)], as the services write it.  The body is what the
    helper's own [unlock] runs on the client; it is reached only if [del]
    is a member. *)
Definition del (key : string) : M unit :=
  invoke "del" (Client.del key ;; ret tt).

(** [REDIS_KEYS] and the template literals of the services. *)
Definition ADMIN_DASHBOARD_TOKEN (token : string) : string :=
  "admin:dashboard:" +:+ token.
Definition ADMIN_PENDING_ACCESS (adminId : Z) : string :=
  "admin:pending:" +:+ pretty adminId.
Definition ADMIN_WEB_SESSION (sessionId : string) : string :=
  "admin:web_session:" +:+ sessionId.
Definition ADMIN_REFRESH_TOKEN (refreshToken : string) : string :=
  "admin:refresh:" +:+ refreshToken.
Definition USER_PROFILE (userId : BigIntValue) : string :=
  "cache:user:" +:+ pretty (id_of userId).
Definition ORDER_DETAILS (orderId : BigIntValue) : string :=
  "cache:order:" +:+ pretty (id_of orderId).
Definition TRANSACTION (transactionId : BigIntValue) : string :=
  "transaction:" +:+ pretty (id_of transactionId).

End RedisHelper.

(** [`${value}`] for a value read back from Redis. *)
Definition template_of (v : CacheValue) (w : World) : string :=
  match v with
  | VNull => "null"
  | VBool true => "true"
  | VBool false => "false"
  | VNumber x => Number_toString (engine w) x
  | VString s => s
  | VToken _ | VSession _ | VRefresh _ _ | VOrder _ | VTransaction _ =>
      "[object Object]"
  end.

(* ===================================================================== *)
(** ** The Prisma client: the queries the services issue *)
(* ===================================================================== *)

Module Prisma.

(** [prisma.$use(async (params, next) => ...)]: the second middleware of
    the client hands every query result that is an object to
    [convertBigInt]; a [null] result is handed on as it is.  (The first
    middleware only logs the time a query took.) *)
Definition use {A} (convertBigInt : A -> A) (next : M A) : M A :=
  let* result := next in
  ret (convertBigInt result).

(** Modelled from the spec: the Prisma schema and the query engine are not
    among the sources.  The persistent store of the specification finds a
    record by its key; the model takes the key a query names to be the
    integer its argument writes, whether the argument is a [bigint] or the
    decimal string the middleware has made of one. *)
Definition key_of (id : BigIntValue) : Z := id_of id.

(** Modelled from the spec: the Prisma schema is not among the sources.
    The data model of the specification makes [token] and [accessKey] unique
    in the token table ([findUnique] selects by [token]). *)
Definition adminDashboardToken_conflict (token accessKey : string)
    (tbl : gmap string AdminDashboardToken) : bool :=
  bool_decide (is_Some (tbl !! token))
  || negb (bool_decide
             (map_Forall (fun _ r => dt_accessKey r ≠ accessKey) tbl)).

(** [adminDashboardToken.create]: [isUsed] and [createdAt] take their
    column defaults.  A violated unique constraint is error P2002. *)
Definition adminDashboardToken_create
    (adminId : Z) (token accessKey : string) (expiresAt : Z)
    (ipAddress : option string) : M AdminDashboardToken :=
  use convertBigInt.adminDashboardToken
    (fun w =>
       let tbl := tbl_adminDashboardToken w in
       if adminDashboardToken_conflict token accessKey tbl
       then (w, Throw (PrismaClientKnownRequestError "P2002"))
       else
         let row := {| dt_adminId := adminId; dt_token := token;
                       dt_accessKey := accessKey;
                       dt_expiresAt := Date expiresAt;
                       dt_isUsed := false; dt_createdAt := Date (clock w);
                       dt_usedAt := None; dt_ipAddress := ipAddress |} in
         (set_tbl_adminDashboardToken (<[token := row]> tbl) w, Return row)).

(** [adminDashboardToken.findUnique({ where: { token }, include: { admin } })] *)
Definition adminDashboardToken_findUnique (token : string)
  : M (option (AdminDashboardToken * option Admin)) :=
  use (fmap convertBigInt.tokenRecord)
    (fun w =>
       (set_db_reads (S (db_reads w)) w,
        Return (match tbl_adminDashboardToken w !! token with
                | Some r => Some (r, tbl_admin w !! dt_adminId r)
                | None => None
                end))).

(** [adminDashboardToken.updateMany({ where, data })]; the result is a
    count. *)
Definition adminDashboardToken_updateMany
    (where_ : AdminDashboardToken -> bool)
    (data : AdminDashboardToken -> AdminDashboardToken) : M unit :=
  modify (fun w =>
    set_tbl_adminDashboardToken
      ((fun r => if where_ r then data r else r)
         <$> tbl_adminDashboardToken w) w).

(** [expiresAt: { gt: now }] on a stored row. *)
Definition gt (d : DateValue) (now : Z) : bool :=
  match d with
  | Date ms => bool_decide (now < ms)
  | ISOString _ | EmptyObject => false
  end.

(** [admin.findUnique({ where: { id } })] *)
Definition admin_findUnique (id : Z) : M (option Admin) :=
  use (fmap convertBigInt.admin)
    (fun w => (set_db_reads (S (db_reads w)) w, Return (tbl_admin w !! id))).

(** [user.findUnique({ where: { id } })] *)
Definition user_findUnique (id : BigIntValue) : M (option User) :=
  use (fmap convertBigInt.user)
    (fun w =>
       (set_db_reads (S (db_reads w)) w, Return (tbl_user w !! key_of id))).

(** [{ ...user, balance }] *)
Definition with_balance (balance : number) (u : User) : User :=
  {| u_id := u_id u; u_telegramId := u_telegramId u;
     u_balance := Some balance; u_isActive := u_isActive u |}.

(** [user.update({ where: { id }, data: { balance } })]; a missing row is
    error P2025. *)
Definition user_update_balance (id : BigIntValue) (balance : number)
  : M User :=
  use convertBigInt.user
    (fun w =>
       match tbl_user w !! key_of id with
       | Some u =>
           let u' := with_balance balance u in
           (set_tbl_user (<[key_of id := u']> (tbl_user w)) w, Return u')
       | None => (w, Throw (PrismaClientKnownRequestError "P2025"))
       end).

(** The rows of the shared history table that belong to one order, oldest
    first. *)
Definition history_of (orderId : Z) (orderType : OrderType)
    (rows : list OrderStatusHistory) : list OrderStatusHistory :=
  List.filter
    (fun h => bool_decide (id_of (h_orderId h) = orderId)
              && bool_decide (h_orderType h = orderType))
    rows.

(** [statusHistory: { orderBy: { createdAt: 'desc' } }] *)
Definition include_statusHistory (orderId : Z) (orderType : OrderType)
    (w : World) : list OrderStatusHistory :=
  rev (history_of orderId orderType (tbl_orderStatusHistory w)).

(** [transactions: true] *)
Definition include_transactions (orderId : Z) (orderType : OrderType)
    (w : World) : list Transaction :=
  List.filter
    (fun t => bool_decide (id_of <$> t_orderId t = Some orderId)
              && bool_decide (t_orderType t = Some orderType))
    (snd <$> map_to_list (tbl_transaction w)).

(** The columns of [shippingOrder.create]'s [data]. *)
Record ShippingOrderCreateData := {
  sc_userId : Z;
  sc_countryFromId : Z;
  sc_weight : number;
  sc_declaredValue : option number;
  sc_declaredCurrency : string;
  sc_description : option string;
  sc_recipientName : string;
  sc_recipientPhone : string;
  sc_recipientAddress : string;
  sc_totalCost : number;
  sc_status : OrderStatus
}.

(** [shippingOrder.create({ data, include: { user, countryFrom } })]: the
    id is the next value of the column's sequence. *)
Definition shippingOrder_create (data : ShippingOrderCreateData)
  : M ShippingOrderPayload :=
  use convertBigInt.shippingOrderPayload
    (fun w =>
       let id := seq_shippingOrder w in
       let row := {| so_id := BigInt id; so_userId := BigInt (sc_userId data);
                     so_countryFromId := sc_countryFromId data;
                     so_weight := Some (sc_weight data);
                     so_declaredValue := sc_declaredValue data;
                     so_declaredCurrency := sc_declaredCurrency data;
                     so_description := sc_description data;
                     so_recipientName := sc_recipientName data;
                     so_recipientPhone := sc_recipientPhone data;
                     so_recipientAddress := sc_recipientAddress data;
                     so_totalCost := Some (sc_totalCost data);
                     so_status := sc_status data;
                     so_adminComment := None; so_trackNumber := None;
                     so_createdAt := Date (clock w);
                     so_updatedAt := Date (clock w) |} in
       (set_tbl_shippingOrder (<[id := row]> (tbl_shippingOrder w)) (id + 1) w,
        Return {| sp_row := row; sp_user := tbl_user w !! sc_userId data;
                  sp_statusHistory := None; sp_transactions := None |})).

(** [shippingOrder.findUnique] with the relations of [getShippingOrder]. *)
Definition shippingOrder_findUnique (id : BigIntValue)
  : M (option ShippingOrderPayload) :=
  use (fmap convertBigInt.shippingOrderPayload)
    (fun w =>
       (set_db_reads (S (db_reads w)) w,
        Return (match tbl_shippingOrder w !! key_of id with
                | Some row =>
                    Some {| sp_row := row;
                            sp_user := tbl_user w !! id_of (so_userId row);
                            sp_statusHistory :=
                              Some (include_statusHistory (key_of id)
                                      shipping w);
                            sp_transactions :=
                              Some (include_transactions (key_of id)
                                      shipping w) |}
                | None => None
                end))).

Definition so_with_status (status : OrderStatus) (updatedAt : Z)
    (r : ShippingOrder) : ShippingOrder :=
  {| so_id := so_id r; so_userId := so_userId r;
     so_countryFromId := so_countryFromId r; so_weight := so_weight r;
     so_declaredValue := so_declaredValue r;
     so_declaredCurrency := so_declaredCurrency r;
     so_description := so_description r;
     so_recipientName := so_recipientName r;
     so_recipientPhone := so_recipientPhone r;
     so_recipientAddress := so_recipientAddress r;
     so_totalCost := so_totalCost r; so_status := status;
     so_adminComment := so_adminComment r;
     so_trackNumber := so_trackNumber r;
     so_createdAt := so_createdAt r; so_updatedAt := Date updatedAt |}.

Definition so_with_trackNumber (trackNumber : string)
    (r : ShippingOrder) : ShippingOrder :=
  {| so_id := so_id r; so_userId := so_userId r;
     so_countryFromId := so_countryFromId r; so_weight := so_weight r;
     so_declaredValue := so_declaredValue r;
     so_declaredCurrency := so_declaredCurrency r;
     so_description := so_description r;
     so_recipientName := so_recipientName r;
     so_recipientPhone := so_recipientPhone r;
     so_recipientAddress := so_recipientAddress r;
     so_totalCost := so_totalCost r; so_status := so_status r;
     so_adminComment := so_adminComment r;
     so_trackNumber := Some trackNumber;
     so_createdAt := so_createdAt r; so_updatedAt := so_updatedAt r |}.

(** [shippingOrder.update({ where: { id }, data, include: { user,
    countryFrom } })]; a missing row is error P2025. *)
Definition shippingOrder_update (id : BigIntValue)
    (data : ShippingOrder -> ShippingOrder) : M ShippingOrderPayload :=
  use convertBigInt.shippingOrderPayload
    (fun w =>
       match tbl_shippingOrder w !! key_of id with
       | Some row =>
           let row' := data row in
           (set_tbl_shippingOrder (<[key_of id := row']> (tbl_shippingOrder w))
              (seq_shippingOrder w) w,
            Return {| sp_row := row';
                      sp_user := tbl_user w !! id_of (so_userId row');
                      sp_statusHistory := None; sp_transactions := None |})
       | None => (w, Throw (PrismaClientKnownRequestError "P2025"))
       end).

(** The columns of [purchaseOrder.create]'s [data]. *)
Record PurchaseOrderCreateData := {
  pc_userId : Z;
  pc_countryId : Z;
  pc_productId : option Z;
  pc_productUrl : option string;
  pc_productName : string;
  pc_quantity : Z;
  pc_productPrice : number;
  pc_productCurrency : string;
  pc_commission : number;
  pc_prepaymentAmount : number;
  pc_customerNotes : option string;
  pc_totalCost : number;
  pc_status : PurchaseOrderStatus
}.

(** [purchaseOrder.create({ data, include: { user, country, product } })] *)
Definition purchaseOrder_create (data : PurchaseOrderCreateData)
  : M PurchaseOrderPayload :=
  use convertBigInt.purchaseOrderPayload
    (fun w =>
       let id := seq_purchaseOrder w in
       let row := {| po_id := BigInt id; po_userId := BigInt (pc_userId data);
                     po_countryId := pc_countryId data;
                     po_productId := pc_productId data;
                     po_productUrl := pc_productUrl data;
                     po_productName := pc_productName data;
                     po_quantity := pc_quantity data;
                     po_productPrice := Some (pc_productPrice data);
                     po_productCurrency := pc_productCurrency data;
                     po_commission := Some (pc_commission data);
                     po_deliveryCost := None;
                     po_totalCost := Some (pc_totalCost data);
                     po_prepaymentAmount := Some (pc_prepaymentAmount data);
                     po_status := pc_status data;
                     po_adminComment := None;
                     po_customerNotes := pc_customerNotes data;
                     po_actualWeight := None; po_trackNumber := None;
                     po_createdAt := Date (clock w);
                     po_updatedAt := Date (clock w) |} in
       (set_tbl_purchaseOrder (<[id := row]> (tbl_purchaseOrder w)) (id + 1) w,
        Return {| pp_row := row; pp_user := tbl_user w !! pc_userId data;
                  pp_statusHistory := None; pp_transactions := None |})).

(** [purchaseOrder.findUnique] with the relations of [getPurchaseOrder]. *)
Definition purchaseOrder_findUnique (id : BigIntValue)
  : M (option PurchaseOrderPayload) :=
  use (fmap convertBigInt.purchaseOrderPayload)
    (fun w =>
       (set_db_reads (S (db_reads w)) w,
        Return (match tbl_purchaseOrder w !! key_of id with
                | Some row =>
                    Some {| pp_row := row;
                            pp_user := tbl_user w !! id_of (po_userId row);
                            pp_statusHistory :=
                              Some (include_statusHistory (key_of id)
                                      purchase w);
                            pp_transactions :=
                              Some (include_transactions (key_of id)
                                      purchase w) |}
                | None => None
                end))).

Definition po_with_status (status : PurchaseOrderStatus) (updatedAt : Z)
    (r : PurchaseOrder) : PurchaseOrder :=
  {| po_id := po_id r; po_userId := po_userId r;
     po_countryId := po_countryId r; po_productId := po_productId r;
     po_productUrl := po_productUrl r; po_productName := po_productName r;
     po_quantity := po_quantity r; po_productPrice := po_productPrice r;
     po_productCurrency := po_productCurrency r;
     po_commission := po_commission r;
     po_deliveryCost := po_deliveryCost r; po_totalCost := po_totalCost r;
     po_prepaymentAmount := po_prepaymentAmount r; po_status := status;
     po_adminComment := po_adminComment r;
     po_customerNotes := po_customerNotes r;
     po_actualWeight := po_actualWeight r;
     po_trackNumber := po_trackNumber r;
     po_createdAt := po_createdAt r; po_updatedAt := Date updatedAt |}.

Definition po_with_trackNumber (trackNumber : string)
    (r : PurchaseOrder) : PurchaseOrder :=
  {| po_id := po_id r; po_userId := po_userId r;
     po_countryId := po_countryId r; po_productId := po_productId r;
     po_productUrl := po_productUrl r; po_productName := po_productName r;
     po_quantity := po_quantity r; po_productPrice := po_productPrice r;
     po_productCurrency := po_productCurrency r;
     po_commission := po_commission r;
     po_deliveryCost := po_deliveryCost r; po_totalCost := po_totalCost r;
     po_prepaymentAmount := po_prepaymentAmount r;
     po_status := po_status r;
     po_adminComment := po_adminComment r;
     po_customerNotes := po_customerNotes r;
     po_actualWeight := po_actualWeight r;
     po_trackNumber := Some trackNumber;
     po_createdAt := po_createdAt r; po_updatedAt := po_updatedAt r |}.

(** [purchaseOrder.update({ where: { id }, data, include })] *)
Definition purchaseOrder_update (id : BigIntValue)
    (data : PurchaseOrder -> PurchaseOrder) : M PurchaseOrderPayload :=
  use convertBigInt.purchaseOrderPayload
    (fun w =>
       match tbl_purchaseOrder w !! key_of id with
       | Some row =>
           let row' := data row in
           (set_tbl_purchaseOrder (<[key_of id := row']> (tbl_purchaseOrder w))
              (seq_purchaseOrder w) w,
            Return {| pp_row := row';
                      pp_user := tbl_user w !! id_of (po_userId row');
                      pp_statusHistory := None; pp_transactions := None |})
       | None => (w, Throw (PrismaClientKnownRequestError "P2025"))
       end).

(** [orderStatusHistory.create({ data })]: one row appended. *)
Definition orderStatusHistory_create (orderId : BigIntValue)
    (orderType : OrderType)
    (oldStatus : option string) (newStatus : string)
    (comment : option string) (adminId : option Z)
  : M OrderStatusHistory :=
  use convertBigInt.history
    (fun w =>
       let row := {| h_orderId := BigInt (key_of orderId);
                     h_orderType := orderType;
                     h_oldStatus := oldStatus; h_newStatus := newStatus;
                     h_comment := comment; h_adminId := adminId;
                     h_createdAt := Date (clock w) |} in
       (set_tbl_orderStatusHistory (tbl_orderStatusHistory w ++ [row]) w,
        Return row)).

(** [transaction.create({ data: { ...data, status }, include })] *)
Definition transaction_create (userId : Z) (orderId : option Z)
    (orderType : option OrderType) (amount : number) (type : TransactionType)
    (paymentMethod : option PaymentMethod)
    (description metadata : option string) (status : TransactionStatus)
  : M TransactionPayload :=
  use convertBigInt.transactionPayload
    (fun w =>
       let id := seq_transaction w in
       let row := {| t_id := BigInt id; t_userId := BigInt userId;
                     t_orderId := BigInt <$> orderId;
                     t_orderType := orderType; t_amount := Some amount;
                     t_type := type; t_paymentMethod := paymentMethod;
                     t_paymentId := None; t_status := status;
                     t_description := description; t_metadata := metadata;
                     t_createdAt := Date (clock w);
                     t_completedAt := None; t_updatedAt := Date (clock w) |} in
       (set_tbl_transaction (<[id := row]> (tbl_transaction w)) (id + 1) w,
        Return {| tp_row := row; tp_user := tbl_user w !! userId |})).

(** [transaction.update({ where: { id }, data: updateData, include })] *)
Definition transaction_update (id : BigIntValue)
    (data : Transaction -> Transaction) : M TransactionPayload :=
  use convertBigInt.transactionPayload
    (fun w =>
       match tbl_transaction w !! key_of id with
       | Some row =>
           let row' := data row in
           (set_tbl_transaction (<[key_of id := row']> (tbl_transaction w))
              (seq_transaction w) w,
            Return {| tp_row := row';
                      tp_user := tbl_user w !! id_of (t_userId row') |})
       | None => (w, Throw (PrismaClientKnownRequestError "P2025"))
       end).

End Prisma.

(* ===================================================================== *)
(** ** [AdminAuthService] (second file of handlers/commands/index.ts) *)
(* ===================================================================== *)

Module AdminAuthService.

(** [env.getAdminDashboardUrl], as [BotServices] wires it. *)
Definition getAdminDashboardUrl : string := "".

Record AdminDashboardAccess := {
  dashboardUrl : string;
  accessKey : string;
  expiresAt : Z;
  instructions : string
}.

Record ValidationResult := {
  valid : bool;
  adminId : option Z;
  tokenRecord : option (AdminDashboardToken * option Admin);
  error : option string
}.

(** The four refusals of [validateDashboardToken], by the names the
    specification gives them. *)
Definition NotFound : string := "Токен не найден или истек".
Definition KeyMismatch : string := "Неверный ключ доступа".
Definition AlreadyUsed : string := "Токен уже был использован".
Definition Expired : string := "Токен истек".

Definition refusal (msg : string) : ValidationResult :=
  {| valid := false; adminId := None; tokenRecord := None;
     error := Some msg |}.

Definition mark_used (usedAt : Z) (ipAddress : option string)
    (r : AdminDashboardToken) : AdminDashboardToken :=
  {| dt_adminId := dt_adminId r; dt_token := dt_token r;
     dt_accessKey := dt_accessKey r; dt_expiresAt := dt_expiresAt r;
     dt_isUsed := true; dt_createdAt := dt_createdAt r;
     dt_usedAt := Some (Date usedAt);
     dt_ipAddress := match ipAddress with
                     | Some ip => Some ip
                     | None => dt_ipAddress r
                     end |}.

Definition revokeAdminTokens (adminId : Z) : M unit :=
  let* now := Date_now in
  let* usedAt := Date_now in
  Prisma.adminDashboardToken_updateMany
    (fun r => bool_decide (dt_adminId r = adminId)
              && negb (dt_isUsed r)
              && Prisma.gt (dt_expiresAt r) now)
    (mark_used usedAt None) ;;
  let adminKey := RedisHelper.ADMIN_PENDING_ACCESS adminId in
  let* activeToken := RedisHelper.get adminKey in
  if truthy activeToken then
    let* tokenKey :=
      gets (fun w =>
              RedisHelper.ADMIN_DASHBOARD_TOKEN (template_of activeToken w)) in
    RedisHelper.del tokenKey ;;
    RedisHelper.del adminKey
  else ret tt.

Definition generateDashboardAccess (adminId : Z) (ipAddress : option string)
  : M AdminDashboardAccess :=
  revokeAdminTokens adminId ;;
  let* accessKey := Utils.generateId 16 in
  let* token := Utils.generateId 32 in
  let* now := Date_now in
  let expiresAt := now + 15 * 60 * 1000 in
  Prisma.adminDashboardToken_create adminId token accessKey expiresAt
    ipAddress ;;
  let* createdAt := Date_now in
  let tokenData := {| td_adminId := adminId; td_accessKey := accessKey;
                      td_expiresAt := expiresAt; td_isUsed := false;
                      td_createdAt := createdAt;
                      td_ipAddress := ipAddress |} in
  let redisKey := RedisHelper.ADMIN_DASHBOARD_TOKEN token in
  RedisHelper.setWithTTL redisKey (VToken tokenData) (15 * 60) ;;
  let dashboardUrl := getAdminDashboardUrl +:+ "/" +:+ token in
  ret {| dashboardUrl := dashboardUrl; accessKey := accessKey;
         expiresAt := expiresAt;
         instructions := "Перейдите по ссылке и введите ключ доступа. Ссылка действительна 15 минут." |}.

Definition markTokenAsUsed (token : string) (ipAddress : option string)
  : M unit :=
  let* usedAt := Date_now in
  Prisma.adminDashboardToken_updateMany
    (fun r => bool_decide (dt_token r = token))
    (mark_used usedAt ipAddress) ;;
  let redisKey := RedisHelper.ADMIN_DASHBOARD_TOKEN token in
  RedisHelper.del redisKey.

Definition markTokenAsExpired (token : string) : M unit :=
  RedisHelper.del (RedisHelper.ADMIN_DASHBOARD_TOKEN token).

(** The checks of [validateDashboardToken] once [tokenData] is in hand.
    A value that is not a token object has no [accessKey] property, so
    the first comparison already fails. *)
Definition validate_tokenData (token accessKey : string)
    (tokenData : CacheValue) : M ValidationResult :=
  match tokenData with
  | VToken d =>
      if negb (bool_decide (td_accessKey d = accessKey)) then
        ret (refusal KeyMismatch)
      else if td_isUsed d then
        ret (refusal AlreadyUsed)
      else
        let* now := Date_now in
        if bool_decide (td_expiresAt d < now) then
          markTokenAsExpired token ;;
          ret (refusal Expired)
        else
          let* tokenRecord := Prisma.adminDashboardToken_findUnique token in
          ret {| valid := true; adminId := Some (td_adminId d);
                 tokenRecord := tokenRecord; error := None |}
  | _ => ret (refusal KeyMismatch)
  end.

(** [value.toISOString()]: only a [Date] has the method. *)
Definition toISOString (receiver : string) (value : DateValue) : M Z :=
  match value with
  | Date ms => ret ms
  | ISOString _ | EmptyObject =>
      throw (TypeError (receiver +:+ ".toISOString is not a function"))
  end.

(** The [tokenData] that [validateDashboardToken] rebuilds from the
    durable row on a cache miss. *)
Definition tokenData_of_dbToken (dbToken : AdminDashboardToken)
  : M TokenData :=
  let* expiresAt := toISOString "dbToken.expiresAt" (dt_expiresAt dbToken) in
  let* createdAt := toISOString "dbToken.createdAt" (dt_createdAt dbToken) in
  ret {| td_adminId := dt_adminId dbToken;
         td_accessKey := dt_accessKey dbToken;
         td_expiresAt := expiresAt;
         td_isUsed := dt_isUsed dbToken;
         td_createdAt := createdAt;
         td_ipAddress := None |}.

Definition validateDashboardToken (token accessKey : string)
    (ipAddress : option string) : M ValidationResult :=
  let redisKey := RedisHelper.ADMIN_DASHBOARD_TOKEN token in
  let* tokenData := RedisHelper.get redisKey in
  if negb (truthy tokenData) then
    let* dbToken := Prisma.adminDashboardToken_findUnique token in
    match dbToken with
    | None => ret (refusal NotFound)
    | Some (dbToken, _) =>
        let* tokenData := tokenData_of_dbToken dbToken in
        validate_tokenData token accessKey (VToken tokenData)
    end
  else validate_tokenData token accessKey tokenData.

Record WebSession := {
  ws_sessionId : string;
  ws_accessToken : string;
  ws_refreshToken : string;
  ws_expiresAt : Z
}.

Definition createWebSession (adminId : Z)
    (ipAddress userAgent : option string) : M WebSession :=
  let* sessionId := Utils.generateId 32 in
  let* accessToken := Utils.generateId 64 in
  let* refreshToken := Utils.generateId 64 in
  let* now := Date_now in
  let expiresAt := now + 7 * 24 * 60 * 60 * 1000 in
  let* createdAt := Date_now in
  let* lastActivity := Date_now in
  let sessionData := {| sd_sessionId := sessionId; sd_adminId := adminId;
                        sd_accessToken := accessToken;
                        sd_refreshToken := refreshToken;
                        sd_expiresAt := expiresAt;
                        sd_createdAt := createdAt;
                        sd_lastActivity := lastActivity;
                        sd_ipAddress := ipAddress;
                        sd_userAgent := userAgent |} in
  RedisHelper.setWithTTL (RedisHelper.ADMIN_WEB_SESSION sessionId)
    (VSession sessionData) (7 * 24 * 60 * 60) ;;
  RedisHelper.setWithTTL (RedisHelper.ADMIN_REFRESH_TOKEN refreshToken)
    (VRefresh sessionId adminId) (30 * 24 * 60 * 60) ;;
  ret {| ws_sessionId := sessionId; ws_accessToken := accessToken;
         ws_refreshToken := refreshToken; ws_expiresAt := expiresAt |}.

Record SessionResult := {
  sr_valid : bool;
  sr_admin : option Admin;
  sr_session : option SessionData
}.

Definition invalid_session : SessionResult :=
  {| sr_valid := false; sr_admin := None; sr_session := None |}.

(** [sessionData.lastActivity = ...] *)
Definition touch (lastActivity : Z) (d : SessionData) : SessionData :=
  {| sd_sessionId := sd_sessionId d; sd_adminId := sd_adminId d;
     sd_accessToken := sd_accessToken d;
     sd_refreshToken := sd_refreshToken d;
     sd_expiresAt := sd_expiresAt d; sd_createdAt := sd_createdAt d;
     sd_lastActivity := lastActivity;
     sd_ipAddress := sd_ipAddress d; sd_userAgent := sd_userAgent d |}.

(** A truthy value that is not a session object: the keys under
    [admin:web_session:] are written by [createWebSession] and by this
    method only, both with session objects.  For any other value the model
    follows the scalar case: no [expiresAt], so the date comparison is
    false, and no [adminId], so the client rejects the admin query for its
    undefined [id]. *)
Definition validateWebSession (sessionId : string) : M SessionResult :=
  let key := RedisHelper.ADMIN_WEB_SESSION sessionId in
  let* sessionData := RedisHelper.get key in
  if negb (truthy sessionData) then ret invalid_session
  else
    match sessionData with
    | VSession d =>
        let* now := Date_now in
        if bool_decide (sd_expiresAt d < now) then
          RedisHelper.del key ;;
          ret invalid_session
        else
          let* admin := Prisma.admin_findUnique (sd_adminId d) in
          match admin with
          | Some a =>
              if negb (a_isActive a) then
                RedisHelper.del key ;;
                ret invalid_session
              else
                let* lastActivity := Date_now in
                let d' := touch lastActivity d in
                RedisHelper.setWithTTL key (VSession d') (7 * 24 * 60 * 60) ;;
                ret {| sr_valid := true; sr_admin := Some a;
                       sr_session := Some d' |}
          | None =>
              RedisHelper.del key ;;
              ret invalid_session
          end
    | _ => throw PrismaClientValidationError
    end.

End AdminAuthService.

(** [a || b] on an optional string: [undefined] and the empty string are
    falsy. *)
Definition or_else (a : option string) (b : string) : string :=
  match a with
  | None => b
  | Some "" => b
  | Some s => s
  end.

(* ===================================================================== *)
(** ** [OrderService] (part_001) *)
(* ===================================================================== *)

Module OrderService.

Record ShippingOrderCreateInput := {
  si_userId : Z;
  si_countryFromId : Z;
  si_weight : number;
  si_declaredValue : option number;
  si_declaredCurrency : option string;
  si_description : option string;
  si_recipientName : string;
  si_recipientPhone : string;
  si_recipientAddress : string;
  si_totalCost : number
}.

Record PurchaseOrderCreateInput := {
  pi_userId : Z;
  pi_countryId : Z;
  pi_productId : option Z;
  pi_productUrl : option string;
  pi_productName : string;
  pi_quantity : Z;
  pi_productPrice : number;
  pi_productCurrency : option string;
  pi_commission : number;
  pi_prepaymentAmount : number;
  pi_customerNotes : option string
}.

(** [orderId] is whatever the caller holds: the [bigint] of a request, or
    the [id] of a query result. *)
Definition createStatusHistory (orderId : BigIntValue)
    (orderType : OrderType)
    (oldStatus : option string) (newStatus : string)
    (comment : option string) (adminId : option Z) : M unit :=
  Prisma.orderStatusHistory_create orderId orderType oldStatus newStatus
    comment adminId ;;
  ret tt.

(** [{ ...order, type }] stored under [ORDER_DETAILS(orderId)]. *)
Definition cacheOrder (orderId : BigIntValue) (order : OrderObject)
    (type : OrderType) : M unit :=
  let cacheKey := RedisHelper.ORDER_DETAILS orderId in
  RedisHelper.setWithTTL cacheKey
    (VOrder {| ob_body := ob_body order; ob_type := Some type |})
    RedisHelper.TTL_MEDIUM.

(** [cached && cached.type === type]; only an order object carries an
    order [type]. *)
Definition getCachedOrder (orderId : BigIntValue) (type : OrderType)
  : M (option OrderObject) :=
  let cacheKey := RedisHelper.ORDER_DETAILS orderId in
  let* cached := RedisHelper.get cacheKey in
  if truthy cached then
    match cached with
    | VOrder o =>
        if bool_decide (ob_type o = Some type) then ret (Some o)
        else ret None
    | _ => ret None
    end
  else ret None.

Definition clearOrderCache (orderId : BigIntValue) (type : OrderType)
  : M unit :=
  let cacheKey := RedisHelper.ORDER_DETAILS orderId in
  RedisHelper.del cacheKey.

Definition createShippingOrder (data : ShippingOrderCreateInput)
  : M OrderObject :=
  let* p := Prisma.shippingOrder_create
    {| Prisma.sc_userId := si_userId data;
       Prisma.sc_countryFromId := si_countryFromId data;
       Prisma.sc_weight := si_weight data;
       Prisma.sc_declaredValue := si_declaredValue data;
       Prisma.sc_declaredCurrency :=
         or_else (si_declaredCurrency data) "USD";
       Prisma.sc_description := si_description data;
       Prisma.sc_recipientName := si_recipientName data;
       Prisma.sc_recipientPhone := si_recipientPhone data;
       Prisma.sc_recipientAddress := si_recipientAddress data;
       Prisma.sc_totalCost := si_totalCost data;
       Prisma.sc_status := CREATED |} in
  let order := {| ob_body := ShippingBody p; ob_type := None |} in
  createStatusHistory (so_id (sp_row p)) shipping None
    (OrderStatus_str CREATED) (Some "Заказ создан") None ;;
  cacheOrder (so_id (sp_row p)) order shipping ;;
  ret order.

Definition createPurchaseOrder (data : PurchaseOrderCreateInput)
  : M OrderObject :=
  let totalCost := Number.add (pi_productPrice data) (pi_commission data) in
  let* p := Prisma.purchaseOrder_create
    {| Prisma.pc_userId := pi_userId data;
       Prisma.pc_countryId := pi_countryId data;
       Prisma.pc_productId := pi_productId data;
       Prisma.pc_productUrl := pi_productUrl data;
       Prisma.pc_productName := pi_productName data;
       Prisma.pc_quantity := pi_quantity data;
       Prisma.pc_productPrice := pi_productPrice data;
       Prisma.pc_productCurrency :=
         or_else (pi_productCurrency data) "USD";
       Prisma.pc_commission := pi_commission data;
       Prisma.pc_prepaymentAmount := pi_prepaymentAmount data;
       Prisma.pc_customerNotes := pi_customerNotes data;
       Prisma.pc_totalCost := totalCost;
       Prisma.pc_status := P_CREATED |} in
  let order := {| ob_body := PurchaseBody p; ob_type := None |} in
  createStatusHistory (po_id (pp_row p)) purchase None "CREATED"
    (Some "Заявка на выкуп создана") None ;;
  cacheOrder (po_id (pp_row p)) order purchase ;;
  ret order.

Definition getShippingOrder (orderId : BigIntValue)
  : M (option OrderObject) :=
  let* cached := getCachedOrder orderId shipping in
  match cached with
  | Some c => ret (Some c)
  | None =>
      let* found := Prisma.shippingOrder_findUnique orderId in
      match found with
      | Some p =>
          let order := {| ob_body := ShippingBody p; ob_type := None |} in
          cacheOrder orderId order shipping ;;
          ret (Some order)
      | None => ret None
      end
  end.

Definition getPurchaseOrder (orderId : BigIntValue)
  : M (option OrderObject) :=
  let* cached := getCachedOrder orderId purchase in
  match cached with
  | Some c => ret (Some c)
  | None =>
      let* found := Prisma.purchaseOrder_findUnique orderId in
      match found with
      | Some p =>
          let order := {| ob_body := PurchaseBody p; ob_type := None |} in
          cacheOrder orderId order purchase ;;
          ret (Some order)
      | None => ret None
      end
  end.

Definition updateShippingOrderStatus (orderId : BigIntValue)
    (newStatus : OrderStatus)
    (comment : option string) (adminId : option Z) : M OrderObject :=
  let* currentOrder := getShippingOrder orderId in
  match currentOrder with
  | None => throw (Error "Order not found")
  | Some current =>
      let* updatedAt := Date_now in
      let* p := Prisma.shippingOrder_update orderId
                  (Prisma.so_with_status newStatus updatedAt) in
      let updatedOrder := {| ob_body := ShippingBody p;
                             ob_type := None |} in
      createStatusHistory orderId shipping (Some (ob_status current))
        (OrderStatus_str newStatus) comment adminId ;;
      cacheOrder orderId updatedOrder shipping ;;
      ret updatedOrder
  end.

Definition updatePurchaseOrderStatus (orderId : BigIntValue)
    (newStatus : PurchaseOrderStatus)
    (comment : option string) (adminId : option Z) : M OrderObject :=
  let* currentOrder := getPurchaseOrder orderId in
  match currentOrder with
  | None => throw (Error "Order not found")
  | Some current =>
      let* updatedAt := Date_now in
      let* p := Prisma.purchaseOrder_update orderId
                  (Prisma.po_with_status newStatus updatedAt) in
      let updatedOrder := {| ob_body := PurchaseBody p;
                             ob_type := None |} in
      createStatusHistory orderId purchase (Some (ob_status current))
        (PurchaseOrderStatus_str newStatus) comment adminId ;;
      cacheOrder orderId updatedOrder purchase ;;
      ret updatedOrder
  end.

Definition addTrackingNumber (orderId : BigIntValue) (trackNumber : string)
    (orderType : OrderType) : M unit :=
  match orderType with
  | shipping =>
      Prisma.shippingOrder_update orderId
        (Prisma.so_with_trackNumber trackNumber) ;; ret tt
  | purchase =>
      Prisma.purchaseOrder_update orderId
        (Prisma.po_with_trackNumber trackNumber) ;; ret tt
  end ;;
  clearOrderCache orderId orderType.

End OrderService.

(* ===================================================================== *)
(** ** [PaymentService] (second file of part_009) *)
(* ===================================================================== *)

Module PaymentService.

Inductive BalanceOperation := add | subtract.

Definition createTransaction (userId : Z) (orderId : option Z)
    (orderType : option OrderType) (amount : number) (type : TransactionType)
    (paymentMethod : option PaymentMethod)
    (description metadata : option string) : M TransactionPayload :=
  let* transaction := Prisma.transaction_create userId orderId orderType
                        amount type paymentMethod description metadata
                        PENDING in
  let cacheKey := RedisHelper.TRANSACTION (t_id (tp_row transaction)) in
  RedisHelper.setWithTTL cacheKey (VTransaction transaction)
    RedisHelper.TTL_MEDIUM ;;
  ret transaction.

(** [userId] and [amount] are the properties of a transaction a query has
    returned. *)
Definition updateUserBalance (userId : BigIntValue) (amount : option number)
    (operation : BalanceOperation) : M unit :=
  let* currentUser := Prisma.user_findUnique userId in
  match currentUser with
  | None => throw (Error "User not found")
  | Some user =>
      let newBalance :=
        match operation with
        | add => Number.add (Number.of_nullable (u_balance user))
                   (Number.of_nullable amount)
        | subtract => Number.sub (Number.of_nullable (u_balance user))
                        (Number.of_nullable amount)
        end in
      match operation with
      | subtract =>
          if Number.lt newBalance (Number.of_Z 0) then
            throw (Error "Insufficient balance")
          else ret tt
      | add => ret tt
      end ;;
      Prisma.user_update_balance userId newBalance ;;
      let userCacheKey := RedisHelper.USER_PROFILE (u_telegramId user) in
      RedisHelper.del userCacheKey
  end.

Definition processCompletedTransaction (transaction : TransactionPayload)
  : M unit :=
  let userId := t_userId (tp_row transaction) in
  let amount := t_amount (tp_row transaction) in
  match t_type (tp_row transaction) with
  | PAYMENT => updateUserBalance userId amount add
  | REFUND | BONUS => updateUserBalance userId amount add
  | WITHDRAWAL => updateUserBalance userId amount subtract
  | COMMISSION | CASHBACK => ret tt
  end.

(** [updateData] applied to the stored row. *)
Definition apply_updateData (status : TransactionStatus) (updatedAt : Z)
    (completedAt : option Z) (metadata : option string)
    (r : Transaction) : Transaction :=
  {| t_id := t_id r; t_userId := t_userId r; t_orderId := t_orderId r;
     t_orderType := t_orderType r; t_amount := t_amount r;
     t_type := t_type r; t_paymentMethod := t_paymentMethod r;
     t_paymentId := t_paymentId r; t_status := status;
     t_description := t_description r;
     t_metadata := match metadata with
                   | Some m => Some m
                   | None => t_metadata r
                   end;
     t_createdAt := t_createdAt r;
     t_completedAt := match completedAt with
                      | Some c => Some (Date c)
                      | None => t_completedAt r
                      end;
     t_updatedAt := Date updatedAt |}.

Definition updateTransactionStatus (transactionId : BigIntValue)
    (status : TransactionStatus) (metadata : option string)
  : M TransactionPayload :=
  let* updatedAt := Date_now in
  let* completedAt :=
    if bool_decide (status = COMPLETED)
    then let* now := Date_now in ret (Some now)
    else ret None in
  let* transaction := Prisma.transaction_update transactionId
                        (apply_updateData status updatedAt completedAt
                           metadata) in
  (if bool_decide (status = COMPLETED)
   then processCompletedTransaction transaction
   else ret tt) ;;
  let cacheKey := RedisHelper.TRANSACTION transactionId in
  RedisHelper.setWithTTL cacheKey (VTransaction transaction)
    RedisHelper.TTL_MEDIUM ;;
  ret transaction.

(** [createWithdrawal]: the balance is checked before anything is
    written. *)
Definition createWithdrawal (userId orderId : Z) (orderType : OrderType)
    (amount : number) (description : option string)
  : M TransactionPayload :=
  let* user := Prisma.user_findUnique (BigInt userId) in
  match user with
  | None => throw (Error "Insufficient balance")
  | Some u =>
      if Number.lt (Number.of_nullable (u_balance u)) amount then
        throw (Error "Insufficient balance")
      else
        let* transaction :=
          createTransaction userId (Some orderId) (Some orderType) amount
            WITHDRAWAL (Some BALANCE)
            (Some (or_else description
                     ("Оплата заказа с баланса #" +:+
                      match orderType with
                      | shipping => "SP"
                      | purchase => "PU"
                      end +:+ pretty orderId)))
            None in
        updateTransactionStatus (t_id (tp_row transaction))
          COMPLETED None
  end.

End PaymentService.

(** A world with empty stores, for the examples.  No string of the
    examples is written to Redis as it is, and no number is put into a
    key, so the two functions of the engine are never called. *)
Definition empty_world : World :=
  {| clock := 0; random_draws := fun n => n; random_pos := 0;
     engine := {| JSON_parse := fun _ => None;
                  Number_toString := fun _ => "" |};
     redis := ∅; db_reads := 0;
     tbl_adminDashboardToken := ∅; tbl_admin := ∅; tbl_user := ∅;
     tbl_transaction := ∅; seq_transaction := 1;
     tbl_shippingOrder := ∅; seq_shippingOrder := 1;
     tbl_purchaseOrder := ∅; seq_purchaseOrder := 1;
     tbl_orderStatusHistory := [] |}.

(* ===================================================================== *)
(** ** Notions used in the statements *)
(* ===================================================================== *)

(** What [RedisHelper.get(key)] hands back in a world. *)
Definition read (key : string) (w : World) : CacheValue :=
  match cache_lookup key w with
  | None => VNull
  | Some (Raw "") => VNull
  | Some text => RedisHelper.parse_or_raw text w
  end.

(** [{ ...data, quantity }] *)
Definition with_quantity (quantity : Z)
    (data : OrderService.PurchaseOrderCreateInput)
  : OrderService.PurchaseOrderCreateInput :=
  {| OrderService.pi_userId := OrderService.pi_userId data;
     OrderService.pi_countryId := OrderService.pi_countryId data;
     OrderService.pi_productId := OrderService.pi_productId data;
     OrderService.pi_productUrl := OrderService.pi_productUrl data;
     OrderService.pi_productName := OrderService.pi_productName data;
     OrderService.pi_quantity := quantity;
     OrderService.pi_productPrice := OrderService.pi_productPrice data;
     OrderService.pi_productCurrency := OrderService.pi_productCurrency data;
     OrderService.pi_commission := OrderService.pi_commission data;
     OrderService.pi_prepaymentAmount := OrderService.pi_prepaymentAmount data;
     OrderService.pi_customerNotes := OrderService.pi_customerNotes data |}.

(** The row [createPurchaseOrder] leaves in the table: the one under the id
    the sequence held before the call. *)
Definition persisted_purchaseOrder
    (data : OrderService.PurchaseOrderCreateInput) (w : World)
  : option PurchaseOrder :=
  tbl_purchaseOrder (fst (OrderService.createPurchaseOrder data w))
    !! seq_purchaseOrder w.

(** What [getCachedOrder] hands back for a value read from Redis. *)
Definition cached_order (type : OrderType) (c : CacheValue)
  : option OrderObject :=
  match c with
  | VOrder o =>
      if bool_decide (ob_type o = Some type) then Some o else None
  | _ => None
  end.

(** *** Traces of [OrderService] calls *)

(** One request to the order service, or time passing between requests.
    The order ids of the requests are [bigint] values. *)
Inductive OrderCall :=
| CreateShipping (data : OrderService.ShippingOrderCreateInput)
| CreatePurchase (data : OrderService.PurchaseOrderCreateInput)
| GetShipping (orderId : Z)
| GetPurchase (orderId : Z)
| UpdateShipping (orderId : Z) (newStatus : OrderStatus)
    (comment : option string) (adminId : option Z)
| UpdatePurchase (orderId : Z) (newStatus : PurchaseOrderStatus)
    (comment : option string) (adminId : option Z)
| AddTracking (orderId : Z) (trackNumber : string) (orderType : OrderType)
| Wait (ms : Z).

(** Whether a call returned rather than threw. *)
Definition has_returned {A} (o : outcome A) : bool :=
  match o with
  | Return _ => true
  | Throw _ => false
  end.

(** The world after a call, and whether the call returned. *)
Definition run_call (c : OrderCall) (w : World) : World * bool :=
  match c with
  | CreateShipping data =>
      let r := OrderService.createShippingOrder data w in
      (fst r, has_returned (snd r))
  | CreatePurchase data =>
      let r := OrderService.createPurchaseOrder data w in
      (fst r, has_returned (snd r))
  | GetShipping orderId =>
      let r := OrderService.getShippingOrder (BigInt orderId) w in
      (fst r, has_returned (snd r))
  | GetPurchase orderId =>
      let r := OrderService.getPurchaseOrder (BigInt orderId) w in
      (fst r, has_returned (snd r))
  | UpdateShipping orderId newStatus comment adminId =>
      let r := OrderService.updateShippingOrderStatus (BigInt orderId)
                 newStatus comment adminId w in
      (fst r, has_returned (snd r))
  | UpdatePurchase orderId newStatus comment adminId =>
      let r := OrderService.updatePurchaseOrderStatus (BigInt orderId)
                 newStatus comment adminId w in
      (fst r, has_returned (snd r))
  | AddTracking orderId trackNumber orderType =>
      let r := OrderService.addTrackingNumber (BigInt orderId) trackNumber
                 orderType w
      in (fst r, has_returned (snd r))
  | Wait ms => (advance ms w, true)
  end.

Fixpoint run_calls (cs : list OrderCall) (w : World) : World :=
  match cs with
  | [] => w
  | c :: rest => run_calls rest (fst (run_call c w))
  end.

(** Whether a call is a status transition of the given order. *)
Definition is_transition_of (orderType : OrderType) (orderId : Z)
    (c : OrderCall) : bool :=
  match c, orderType with
  | UpdateShipping id _ _ _, shipping => bool_decide (id = orderId)
  | UpdatePurchase id _ _ _, purchase => bool_decide (id = orderId)
  | _, _ => false
  end.

(** The number of transition calls on the order, along the trace, that
    returned. *)
Fixpoint successful_transitions (orderType : OrderType) (orderId : Z)
    (cs : list OrderCall) (w : World) : nat :=
  match cs with
  | [] => O
  | c :: rest =>
      (if is_transition_of orderType orderId c && snd (run_call c w)
       then 1 else 0)%nat
      + successful_transitions orderType orderId rest (fst (run_call c w))
  end.

(** The kind of order a call creates, if it is a create call. *)
Definition creates (c : OrderCall) : option OrderType :=
  match c with
  | CreateShipping _ => Some shipping
  | CreatePurchase _ => Some purchase
  | _ => None
  end.

(** The id the database will give to the next order of a kind. *)
Definition next_id (orderType : OrderType) (w : World) : Z :=
  match orderType with
  | shipping => seq_shippingOrder w
  | purchase => seq_purchaseOrder w
  end.

(** The history rows of one order, oldest first. *)
Definition history (orderType : OrderType) (orderId : Z) (w : World)
  : list OrderStatusHistory :=
  Prisma.history_of orderId orderType (tbl_orderStatusHistory w).

(** Every row after the first names, as its old status, the new status of
    the row before it. *)
Fixpoint chained (previous : string) (rows : list OrderStatusHistory)
  : Prop :=
  match rows with
  | [] => True
  | h :: rest => h_oldStatus h = Some previous /\ chained (h_newStatus h) rest
  end.

(** The first row has no old status and opens with CREATED; the rest is
    chained to it. *)
Definition well_formed_history (rows : list OrderStatusHistory) : Prop :=
  match rows with
  | [] => False
  | first :: rest =>
      h_oldStatus first = None
      /\ h_newStatus first = "CREATED"
      /\ chained (h_newStatus first) rest
  end.

(** *** The invariant that ties an order's row, cache entry and history *)

(** The status, as a string, of the stored row of an order. *)
Definition stored_status (orderType : OrderType) (orderId : Z) (w : World)
  : option string :=
  match orderType with
  | shipping =>
      (fun r => OrderStatus_str (so_status r)) <$> tbl_shippingOrder w !! orderId
  | purchase =>
      (fun r => PurchaseOrderStatus_str (po_status r))
        <$> tbl_purchaseOrder w !! orderId
  end.

(** Whatever string Redis holds under the order's key, expired or not: if
    it reads as an order object with the order's own [type], that object
    shows the status [s]. *)
Definition cache_coherent (orderType : OrderType) (orderId : Z) (s : string)
    (w : World) : Prop :=
  forall text e o,
    redis w !! RedisHelper.ORDER_DETAILS (BigInt orderId) = Some (text, e) ->
    RedisHelper.parse_or_raw text w = VOrder o ->
    ob_type o = Some orderType ->
    ob_status o = s.

(** [n + 1] well-formed rows, the last of which ends in status [s]. *)
Definition history_ok (n : nat) (s : string)
    (rows : list OrderStatusHistory) : Prop :=
  length rows = S n
  /\ well_formed_history rows
  /\ h_newStatus <$> last rows = Some s.

Definition order_invariant (orderType : OrderType) (orderId : Z) (n : nat)
    (w : World) : Prop :=
  exists s,
    stored_status orderType orderId w = Some s
    /\ orderId < next_id orderType w
    /\ cache_coherent orderType orderId s w
    /\ history_ok n s (history orderType orderId w).

(** The balance a completed transaction of the given type and amount leaves
    behind: a PAYMENT, REFUND or BONUS is added, a WITHDRAWAL is taken
    unless the difference is below zero, the other types do not touch the
    balance.  The sums are those of JavaScript numbers, with [null] read
    as 0. *)
Definition balance_after (type : TransactionType)
    (amount balance : option number) : option number :=
  match type with
  | PAYMENT | REFUND | BONUS =>
      Some (Number.add (Number.of_nullable balance)
              (Number.of_nullable amount))
  | WITHDRAWAL =>
      let newBalance := Number.sub (Number.of_nullable balance)
                          (Number.of_nullable amount) in
      if Number.lt newBalance (Number.of_Z 0) then balance
      else Some newBalance
  | COMMISSION | CASHBACK => balance
  end.

(** [{ ...order, type }] *)
Definition tagged (type : OrderType) (o : OrderObject) : OrderObject :=
  {| ob_body := ob_body o; ob_type := Some type |}.

(** The copy of an order that a later read finds in the cache: what
    [JSON.parse] reads from the text of [{ ...order, type }]. *)
Definition cached_copy (type : OrderType) (o : OrderObject) : OrderObject :=
  JSON.image_order (tagged type o).

(** What a second read returns for the order a first read has returned.
    An answer that came from the cache carries the [type] property and is
    found again as it is; an answer that came from the database does not,
    and the second read finds the copy the first one has cached. *)
Definition read_again (type : OrderType) (o : OrderObject) : OrderObject :=
  match ob_type o with
  | Some _ => o
  | None => cached_copy type o
  end.

(** The value a call returned, if it returned. *)
Definition returned {A} (o : outcome A) : option A :=
  match o with
  | Return a => Some a
  | Throw _ => None
  end.

(** [valid: true] for the given administrator. *)
Definition accepts (adminId : Z)
    (o : outcome AdminAuthService.ValidationResult) : Prop :=
  AdminAuthService.valid <$> returned o = Some true
  /\ AdminAuthService.adminId <$> returned o = Some (Some adminId)
  /\ AdminAuthService.error <$> returned o = Some None.

(** C5 as the specification words it: an expired token is answered
    [Expired] whatever the key, and nothing is left in Redis under it. *)
Definition C5_as_stated : Prop :=
  forall (w : World) (token key : string) (row : AdminDashboardToken)
         (expiresAt : Z),
    tbl_adminDashboardToken w !! token = Some row ->
    dt_expiresAt row = Date expiresAt ->
    expiresAt < clock w ->
    let after := AdminAuthService.validateDashboardToken token key None w in
    snd after = Return (AdminAuthService.refusal AdminAuthService.Expired)
    /\ cache_lookup (RedisHelper.ADMIN_DASHBOARD_TOKEN token) (fst after)
       = None.

(** C2 as the specification words it: completing a transaction that is
    already COMPLETED leaves the owner's balance as it was. *)
Definition C2_as_stated : Prop :=
  forall (w : World) (id : BigIntValue) (row : Transaction) (u : User),
    tbl_transaction w !! id_of id = Some row ->
    t_status row = COMPLETED ->
    tbl_user w !! id_of (t_userId row) = Some u ->
    u_balance <$>
      tbl_user (fst (PaymentService.updateTransactionStatus id COMPLETED
                       None w)) !! id_of (t_userId row)
    = Some (u_balance u).

(** C8 as the specification words it: two reads in a row of an existing
    order return the same data, the second without a database query. *)
Definition C8_as_stated : Prop :=
  forall (w : World) (id : Z),
    is_Some (tbl_shippingOrder w !! id) ->
    let first := OrderService.getShippingOrder (BigInt id) w in
    let second := OrderService.getShippingOrder (BigInt id) (fst first) in
    snd second = snd first
    /\ (cache_has (RedisHelper.ORDER_DETAILS (BigInt id)) (fst first) = true ->
        db_reads (fst second) = db_reads (fst first)).

(** The exception raised by a call of the undeclared member [del]. *)
Definition no_del : exn := TypeError "del is not a function".

(* ===================================================================== *)
(** ** Concrete runs used by the examples below *)
(* ===================================================================== *)

Module Scenario.

Import AdminAuthService.

Definition admin7 (active : bool) : Admin :=
  {| a_id := 7; a_telegramId := BigInt 700; a_role := SUPER_ADMIN;
     a_isActive := active |}.

(** Empty stores except for the active administrator 7. *)
Definition world0 : World := set_tbl_admin {[ 7 := admin7 true ]} empty_world.

Definition second : Z := 1000.
Definition minute : Z := 60 * second.
Definition day : Z := 24 * 60 * minute.

(** First [generateDashboardAccess(7)] at time 0. *)
Definition issue1 := generateDashboardAccess 7 None world0.
Definition K1 : string := "ABCDEFGHIJKLMNOP".
Definition T1 : string := "QRSTUVWXYZ0123456789ABCDEFGHIJKL".

(** The Redis mirror of T1. *)
Definition mirror1 : TokenData :=
  {| td_adminId := 7; td_accessKey := K1; td_expiresAt := 900000;
     td_isUsed := false; td_createdAt := 0; td_ipAddress := None |}.

(** Second [generateDashboardAccess(7)] one second later. *)
Definition issue2 := generateDashboardAccess 7 None (advance second (fst issue1)).
Definition K2 : string := "MNOPQRSTUVWXYZ01".
Definition T2 : string := "23456789ABCDEFGHIJKLMNOPQRSTUVWX".

(** [validate(T1, K1)] one second after the second issue. *)
Definition validate_T1_after_issue2 :=
  validateDashboardToken T1 K1 None (advance second (fst issue2)).

(** [validate(T1, K1)], then [markTokenAsUsed(T1)], then [validate(T1, K1)]
    again, one second apart, after the first issue only. *)
Definition validate1 :=
  validateDashboardToken T1 K1 None (advance second (fst issue1)).
Definition consume1 :=
  markTokenAsUsed T1 None (advance second (fst validate1)).
Definition validate1_again :=
  validateDashboardToken T1 K1 None (advance second (fst consume1)).

(** [validate(T1, K1)] twenty minutes after the first issue: the mirror
    has lapsed, the durable row is all there is. *)
Definition validate1_late :=
  validateDashboardToken T1 K1 None (advance (20 * minute) (fst issue1)).

(** The world 20 ms after T1 has expired, when the mirror of T1 reached
    Redis 50 ms after [expiresAt] was computed: Redis counts the 900
    seconds of the mirror from the moment it receives it, and the row is
    inserted in between. *)
Definition late_mirror (d : TokenData) : World :=
  set_redis (<[ RedisHelper.ADMIN_DASHBOARD_TOKEN T1 :=
                  (Stringified (VToken d), 900050) ]> (redis (fst issue1)))
    (advance 900020 (fst issue1)).

(** The same mirror, had it been written with [isUsed: true]. *)
Definition mirror1_used : TokenData :=
  {| td_adminId := 7; td_accessKey := K1; td_expiresAt := 900000;
     td_isUsed := true; td_createdAt := 0; td_ipAddress := None |}.

(** A web session for administrator 7, validated after three days and
    again after eight. *)
Definition session1 := createWebSession 7 None None world0.
Definition SID : string := "ABCDEFGHIJKLMNOPQRSTUVWXYZ012345".
Definition session1_day3 :=
  validateWebSession SID (advance (3 * day) (fst session1)).
Definition session1_day8 :=
  validateWebSession SID (advance (5 * day) (fst session1_day3)).

(** The same session, validated after the administrator was
    deactivated. *)
Definition deactivated : World :=
  set_tbl_admin {[ 7 := admin7 false ]} (advance minute (fst session1)).
Definition session1_deactivated := validateWebSession SID deactivated.

(** A user with an integer balance. *)
Definition user1 (balance : Z) : User :=
  {| u_id := BigInt 1; u_telegramId := BigInt 1001;
     u_balance := Some (Number.of_Z balance); u_isActive := true |}.
Definition world_balance (balance : Z) : World :=
  set_tbl_user {[ 1 := user1 balance ]} empty_world.

(** User 1 has balance 50 and a pending withdrawal of 100. *)
Definition withdrawal_pending :=
  PaymentService.createTransaction 1 None None (Number.of_Z 100) WITHDRAWAL
    (Some BALANCE) None None
    (world_balance 50).
Definition withdrawal_completed :=
  PaymentService.updateTransactionStatus (BigInt 1) COMPLETED None
    (advance second (fst withdrawal_pending)).
Definition withdrawal_sibling :=
  PaymentService.createWithdrawal 1 9 shipping (Number.of_Z 100) None
    (world_balance 50).

(** A payment of 100 completed twice. *)
Definition payment_pending :=
  PaymentService.createTransaction 1 None None (Number.of_Z 100) PAYMENT
    (Some CARD) None None
    (world_balance 0).
Definition payment_completed :=
  PaymentService.updateTransactionStatus (BigInt 1) COMPLETED None
    (advance second (fst payment_pending)).
Definition payment_completed_again :=
  PaymentService.updateTransactionStatus (BigInt 1) COMPLETED None
    (advance second (fst payment_completed)).

(** The payment row as the first completion leaves it. *)
Definition payment_row_completed : Transaction :=
  {| t_id := BigInt 1; t_userId := BigInt 1; t_orderId := None;
     t_orderType := None;
     t_amount := Some (Number.of_Z 100); t_type := PAYMENT;
     t_paymentMethod := Some CARD;
     t_paymentId := None; t_status := COMPLETED;
     t_description := None; t_metadata := None; t_createdAt := Date 0;
     t_completedAt := Some (Date 1000); t_updatedAt := Date 1000 |}.

(** A shipping order, read twice after its cache entry has lapsed. *)
Definition parcel : OrderService.ShippingOrderCreateInput :=
  {| OrderService.si_userId := 1; OrderService.si_countryFromId := 3;
     OrderService.si_weight := Number.of_Z 5;
     OrderService.si_declaredValue := None;
     OrderService.si_declaredCurrency := None;
     OrderService.si_description := None;
     OrderService.si_recipientName := "Ivan";
     OrderService.si_recipientPhone := "+70000000000";
     OrderService.si_recipientAddress := "Moscow";
     OrderService.si_totalCost := Number.of_Z 1000 |}.
Definition order_created :=
  OrderService.createShippingOrder parcel (world_balance 0).
Definition order_get1 :=
  OrderService.getShippingOrder (BigInt 1)
    (advance (40 * minute) (fst order_created)).
Definition order_get2 :=
  OrderService.getShippingOrder (BigInt 1) (fst order_get1).
Definition order_paid :=
  OrderService.updateShippingOrderStatus (BigInt 1) PAID
    (Some "paid by card") None
    (advance second (fst order_created)).
Definition order_tracked :=
  OrderService.addTrackingNumber (BigInt 1) "RR123456789CN" shipping
    (advance second (fst order_created)).

(** The world after the second issue with the Redis mirror of T1 gone,
    so that [validate] has to fall back on the durable row. *)
Definition validate_T1_after_issue2_db :=
  validateDashboardToken T1 K1 None
    (set_redis (delete (RedisHelper.ADMIN_DASHBOARD_TOKEN T1)
                  (redis (fst issue2)))
       (advance second (fst issue2))).

(** The world after the first issue, had something recorded the token
    under the administrator's pending-access key. *)
Definition pending_world : World :=
  set_redis (<[ RedisHelper.ADMIN_PENDING_ACCESS 7 :=
                  (Stringified (VString T1), day) ]>
               (redis (fst issue1))) (fst issue1).

(** The same, had it recorded the number 0: the sweep reads it as
    falsy. *)
Definition pending_zero_world : World :=
  set_redis (<[ RedisHelper.ADMIN_PENDING_ACCESS 7 :=
                  (Stringified (VNumber (Number.of_Z 0)), day) ]>
               (redis (fst issue1))) (fst issue1).

(** Order 1 is created, paid, read, shipped and given a tracking number,
    while a purchase order with the same id is created and moved along. *)
Definition purchase_request : OrderService.PurchaseOrderCreateInput :=
  {| OrderService.pi_userId := 1; OrderService.pi_countryId := 3;
     OrderService.pi_productId := None; OrderService.pi_productUrl := None;
     OrderService.pi_productName := "Teapot"; OrderService.pi_quantity := 2;
     OrderService.pi_productPrice := Number.of_Z 700;
     OrderService.pi_productCurrency := None;
     OrderService.pi_commission := Number.of_Z 70;
     OrderService.pi_prepaymentAmount := Number.of_Z 0;
     OrderService.pi_customerNotes := None |}.
Definition order_trace : list OrderCall :=
  [ UpdateShipping 1 PAID (Some "paid by card") None;
    CreatePurchase purchase_request;
    Wait (40 * minute);
    GetShipping 1;
    UpdatePurchase 1 P_PAID None (Some 7);
    UpdateShipping 2 SHIPPED None None;
    AddTracking 1 "RR123456789CN" shipping;
    UpdateShipping 1 SHIPPED None (Some 7) ].

(** A purchase whose price is 2^53 and whose commission is 1. *)
Definition large_purchase : OrderService.PurchaseOrderCreateInput :=
  {| OrderService.pi_userId := 1; OrderService.pi_countryId := 3;
     OrderService.pi_productId := None; OrderService.pi_productUrl := None;
     OrderService.pi_productName := "Teapot"; OrderService.pi_quantity := 1;
     OrderService.pi_productPrice := Number.of_Z 9007199254740992;
     OrderService.pi_productCurrency := None;
     OrderService.pi_commission := Number.of_Z 1;
     OrderService.pi_prepaymentAmount := Number.of_Z 0;
     OrderService.pi_customerNotes := None |}.

End Scenario.

(** Closed goals about the concrete runs are settled by evaluation. *)
Ltac by_evaluation :=
  repeat match goal with |- _ /\ _ => split end;
  vm_compute; reflexivity.

(* ===================================================================== *)
(** ** Basic facts about the helper and the monad *)
(* ===================================================================== *)

Lemma del_not_declared : "del" ∉ RedisHelper.members.
Proof. apply (bool_decide_unpack _). vm_compute. exact I. Qed.

Lemma RedisHelper_del_throws key w :
  RedisHelper.del key w = (w, Throw (TypeError "del is not a function")).
Proof. reflexivity. Qed.

Lemma RedisHelper_get_eq key w :
  RedisHelper.get key w = (w, Return (read key w)).
Proof.
  unfold RedisHelper.get, RedisHelper.invoke, read. simpl.
  unfold bind, Client.get, gets.
  destruct (cache_lookup key w) as [[s|v]|]; try reflexivity.
  destruct s; reflexivity.
Qed.

Lemma RedisHelper_setWithTTL_eq key v ttl text w :
  0 < ttl ->
  RedisHelper.serialize v = Return text ->
  RedisHelper.setWithTTL key v ttl w =
  (set_redis (<[key := (text, clock w + ttl * 1000)]> (redis w)) w, Return tt).
Proof.
  intros Httl Htext. unfold RedisHelper.setWithTTL, RedisHelper.invoke.
  simpl. unfold bind, lift. rewrite Htext.
  unfold Client.setex. destruct (decide (ttl <= 0)); [lia|reflexivity].
Qed.

Lemma RedisHelper_setWithTTL_throws key v ttl e w :
  RedisHelper.serialize v = Throw e ->
  RedisHelper.setWithTTL key v ttl w = (w, Throw e).
Proof.
  intros Htext. unfold RedisHelper.setWithTTL, RedisHelper.invoke.
  simpl. unfold bind, lift. rewrite Htext. reflexivity.
Qed.

Lemma bind_Return {A B} (m : M A) (k : A -> M B) w w' a :
  m w = (w', Return a) -> bind m k w = k a w'.
Proof. intros H. unfold bind. rewrite H. reflexivity. Qed.

Lemma bind_Throw {A B} (m : M A) (k : A -> M B) w w' e :
  m w = (w', Throw e) -> bind m k w = (w', Throw e).
Proof. intros H. unfold bind. rewrite H. reflexivity. Qed.

Lemma fst_bind {A B} (m : M A) (k : A -> M B) w :
  fst (bind m k w)
  = match snd (m w) with
    | Return a => fst (k a (fst (m w)))
    | Throw _ => fst (m w)
    end.
Proof. unfold bind. destruct (m w) as [w' [a|e]]; reflexivity. Qed.

(** What a reader finds under a key depends on the Redis key space, the
    clock and the engine only. *)
Lemma read_ext key w w' :
  redis w' = redis w -> clock w' = clock w -> engine w' = engine w ->
  read key w' = read key w.
Proof.
  intros Hr Hc He. unfold read, cache_lookup, RedisHelper.parse_or_raw.
  rewrite Hr, Hc, He. reflexivity.
Qed.

(* ===================================================================== *)
(** ** The middleware leaves no [bigint] behind *)
(* ===================================================================== *)

Lemma convertBigInt_bigint_id v : id_of (convertBigInt.bigint v) = id_of v.
Proof. destruct v; reflexivity. Qed.

Lemma convertBigInt_bigint_clean v :
  JSON.is_bigint (convertBigInt.bigint v) = false.
Proof. destruct v; reflexivity. Qed.

Lemma convertBigInt_user_clean u :
  JSON.user_has_bigint (convertBigInt.user u) = false.
Proof.
  unfold JSON.user_has_bigint. simpl.
  rewrite !convertBigInt_bigint_clean. reflexivity.
Qed.

Lemma convertBigInt_history_clean hs :
  existsb JSON.history_has_bigint (convertBigInt.history <$> hs) = false.
Proof.
  induction hs as [|h hs IH]; [reflexivity|].
  rewrite fmap_cons. simpl. rewrite IH.
  unfold JSON.history_has_bigint. simpl.
  rewrite convertBigInt_bigint_clean. reflexivity.
Qed.

Lemma convertBigInt_transaction_clean t :
  JSON.transaction_has_bigint (convertBigInt.transaction t) = false.
Proof.
  unfold JSON.transaction_has_bigint. simpl.
  rewrite !convertBigInt_bigint_clean.
  destruct (t_orderId t); simpl; [apply convertBigInt_bigint_clean|reflexivity].
Qed.

Lemma convertBigInt_transactions_clean ts :
  existsb JSON.transaction_has_bigint (convertBigInt.transaction <$> ts)
  = false.
Proof.
  induction ts as [|t ts IH]; [reflexivity|].
  rewrite fmap_cons. simpl. rewrite IH, convertBigInt_transaction_clean.
  reflexivity.
Qed.

Lemma convertBigInt_relations_clean u hs ts :
  JSON.relations_have_bigint (convertBigInt.user <$> u)
    ((fmap (M := list) convertBigInt.history) <$> hs)
    ((fmap (M := list) convertBigInt.transaction) <$> ts) = false.
Proof.
  unfold JSON.relations_have_bigint.
  destruct u as [u|], hs as [hs|], ts as [ts|]; simpl;
    rewrite ?convertBigInt_user_clean, ?convertBigInt_history_clean,
      ?convertBigInt_transactions_clean; reflexivity.
Qed.

Lemma convertBigInt_shipping_clean p type :
  JSON.order_has_bigint
    {| ob_body := ShippingBody (convertBigInt.shippingOrderPayload p);
       ob_type := type |} = false.
Proof.
  unfold JSON.order_has_bigint, JSON.shippingOrder_has_bigint. simpl.
  rewrite !convertBigInt_bigint_clean, convertBigInt_relations_clean.
  reflexivity.
Qed.

Lemma convertBigInt_purchase_clean p type :
  JSON.order_has_bigint
    {| ob_body := PurchaseBody (convertBigInt.purchaseOrderPayload p);
       ob_type := type |} = false.
Proof.
  unfold JSON.order_has_bigint, JSON.purchaseOrder_has_bigint. simpl.
  rewrite !convertBigInt_bigint_clean, convertBigInt_relations_clean.
  reflexivity.
Qed.

Lemma convertBigInt_payload_clean p :
  JSON.payload_has_bigint (convertBigInt.transactionPayload p) = false.
Proof.
  unfold JSON.payload_has_bigint. simpl.
  rewrite convertBigInt_transaction_clean.
  destruct (tp_user p); simpl; [apply convertBigInt_user_clean|reflexivity].
Qed.

(* ===================================================================== *)
(** ** The missing [del] member *)
(* ===================================================================== *)

Lemma markTokenAsUsed_eq token ip w :
  AdminAuthService.markTokenAsUsed token ip w =
  (set_tbl_adminDashboardToken
     ((fun r => if bool_decide (dt_token r = token)
                then AdminAuthService.mark_used (clock w) ip r else r)
        <$> tbl_adminDashboardToken w) w,
   Throw no_del).
Proof. reflexivity. Qed.

Lemma validateWebSession_deleting_branch sessionId d w :
  read (RedisHelper.ADMIN_WEB_SESSION sessionId) w = VSession d ->
  sd_expiresAt d < clock w
  \/ tbl_admin w !! sd_adminId d = None
  \/ (exists a, tbl_admin w !! sd_adminId d = Some a /\ a_isActive a = false) ->
  exists w',
    AdminAuthService.validateWebSession sessionId w = (w', Throw no_del)
    /\ redis w' = redis w.
Proof.
  intros Hc Hbranch.
  unfold AdminAuthService.validateWebSession.
  erewrite bind_Return by (rewrite RedisHelper_get_eq, Hc; reflexivity).
  cbn [truthy negb].
  unfold bind at 1. unfold Date_now, gets.
  destruct (bool_decide (sd_expiresAt d < clock w)) eqn:Hexp.
  - eexists. split; [reflexivity|reflexivity].
  - apply bool_decide_eq_false in Hexp.
    destruct Hbranch as [Hlt | [Hnone | (a & Ha & Hin)]]; [lia | |].
    + unfold bind, Prisma.admin_findUnique, Prisma.use, bind, ret.
      rewrite Hnone. eexists. split; reflexivity.
    + unfold bind, Prisma.admin_findUnique, Prisma.use, bind, ret.
      rewrite Ha. simpl. rewrite Hin. simpl.
      eexists. split; reflexivity.
Qed.

(** The world in which [revokeAdminTokens] reads the pending-access key:
    the durable sweep has run. *)
Lemma revokeAdminTokens_eq adminId w :
  AdminAuthService.revokeAdminTokens adminId w
  = let w1 :=
      set_tbl_adminDashboardToken
        ((fun r => if bool_decide (dt_adminId r = adminId)
                      && negb (dt_isUsed r)
                      && Prisma.gt (dt_expiresAt r) (clock w)
                   then AdminAuthService.mark_used (clock w) None r else r)
           <$> tbl_adminDashboardToken w) w in
    if truthy (read (RedisHelper.ADMIN_PENDING_ACCESS adminId) w)
    then (w1, Throw no_del)
    else (w1, Return tt).
Proof.
  unfold AdminAuthService.revokeAdminTokens.
  unfold bind at 1. unfold Date_now at 1. unfold gets.
  unfold bind at 1. unfold Date_now at 1. unfold gets.
  unfold bind at 1. unfold Prisma.adminDashboardToken_updateMany, modify.
  erewrite bind_Return by apply RedisHelper_get_eq.
  cbv zeta.
  assert (Hread : forall key tbl,
             read key (set_tbl_adminDashboardToken tbl w) = read key w)
    by (intros; apply read_ext; reflexivity).
  rewrite !Hread.
  destruct (truthy (read (RedisHelper.ADMIN_PENDING_ACCESS adminId) w));
    reflexivity.
Qed.

Lemma revokeAdminTokens_deleting_branch adminId w :
  truthy (read (RedisHelper.ADMIN_PENDING_ACCESS adminId) w) = true ->
  exists w',
    AdminAuthService.revokeAdminTokens adminId w = (w', Throw no_del)
    /\ redis w' = redis w.
Proof.
  intros Hv. rewrite revokeAdminTokens_eq. cbv zeta. rewrite Hv.
  eexists. split; reflexivity.
Qed.

(** With nothing truthy under the pending-access key the sweep returns,
    and Redis is as it was. *)
Lemma revokeAdminTokens_returns adminId w :
  truthy (read (RedisHelper.ADMIN_PENDING_ACCESS adminId) w) = false ->
  snd (AdminAuthService.revokeAdminTokens adminId w) = Return tt
  /\ redis (fst (AdminAuthService.revokeAdminTokens adminId w)) = redis w.
Proof.
  intros Hv. rewrite revokeAdminTokens_eq. cbv zeta. rewrite Hv.
  split; reflexivity.
Qed.

Lemma addTrackingNumber_raises orderId trackNumber orderType w :
  match orderType with
  | shipping => is_Some (tbl_shippingOrder w !! id_of orderId)
  | purchase => is_Some (tbl_purchaseOrder w !! id_of orderId)
  end ->
  exists w',
    OrderService.addTrackingNumber orderId trackNumber orderType w
      = (w', Throw no_del)
    /\ redis w' = redis w.
Proof.
  intros Hrow. unfold OrderService.addTrackingNumber, bind.
  destruct orderType; destruct Hrow as [row Hrow].
  - unfold Prisma.shippingOrder_update, Prisma.use, bind, Prisma.key_of.
    rewrite Hrow. eexists. split; reflexivity.
  - unfold Prisma.purchaseOrder_update, Prisma.use, bind, Prisma.key_of.
    rewrite Hrow. eexists. split; reflexivity.
Qed.

(** C9.  [RedisHelper] declares no member [del].  Hence every service step
    that calls [helper.del(key)] raises [TypeError], and the Redis key space
    is left exactly as it was: [markTokenAsUsed] (after its durable write),
    [markTokenAsExpired], the expired / missing-admin / inactive-admin
    branches of [validateWebSession], the branch of [revokeAdminTokens] that
    reads a truthy value under the pending-access key, [clearOrderCache],
    and [addTrackingNumber] once its durable update has gone through. *)
Theorem C9_del_is_not_a_member_so_deletions_raise :
  ("del" ∉ RedisHelper.members)
  /\ (forall token ip w, exists w',
        AdminAuthService.markTokenAsUsed token ip w = (w', Throw no_del)
        /\ redis w' = redis w)
  /\ (forall token w,
        AdminAuthService.markTokenAsExpired token w = (w, Throw no_del))
  /\ (forall sessionId d w,
        read (RedisHelper.ADMIN_WEB_SESSION sessionId) w = VSession d ->
        sd_expiresAt d < clock w
        \/ tbl_admin w !! sd_adminId d = None
        \/ (exists a, tbl_admin w !! sd_adminId d = Some a
                      /\ a_isActive a = false) ->
        exists w',
          AdminAuthService.validateWebSession sessionId w = (w', Throw no_del)
          /\ redis w' = redis w)
  /\ (forall adminId w,
        truthy (read (RedisHelper.ADMIN_PENDING_ACCESS adminId) w) = true ->
        exists w',
          AdminAuthService.revokeAdminTokens adminId w = (w', Throw no_del)
          /\ redis w' = redis w)
  /\ (forall orderId type w,
        OrderService.clearOrderCache orderId type w = (w, Throw no_del))
  /\ (forall orderId trackNumber orderType w,
        match orderType with
        | shipping => is_Some (tbl_shippingOrder w !! id_of orderId)
        | purchase => is_Some (tbl_purchaseOrder w !! id_of orderId)
        end ->
        exists w',
          OrderService.addTrackingNumber orderId trackNumber orderType w
            = (w', Throw no_del)
          /\ redis w' = redis w).
Proof.
  split; [exact del_not_declared|].
  split; [intros; eexists; split; [apply markTokenAsUsed_eq|reflexivity]|].
  split; [reflexivity|].
  split; [exact validateWebSession_deleting_branch|].
  split; [exact revokeAdminTokens_deleting_branch|].
  split; [reflexivity|].
  exact addTrackingNumber_raises.
Qed.

Lemma C9_witness :
  (exists w',
     AdminAuthService.validateWebSession Scenario.SID Scenario.deactivated
       = (w', Throw no_del)
     /\ redis w' = redis Scenario.deactivated)
  /\ (exists w',
        AdminAuthService.revokeAdminTokens 7 Scenario.pending_world
          = (w', Throw no_del)
        /\ redis w' = redis Scenario.pending_world)
  /\ (exists w',
        OrderService.addTrackingNumber (BigInt 1) "RR123456789CN" shipping
          (fst Scenario.order_created) = (w', Throw no_del)
        /\ redis w' = redis (fst Scenario.order_created)).
Proof.
  destruct C9_del_is_not_a_member_so_deletions_raise
    as (_ & _ & _ & Hsession & Hrevoke & _ & Htrack).
  split; [|split].
  - eapply Hsession.
    + vm_compute. reflexivity.
    + right. right. exists (Scenario.admin7 false).
      split; vm_compute; reflexivity.
  - apply Hrevoke. vm_compute. reflexivity.
  - apply Htrack. vm_compute. eexists. reflexivity.
Defined.

(** The sweep of [revokeAdminTokens] deletes nothing, and raises nothing,
    when the value under the pending-access key reads as falsy: here the
    number 0. *)
Example revokeAdminTokens_falsy_pending :
  cache_has (RedisHelper.ADMIN_PENDING_ACCESS 7) Scenario.pending_zero_world
    = true
  /\ snd (AdminAuthService.revokeAdminTokens 7 Scenario.pending_zero_world)
     = Return tt.
Proof. by_evaluation. Qed.

(* ===================================================================== *)
(** ** Purchase orders: the total cost *)
(* ===================================================================== *)

Lemma TTL_MEDIUM_pos : 0 < RedisHelper.TTL_MEDIUM.
Proof. reflexivity. Qed.

Lemma cacheOrder_eq orderId order type w :
  JSON.order_has_bigint order = false ->
  OrderService.cacheOrder orderId order type w =
  (set_redis
     (<[RedisHelper.ORDER_DETAILS orderId :=
          (Stringified (VOrder (cached_copy type order)),
           clock w + RedisHelper.TTL_MEDIUM * 1000)]> (redis w)) w,
   Return tt).
Proof.
  intros Hclean. unfold OrderService.cacheOrder.
  apply RedisHelper_setWithTTL_eq; [apply TTL_MEDIUM_pos|].
  unfold RedisHelper.serialize, JSON.stringify, JSON.has_bigint.
  change (JSON.order_has_bigint
            {| ob_body := ob_body order; ob_type := Some type |})
    with (JSON.order_has_bigint order).
  rewrite Hclean. reflexivity.
Qed.

(** With a [bigint] anywhere in the order, [cacheOrder] raises and stores
    nothing. *)
Lemma cacheOrder_bigint orderId order type w :
  JSON.order_has_bigint order = true ->
  OrderService.cacheOrder orderId order type w =
  (w, Throw (TypeError "Do not know how to serialize a BigInt")).
Proof.
  intros Hbig. unfold OrderService.cacheOrder.
  apply RedisHelper_setWithTTL_throws.
  unfold RedisHelper.serialize, JSON.stringify, JSON.has_bigint.
  change (JSON.order_has_bigint
            {| ob_body := ob_body order; ob_type := Some type |})
    with (JSON.order_has_bigint order).
  rewrite Hbig. reflexivity.
Qed.

Lemma createPurchaseOrder_persists data w :
  exists row,
    persisted_purchaseOrder data w = Some row
    /\ po_productPrice row = Some (OrderService.pi_productPrice data)
    /\ po_commission row = Some (OrderService.pi_commission data)
    /\ po_quantity row = OrderService.pi_quantity data
    /\ po_totalCost row
       = Some (Number.add (OrderService.pi_productPrice data)
                 (OrderService.pi_commission data)).
Proof.
  unfold persisted_purchaseOrder, OrderService.createPurchaseOrder.
  unfold bind at 1. unfold Prisma.purchaseOrder_create, Prisma.use.
  unfold bind at 1. unfold ret at 1.
  unfold bind at 1. unfold OrderService.createStatusHistory,
    Prisma.orderStatusHistory_create, Prisma.use.
  unfold bind at 1. unfold bind at 1. unfold ret at 1. unfold ret at 1.
  unfold bind at 1.
  rewrite cacheOrder_eq by apply convertBigInt_purchase_clean. simpl.
  rewrite lookup_insert_eq. eexists. repeat split; reflexivity.
Qed.

(** C10.  Whatever the input and the state of the stores,
    [createPurchaseOrder] persists an order whose [totalCost] is exactly
    the number [productPrice + commission], the sum being that of two
    JavaScript numbers; replacing the [quantity] of the input by any other
    value leaves the persisted [totalCost] the same. *)
Theorem C10_totalCost_is_price_plus_commission :
  forall (data : OrderService.PurchaseOrderCreateInput) (w : World),
    (exists row,
       persisted_purchaseOrder data w = Some row
       /\ po_totalCost row
          = Some (Number.add (OrderService.pi_productPrice data)
                    (OrderService.pi_commission data)))
    /\ (forall quantity,
          po_totalCost <$> persisted_purchaseOrder (with_quantity quantity data) w
          = po_totalCost <$> persisted_purchaseOrder data w).
Proof.
  intros data w. split.
  - destruct (createPurchaseOrder_persists data w) as (row & Hrow & _ & _ & _ & Hcost).
    exists row. split; assumption.
  - intros quantity.
    destruct (createPurchaseOrder_persists data w)
      as (row & Hrow & _ & _ & _ & Hcost).
    destruct (createPurchaseOrder_persists (with_quantity quantity data) w)
      as (row' & Hrow' & _ & _ & _ & Hcost').
    rewrite Hrow, Hrow'. simpl in *. congruence.
Qed.

(** The sum is the one of binary64 numbers: 700 + 70 is 770, and
    2^53 + 1 is rounded to 2^53. *)
Example totalCost_of_two_requests :
  po_totalCost <$> persisted_purchaseOrder Scenario.purchase_request
                     (Scenario.world_balance 0)
    = Some (Some (Number.of_Z 770))
  /\ po_totalCost <$> persisted_purchaseOrder Scenario.large_purchase
                        (Scenario.world_balance 0)
     = Some (Some (Number.of_Z 9007199254740992)).
Proof. by_evaluation. Qed.

(* ===================================================================== *)
(** ** Dashboard tokens: runs in which a stale mirror is accepted *)
(* ===================================================================== *)

(** C1 (code bug).  Administrator 7 is issued T1/K1, and T2/K2 one second
    later.  The second issue marks the durable row of T1 used, but it looks
    for the Redis mirror under the pending-access key that nothing ever
    writes, so the mirror of T1 stays, unused.  One second later
    [validate(T1, K1)] reads the mirror and answers [valid: true].  With the
    mirror out of the way the durable row is consulted, and the call raises
    [TypeError]: the middleware of the client has replaced the dates of the
    row by empty objects, which have no [toISOString]. *)
Theorem C1_second_issue_leaves_first_token_valid_in_cache :
  AdminAuthService.dashboardUrl <$> returned (snd Scenario.issue1)
    = Some ("/" +:+ Scenario.T1)
  /\ AdminAuthService.accessKey <$> returned (snd Scenario.issue1)
     = Some Scenario.K1
  /\ AdminAuthService.dashboardUrl <$> returned (snd Scenario.issue2)
     = Some ("/" +:+ Scenario.T2)
  /\ AdminAuthService.accessKey <$> returned (snd Scenario.issue2)
     = Some Scenario.K2
  /\ dt_isUsed <$> tbl_adminDashboardToken (fst Scenario.issue2) !! Scenario.T1
     = Some true
  /\ cache_lookup (RedisHelper.ADMIN_DASHBOARD_TOKEN Scenario.T1)
       (advance Scenario.second (fst Scenario.issue2))
     = Some (Stringified
               (VToken {| td_adminId := 7; td_accessKey := Scenario.K1;
                          td_expiresAt := 900000; td_isUsed := false;
                          td_createdAt := 0; td_ipAddress := None |}))
  /\ accepts 7 (snd Scenario.validate_T1_after_issue2)
  /\ snd Scenario.validate_T1_after_issue2_db
     = Throw (TypeError "dbToken.expiresAt.toISOString is not a function").
Proof.
  unfold accepts. by_evaluation.
Qed.

(** C4 (code bug).  T1 is validated, then consumed.  [markTokenAsUsed]
    writes [isUsed] and [usedAt] to the durable row and then raises
    [TypeError] at [helper.del]; the Redis mirror of T1 survives, unused, and
    the next [validate(T1, K1)] answers [valid: true] instead of
    [AlreadyUsed]. *)
Theorem C4_consumed_token_still_validates_from_cache :
  accepts 7 (snd Scenario.validate1)
  /\ snd Scenario.consume1 = Throw no_del
  /\ dt_isUsed <$> tbl_adminDashboardToken (fst Scenario.consume1) !! Scenario.T1
     = Some true
  /\ dt_usedAt <$> tbl_adminDashboardToken (fst Scenario.consume1) !! Scenario.T1
     = Some (Some (Date 2000))
  /\ cache_lookup (RedisHelper.ADMIN_DASHBOARD_TOKEN Scenario.T1)
       (fst Scenario.consume1)
     = Some (Stringified
               (VToken {| td_adminId := 7; td_accessKey := Scenario.K1;
                          td_expiresAt := 900000; td_isUsed := false;
                          td_createdAt := 0; td_ipAddress := None |}))
  /\ accepts 7 (snd Scenario.validate1_again).
Proof.
  unfold accepts. by_evaluation.
Qed.

(* ===================================================================== *)
(** ** Web sessions *)
(* ===================================================================== *)

(** C7 (code bug).  A session created for administrator 7 and validated
    on day 3 is still in Redis on day 8, one day past its [expiresAt]:
    [validateWebSession] then raises [TypeError] at [helper.del] instead of
    returning [valid: false], and the key stays.  The same happens when the
    administrator has been deactivated. *)
Theorem C7_expired_or_deactivated_session_raises :
  AdminAuthService.sr_valid <$> returned (snd Scenario.session1_day3)
    = Some true
  /\ clock (fst Scenario.session1_day8) = 8 * Scenario.day
  /\ sd_expiresAt <$> (returned (snd Scenario.session1_day3)
                        ≫= AdminAuthService.sr_session)
     = Some (7 * Scenario.day)
  /\ snd Scenario.session1_day8 = Throw no_del
  /\ cache_has (RedisHelper.ADMIN_WEB_SESSION Scenario.SID)
       (fst Scenario.session1_day8) = true
  /\ snd Scenario.session1_deactivated = Throw no_del
  /\ cache_has (RedisHelper.ADMIN_WEB_SESSION Scenario.SID)
       (fst Scenario.session1_deactivated) = true.
Proof.
  by_evaluation.
Qed.

(* ===================================================================== *)
(** ** Payments *)
(* ===================================================================== *)

(** C3 (code bug).  User 1 has balance 50 and a pending WITHDRAWAL of 100.
    Completing it raises [Insufficient balance] and leaves the balance at
    50, but the transaction row has already been written: it is COMPLETED,
    with [completedAt] set.  [createWithdrawal], given the same user and
    amount, rejects before it writes anything. *)
Theorem C3_rejected_withdrawal_is_already_marked_completed :
  t_status <$> tbl_transaction (fst Scenario.withdrawal_pending) !! 1
    = Some PENDING
  /\ snd Scenario.withdrawal_completed = Throw (Error "Insufficient balance")
  /\ u_balance <$> tbl_user (fst Scenario.withdrawal_completed) !! 1
     = Some (Some (Number.of_Z 50))
  /\ t_status <$> tbl_transaction (fst Scenario.withdrawal_completed) !! 1
     = Some COMPLETED
  /\ t_completedAt <$> tbl_transaction (fst Scenario.withdrawal_completed) !! 1
     = Some (Some (Date 1000))
  /\ snd Scenario.withdrawal_sibling = Throw (Error "Insufficient balance")
  /\ tbl_transaction (fst Scenario.withdrawal_sibling) = ∅
  /\ tbl_user (fst Scenario.withdrawal_sibling)
     = tbl_user (Scenario.world_balance 50).
Proof.
  by_evaluation.
Qed.

(* ===================================================================== *)
(** ** Dashboard tokens: the order of the checks *)
(* ===================================================================== *)

(** The checks on a value that is a token object. *)
Lemma validate_tokenData_eq token key d w :
  AdminAuthService.validate_tokenData token key (VToken d) w
  = if negb (bool_decide (td_accessKey d = key)) then
      (w, Return (AdminAuthService.refusal AdminAuthService.KeyMismatch))
    else if td_isUsed d then
      (w, Return (AdminAuthService.refusal AdminAuthService.AlreadyUsed))
    else if bool_decide (td_expiresAt d < clock w) then
      (w, Throw no_del)
    else
      (set_db_reads (S (db_reads w)) w,
       Return {| AdminAuthService.valid := true;
                 AdminAuthService.adminId := Some (td_adminId d);
                 AdminAuthService.tokenRecord :=
                   convertBigInt.tokenRecord <$>
                     match tbl_adminDashboardToken w !! token with
                     | Some r => Some (r, tbl_admin w !! dt_adminId r)
                     | None => None
                     end;
                 AdminAuthService.error := None |}).
Proof.
  unfold AdminAuthService.validate_tokenData.
  destruct (bool_decide (td_accessKey d = key)); [|reflexivity].
  destruct (td_isUsed d); [reflexivity|]. cbn [negb].
  unfold bind at 1. unfold Date_now, gets.
  destruct (bool_decide (td_expiresAt d < clock w)); reflexivity.
Qed.

Lemma validateDashboardToken_cache_hit token key ip w :
  truthy (read (RedisHelper.ADMIN_DASHBOARD_TOKEN token) w) = true ->
  AdminAuthService.validateDashboardToken token key ip w
  = AdminAuthService.validate_tokenData token key
      (read (RedisHelper.ADMIN_DASHBOARD_TOKEN token) w) w.
Proof.
  intros Hc. unfold AdminAuthService.validateDashboardToken.
  erewrite bind_Return by apply RedisHelper_get_eq.
  rewrite Hc. reflexivity.
Qed.

(** The date of a row that has gone through the middleware has no
    [toISOString]. *)
Lemma toISOString_after_middleware receiver d w :
  AdminAuthService.toISOString receiver (convertBigInt.date d) w
  = (w, Throw (TypeError (receiver +:+ ".toISOString is not a function"))).
Proof. destruct d; reflexivity. Qed.

(** With nothing readable under the token's key, [validate] turns to the
    durable row: without a row it answers [NotFound]; with a row it raises
    at [dbToken.expiresAt.toISOString()], before any check is made. *)
Lemma validateDashboardToken_cache_miss token key ip w :
  truthy (read (RedisHelper.ADMIN_DASHBOARD_TOKEN token) w) = false ->
  AdminAuthService.validateDashboardToken token key ip w
  = (set_db_reads (S (db_reads w)) w,
     match tbl_adminDashboardToken w !! token with
     | Some _ =>
         Throw (TypeError "dbToken.expiresAt.toISOString is not a function")
     | None =>
         Return (AdminAuthService.refusal AdminAuthService.NotFound)
     end).
Proof.
  intros Hc. unfold AdminAuthService.validateDashboardToken.
  erewrite bind_Return by apply RedisHelper_get_eq.
  rewrite Hc. cbn [negb].
  unfold bind at 1.
  unfold Prisma.adminDashboardToken_findUnique, Prisma.use, bind, ret.
  change (tbl_adminDashboardToken (set_db_reads ?n w))
    with (tbl_adminDashboardToken w).
  destruct (tbl_adminDashboardToken w !! token) as [row|]; [|reflexivity].
  destruct row as [adminId tok accessKey expiresAt isUsed createdAt usedAt
                     ipAddress].
  destruct expiresAt; reflexivity.
Qed.

(** A value read from Redis that is not a token object is answered
    [KeyMismatch]. *)
Lemma validate_tokenData_other token key v w :
  (forall d, v <> VToken d) ->
  AdminAuthService.validate_tokenData token key v w
  = (w, Return (AdminAuthService.refusal AdminAuthService.KeyMismatch)).
Proof. intros Hv. destruct v; try reflexivity. destruct (Hv d eq_refl). Qed.

(** An expired token presented with the right key, its mirror readable
    and unused: the call raises at [helper.del], and the mirror stays. *)
Lemma validateDashboardToken_expired_right_key_raises token ip d w :
  read (RedisHelper.ADMIN_DASHBOARD_TOKEN token) w = VToken d ->
  td_isUsed d = false ->
  td_expiresAt d < clock w ->
  AdminAuthService.validateDashboardToken token (td_accessKey d) ip w
  = (w, Throw no_del).
Proof.
  intros Hc Hused Hexp.
  rewrite validateDashboardToken_cache_hit by (rewrite Hc; reflexivity).
  rewrite Hc, validate_tokenData_eq, Hused.
  rewrite (bool_decide_eq_true_2 _ eq_refl).
  rewrite (bool_decide_eq_true_2 _ Hexp). reflexivity.
Qed.

(** No call of [validateDashboardToken] returns the [Expired] refusal. *)
Lemma validateDashboardToken_never_Expired token key ip w :
  snd (AdminAuthService.validateDashboardToken token key ip w)
  <> Return (AdminAuthService.refusal AdminAuthService.Expired).
Proof.
  destruct (truthy (read (RedisHelper.ADMIN_DASHBOARD_TOKEN token) w))
    eqn:Hc.
  - rewrite validateDashboardToken_cache_hit by exact Hc.
    destruct (read (RedisHelper.ADMIN_DASHBOARD_TOKEN token) w) as
      [ | | | |d| | | | ]; try (cbn; discriminate).
    rewrite validate_tokenData_eq.
    destruct (bool_decide (td_accessKey d = key)); [|cbn; discriminate].
    destruct (td_isUsed d); [cbn; discriminate|].
    destruct (bool_decide (td_expiresAt d < clock w)); cbn; discriminate.
  - rewrite validateDashboardToken_cache_miss by exact Hc.
    destruct (tbl_adminDashboardToken w !! token); cbn; discriminate.
Qed.

(** C5 (amended).  [validate] compares the access key first and looks at
    the [isUsed] flag second, before it looks at the expiry.  So for a token
    whose mirror a reader still finds, with an [expiresAt] in the past, a
    wrong key is answered [KeyMismatch] and the right key on a mirror marked
    used [AlreadyUsed]; and whether the mirror is readable or not, the
    answer is never [valid: true]. *)
Theorem C5_expired_token_is_refused_by_the_first_failing_check :
  forall (w : World) (token key : string) (ip : option string),
    let o := snd (AdminAuthService.validateDashboardToken token key ip w) in
    (forall d,
       read (RedisHelper.ADMIN_DASHBOARD_TOKEN token) w = VToken d ->
       td_expiresAt d < clock w ->
       (td_accessKey d <> key ->
          o = Return (AdminAuthService.refusal AdminAuthService.KeyMismatch))
       /\ (td_accessKey d = key -> td_isUsed d = true ->
             o = Return (AdminAuthService.refusal
                           AdminAuthService.AlreadyUsed))
       /\ (forall r, o = Return r -> AdminAuthService.valid r = false))
    /\ (truthy (read (RedisHelper.ADMIN_DASHBOARD_TOKEN token) w) = false ->
        forall r, o = Return r -> AdminAuthService.valid r = false).
Proof.
  intros w token key ip o. subst o. split.
  - intros d Hc Hexp.
    rewrite validateDashboardToken_cache_hit by (rewrite Hc; reflexivity).
    rewrite Hc, validate_tokenData_eq.
    rewrite (bool_decide_eq_true_2 _ Hexp).
    destruct (bool_decide (td_accessKey d = key)) eqn:Hkey.
    + apply bool_decide_eq_true in Hkey.
      destruct (td_isUsed d) eqn:Hused; cbn [negb snd].
      * repeat split; intros; try congruence.
        match goal with H : Return _ = Return _ |- _ => injection H as <- end.
        reflexivity.
      * repeat split; intros; congruence.
    + apply bool_decide_eq_false in Hkey. cbn [negb snd].
      repeat split; intros; try congruence.
      match goal with H : Return _ = Return _ |- _ => injection H as <- end.
      reflexivity.
  - intros Hc r.
    rewrite validateDashboardToken_cache_miss by exact Hc. cbn [snd].
    destruct (tbl_adminDashboardToken w !! token); [discriminate|].
    intros H. injection H as <-. reflexivity.
Qed.

Lemma C5_witness :
  snd (AdminAuthService.validateDashboardToken Scenario.T1
         "WRONGKEYWRONGKEY" None (Scenario.late_mirror Scenario.mirror1))
    = Return (AdminAuthService.refusal AdminAuthService.KeyMismatch)
  /\ snd (AdminAuthService.validateDashboardToken Scenario.T1 Scenario.K1
            None (Scenario.late_mirror Scenario.mirror1_used))
     = Return (AdminAuthService.refusal AdminAuthService.AlreadyUsed)
  /\ (forall r,
        snd (AdminAuthService.validateDashboardToken Scenario.T1 Scenario.K1
               None (Scenario.late_mirror Scenario.mirror1)) = Return r ->
        AdminAuthService.valid r = false)
  /\ (forall r,
        snd Scenario.validate1_late = Return r ->
        AdminAuthService.valid r = false).
Proof.
  split; [|split; [|split]].
  - destruct (C5_expired_token_is_refused_by_the_first_failing_check
                (Scenario.late_mirror Scenario.mirror1)
                Scenario.T1 "WRONGKEYWRONGKEY" None) as [Hmirror _].
    destruct (Hmirror Scenario.mirror1) as (Hkey & _ & _);
      [vm_compute; reflexivity | vm_compute; reflexivity |].
    apply Hkey. simpl. discriminate.
  - destruct (C5_expired_token_is_refused_by_the_first_failing_check
                (Scenario.late_mirror Scenario.mirror1_used)
                Scenario.T1 Scenario.K1 None) as [Hmirror _].
    destruct (Hmirror Scenario.mirror1_used) as (_ & Hused & _);
      [vm_compute; reflexivity | vm_compute; reflexivity |].
    apply Hused; reflexivity.
  - destruct (C5_expired_token_is_refused_by_the_first_failing_check
                (Scenario.late_mirror Scenario.mirror1)
                Scenario.T1 Scenario.K1 None) as [Hmirror _].
    destruct (Hmirror Scenario.mirror1) as (_ & _ & Hnever);
      [vm_compute; reflexivity | vm_compute; reflexivity |].
    exact Hnever.
  - destruct (C5_expired_token_is_refused_by_the_first_failing_check
                (advance (20 * Scenario.minute) (fst Scenario.issue1))
                Scenario.T1 Scenario.K1 None) as [_ Hgone].
    apply Hgone. vm_compute. reflexivity.
Defined.

(** C5 as stated fails: T1 has expired 20 ms ago and its mirror is still
    readable; presented with a wrong key it is answered [KeyMismatch], not
    [Expired]. *)
Lemma C5_counterexample : ~ C5_as_stated.
Proof.
  intros H.
  destruct (H (Scenario.late_mirror Scenario.mirror1)
              Scenario.T1 "WRONGKEYWRONGKEY"
              {| dt_adminId := 7; dt_token := Scenario.T1;
                 dt_accessKey := Scenario.K1; dt_expiresAt := Date 900000;
                 dt_isUsed := false; dt_createdAt := Date 0;
                 dt_usedAt := None; dt_ipAddress := None |}
              900000) as [Hexpired _].
  - vm_compute. reflexivity.
  - reflexivity.
  - vm_compute. reflexivity.
  - vm_compute in Hexpired. discriminate Hexpired.
Qed.

(** What the two remaining cases of an expired token do.  With the right
    key and the mirror still readable, the call raises at [helper.del] and
    the mirror stays; once the mirror has lapsed, the call raises at
    [dbToken.expiresAt.toISOString()], whatever the key. *)
Example expired_token_raises :
  AdminAuthService.validateDashboardToken Scenario.T1 Scenario.K1 None
    (Scenario.late_mirror Scenario.mirror1)
    = (Scenario.late_mirror Scenario.mirror1, Throw no_del)
  /\ cache_has (RedisHelper.ADMIN_DASHBOARD_TOKEN Scenario.T1)
       (Scenario.late_mirror Scenario.mirror1) = true
  /\ cache_has (RedisHelper.ADMIN_DASHBOARD_TOKEN Scenario.T1)
       (advance (20 * Scenario.minute) (fst Scenario.issue1)) = false
  /\ snd Scenario.validate1_late
     = Throw (TypeError "dbToken.expiresAt.toISOString is not a function")
  /\ snd (AdminAuthService.validateDashboardToken Scenario.T1
            "WRONGKEYWRONGKEY" None
            (advance (20 * Scenario.minute) (fst Scenario.issue1)))
     = Throw (TypeError "dbToken.expiresAt.toISOString is not a function").
Proof.
  split.
  - apply (validateDashboardToken_expired_right_key_raises
             Scenario.T1 None Scenario.mirror1);
      vm_compute; reflexivity.
  - by_evaluation.
Qed.

(* ===================================================================== *)
(** ** Payments: what a status update does to the balance *)
(* ===================================================================== *)

Lemma updateUserBalance_eq userId amount operation u w :
  tbl_user w !! id_of userId = Some u ->
  PaymentService.updateUserBalance userId amount operation w
  = match operation with
    | PaymentService.add =>
        (set_tbl_user
           (<[id_of userId :=
                Prisma.with_balance
                  (Number.add (Number.of_nullable (u_balance u))
                     (Number.of_nullable amount)) u]> (tbl_user w))
           (set_db_reads (S (db_reads w)) w), Throw no_del)
    | PaymentService.subtract =>
        if Number.lt (Number.sub (Number.of_nullable (u_balance u))
                        (Number.of_nullable amount)) (Number.of_Z 0) then
          (set_db_reads (S (db_reads w)) w,
           Throw (Error "Insufficient balance"))
        else
          (set_tbl_user
             (<[id_of userId :=
                  Prisma.with_balance
                    (Number.sub (Number.of_nullable (u_balance u))
                       (Number.of_nullable amount)) u]> (tbl_user w))
             (set_db_reads (S (db_reads w)) w), Throw no_del)
    end.
Proof.
  intros Hu. unfold PaymentService.updateUserBalance.
  unfold bind at 1. unfold Prisma.user_findUnique, Prisma.use, Prisma.key_of.
  unfold bind at 1. unfold ret at 1. rewrite Hu.
  cbn [fmap option_fmap option_map convertBigInt.user u_balance].
  destruct operation.
  - unfold bind, ret, Prisma.user_update_balance, Prisma.use, Prisma.key_of,
      bind, ret. simpl. rewrite Hu. reflexivity.
  - destruct (Number.lt (Number.sub (Number.of_nullable (u_balance u))
                           (Number.of_nullable amount)) (Number.of_Z 0))
      eqn:Hneg.
    + unfold bind at 1. unfold throw. reflexivity.
    + unfold bind, ret, Prisma.user_update_balance, Prisma.use, Prisma.key_of,
        bind, ret. simpl. rewrite Hu. reflexivity.
Qed.

Lemma user_after_updateUserBalance userId amount operation u w :
  tbl_user w !! id_of userId = Some u ->
  let w' := fst (PaymentService.updateUserBalance userId amount operation w) in
  u_balance <$> tbl_user w' !! id_of userId
  = Some (match operation with
          | PaymentService.add =>
              Some (Number.add (Number.of_nullable (u_balance u))
                      (Number.of_nullable amount))
          | PaymentService.subtract =>
              if Number.lt (Number.sub (Number.of_nullable (u_balance u))
                              (Number.of_nullable amount)) (Number.of_Z 0)
              then u_balance u
              else Some (Number.sub (Number.of_nullable (u_balance u))
                           (Number.of_nullable amount))
          end)
  /\ (forall other, other <> id_of userId ->
        tbl_user w' !! other = tbl_user w !! other)
  /\ tbl_transaction w' = tbl_transaction w.
Proof.
  intros Hu. rewrite (updateUserBalance_eq _ _ _ _ _ Hu).
  destruct operation;
    [|destruct (Number.lt (Number.sub (Number.of_nullable (u_balance u))
                             (Number.of_nullable amount)) (Number.of_Z 0))];
    simpl; rewrite ?lookup_insert_eq, ?Hu;
    (split; [reflexivity|]); (split; [|reflexivity]);
    intros other Hne; rewrite ?lookup_insert_ne by congruence; reflexivity.
Qed.

Lemma user_after_processCompletedTransaction p u w :
  tbl_user w !! id_of (t_userId (tp_row p)) = Some u ->
  let w' := fst (PaymentService.processCompletedTransaction p w) in
  u_balance <$> tbl_user w' !! id_of (t_userId (tp_row p))
  = Some (balance_after (t_type (tp_row p)) (t_amount (tp_row p))
            (u_balance u))
  /\ (forall other, other <> id_of (t_userId (tp_row p)) ->
        tbl_user w' !! other = tbl_user w !! other)
  /\ tbl_transaction w' = tbl_transaction w.
Proof.
  intros Hu. unfold PaymentService.processCompletedTransaction, balance_after.
  destruct (t_type (tp_row p));
    first [ apply (user_after_updateUserBalance _ _ PaymentService.add u w Hu)
          | apply (user_after_updateUserBalance _ _ PaymentService.subtract
                     u w Hu)
          | cbn [fst ret]; rewrite Hu; repeat split ].
Qed.

(** The world [updateTransactionStatus] leaves: the row is written first,
    then the balance step runs, and the cache entry is written only if that
    step returned. *)
Lemma updateTransactionStatus_world id status metadata row w :
  tbl_transaction w !! id_of id = Some row ->
  let row' := PaymentService.apply_updateData status (clock w)
                (if bool_decide (status = COMPLETED) then Some (clock w)
                 else None) metadata row in
  let w1 := set_tbl_transaction (<[id_of id := row']> (tbl_transaction w))
              (seq_transaction w) w in
  let p := convertBigInt.transactionPayload
             {| tp_row := row';
                tp_user := tbl_user w !! id_of (t_userId row) |} in
  let cached w2 :=
    set_redis (<[RedisHelper.TRANSACTION id :=
                   (Stringified (VTransaction (JSON.image_payload p)),
                    clock w2 + RedisHelper.TTL_MEDIUM * 1000)]> (redis w2)) w2
  in
  fst (PaymentService.updateTransactionStatus id status metadata w)
  = if bool_decide (status = COMPLETED) then
      match snd (PaymentService.processCompletedTransaction p w1) with
      | Return _ =>
          cached (fst (PaymentService.processCompletedTransaction p w1))
      | Throw _ => fst (PaymentService.processCompletedTransaction p w1)
      end
    else cached w1.
Proof.
  intros Hrow row' w1 p cached.
  assert (Hcache : forall w2,
             RedisHelper.setWithTTL (RedisHelper.TRANSACTION id)
               (VTransaction p) RedisHelper.TTL_MEDIUM w2
             = (cached w2, Return tt)).
  { intros w2. apply RedisHelper_setWithTTL_eq; [apply TTL_MEDIUM_pos|].
    unfold RedisHelper.serialize, JSON.stringify, JSON.has_bigint.
    subst p. rewrite convertBigInt_payload_clean. reflexivity. }
  unfold PaymentService.updateTransactionStatus.
  rewrite fst_bind. unfold Date_now at 1 2. unfold gets at 1 2.
  cbn [fst snd].
  rewrite fst_bind.
  assert (Hupdate : forall completedAt,
             Prisma.transaction_update id
               (PaymentService.apply_updateData status (clock w) completedAt
                  metadata) w
             = (set_tbl_transaction
                  (<[id_of id := PaymentService.apply_updateData status
                                   (clock w) completedAt metadata row]>
                     (tbl_transaction w)) (seq_transaction w) w,
                Return (convertBigInt.transactionPayload
                          {| tp_row := PaymentService.apply_updateData status
                                         (clock w) completedAt metadata row;
                             tp_user := tbl_user w !! id_of (t_userId row) |}))).
  { intros completedAt.
    unfold Prisma.transaction_update, Prisma.use, Prisma.key_of, bind, ret.
    rewrite Hrow. reflexivity. }
  subst row' w1 p.
  destruct (bool_decide (status = COMPLETED)) eqn:Hst.
  - unfold bind at 1. unfold Date_now at 1. unfold gets at 1. unfold ret at 1.
    cbn [fst snd].
    rewrite fst_bind, Hupdate. cbn [fst snd].
    rewrite fst_bind.
    match goal with
    | |- context [PaymentService.processCompletedTransaction ?r ?w0] =>
        destruct (PaymentService.processCompletedTransaction r w0)
          as [w2 [[]|e]]
    end; cbn [fst snd].
    + rewrite fst_bind, Hcache. reflexivity.
    + reflexivity.
  - unfold ret at 1. cbn [fst snd].
    rewrite fst_bind, Hupdate. cbn [fst snd].
    rewrite fst_bind. unfold ret at 1. cbn [fst snd].
    rewrite fst_bind, Hcache. reflexivity.
Qed.

(** C2 (amended).  Every call of [updateTransactionStatus] with status
    COMPLETED on an existing transaction of an existing user applies the
    transaction to the owner's balance once, whatever status the transaction
    had before the call: a credit is added, a withdrawal subtracted unless
    the difference is below zero, the sums being those of JavaScript
    numbers.  A call with any other status leaves the balance unchanged.  No
    other user's balance changes, and the row ends up with the requested
    status. *)
Theorem C2_each_COMPLETED_call_applies_the_balance_change :
  forall (w : World) (id : BigIntValue) (status : TransactionStatus)
         (metadata : option string) (row : Transaction) (u : User),
    tbl_transaction w !! id_of id = Some row ->
    tbl_user w !! id_of (t_userId row) = Some u ->
    let w' := fst (PaymentService.updateTransactionStatus id status metadata w)
    in
    u_balance <$> tbl_user w' !! id_of (t_userId row)
    = Some (if bool_decide (status = COMPLETED)
            then balance_after (t_type row) (t_amount row) (u_balance u)
            else u_balance u)
    /\ (forall other, other <> id_of (t_userId row) ->
          tbl_user w' !! other = tbl_user w !! other)
    /\ t_status <$> tbl_transaction w' !! id_of id = Some status.
Proof.
  intros w id status metadata row u Hrow Hu w'.
  pose proof (updateTransactionStatus_world id status metadata row w Hrow)
    as Hw. cbv zeta in Hw. fold w' in Hw.
  clearbody w'. subst w'.
  destruct (bool_decide (status = COMPLETED)) eqn:Hst.
  - set (row' := PaymentService.apply_updateData status (clock w)
                   (Some (clock w)) metadata row).
    set (w1 := set_tbl_transaction _ _ w).
    set (p := convertBigInt.transactionPayload _).
    assert (Hid : id_of (t_userId (tp_row p)) = id_of (t_userId row))
      by apply convertBigInt_bigint_id.
    assert (Hu1 : tbl_user w1 !! id_of (t_userId (tp_row p)) = Some u)
      by (rewrite Hid; exact Hu).
    destruct (user_after_processCompletedTransaction p u w1 Hu1)
      as (Hbal & Hothers & Htx).
    rewrite Hid in Hbal, Hothers.
    change (t_type (tp_row p)) with (t_type row) in *.
    change (t_amount (tp_row p)) with (t_amount row) in *.
    destruct (PaymentService.processCompletedTransaction p w1)
      as [w2 [[]|e]]; cbn [fst snd] in *.
    + change (tbl_user (set_redis ?r w2)) with (tbl_user w2).
      change (tbl_transaction (set_redis ?r w2)) with (tbl_transaction w2).
      rewrite Htx. subst w1. simpl. rewrite lookup_insert_eq.
      split; [exact Hbal|]. split; [exact Hothers|]. reflexivity.
    + rewrite Htx. subst w1. simpl. rewrite lookup_insert_eq.
      split; [exact Hbal|]. split; [exact Hothers|]. reflexivity.
  - simpl. rewrite Hu, lookup_insert_eq. simpl.
    split; [reflexivity|]. split; reflexivity.
Qed.

Lemma C2_witness :
  u_balance <$> tbl_user (fst Scenario.payment_completed_again) !! 1
  = Some (Some (Number.of_Z 200)).
Proof.
  destruct (C2_each_COMPLETED_call_applies_the_balance_change
              (advance Scenario.second (fst Scenario.payment_completed))
              (BigInt 1) COMPLETED None Scenario.payment_row_completed
              (Scenario.user1 100))
    as [Hbalance _].
  - vm_compute. reflexivity.
  - vm_compute. reflexivity.
  - etransitivity; [exact Hbalance|]. vm_compute. reflexivity.
Defined.

(** C2 as stated fails: a payment of 100 completed a second time raises the
    balance from 100 to 200. *)
Lemma C2_counterexample : ~ C2_as_stated.
Proof.
  intros H.
  specialize (H (advance Scenario.second (fst Scenario.payment_completed))
                (BigInt 1) Scenario.payment_row_completed
                (Scenario.user1 100)).
  assert (Hrow : tbl_transaction
                   (advance Scenario.second (fst Scenario.payment_completed))
                   !! 1 = Some Scenario.payment_row_completed)
    by (vm_compute; reflexivity).
  assert (Hu : tbl_user
                 (advance Scenario.second (fst Scenario.payment_completed))
                 !! 1 = Some (Scenario.user1 100))
    by (vm_compute; reflexivity).
  specialize (H Hrow eq_refl Hu).
  vm_compute in H. discriminate H.
Qed.

(** Record of the run behind the counterexample: the pending payment is
    completed, which raises the balance from 0 to 100, and completed again,
    which raises it to 200. *)
Example payment_completed_twice :
  u_balance <$> tbl_user (fst Scenario.payment_pending) !! 1
    = Some (Some (Number.of_Z 0))
  /\ t_status <$> tbl_transaction (fst Scenario.payment_completed) !! 1
     = Some COMPLETED
  /\ u_balance <$> tbl_user (fst Scenario.payment_completed) !! 1
     = Some (Some (Number.of_Z 100))
  /\ u_balance <$> tbl_user (fst Scenario.payment_completed_again) !! 1
     = Some (Some (Number.of_Z 200)).
Proof. by_evaluation. Qed.

(* ===================================================================== *)
(** ** Orders: reading through the cache *)
(* ===================================================================== *)

Lemma getCachedOrder_eq orderId type w :
  OrderService.getCachedOrder orderId type w
  = (w, Return (cached_order type
                  (read (RedisHelper.ORDER_DETAILS orderId) w))).
Proof.
  unfold OrderService.getCachedOrder.
  erewrite bind_Return by apply RedisHelper_get_eq.
  unfold cached_order.
  destruct (read (RedisHelper.ORDER_DETAILS orderId) w)
    as [ |b|x|s|d|d|sid aid|o|t]; try reflexivity.
  - destruct b; reflexivity.
  - destruct x; reflexivity.
  - destruct s; reflexivity.
  - cbn [truthy]. destruct (bool_decide (ob_type o = Some type)); reflexivity.
Qed.

Lemma cached_order_type type c o :
  cached_order type c = Some o -> ob_type o = Some type.
Proof.
  unfold cached_order. destruct c as [ |b|x|s|d|d|sid aid|o'|t];
    try discriminate.
  destruct (bool_decide (ob_type o' = Some type)) eqn:Ht; [|discriminate].
  intros [= <-]. apply bool_decide_eq_true in Ht. exact Ht.
Qed.

(** The entry [cacheOrder] writes is what the next reader finds. *)
Lemma read_after_insert key text now ttl r w :
  0 < ttl ->
  clock w = now ->
  read key (set_redis (<[key := (Stringified text, now + ttl * 1000)]> r) w)
  = text.
Proof.
  intros Httl Hclock. unfold read, cache_lookup. simpl.
  rewrite lookup_insert_eq, Hclock.
  destruct (decide (now < now + ttl * 1000)) as [_|Hn];
    [reflexivity|].
  exfalso. apply Hn. lia.
Qed.

(** The payload [shippingOrder.findUnique] hands to [getShippingOrder]. *)
Lemma shippingOrder_findUnique_eq id w :
  Prisma.shippingOrder_findUnique id w
  = (set_db_reads (S (db_reads w)) w,
     Return (convertBigInt.shippingOrderPayload <$>
               match tbl_shippingOrder w !! id_of id with
               | Some row =>
                   Some {| sp_row := row;
                           sp_user := tbl_user w !! id_of (so_userId row);
                           sp_statusHistory :=
                             Some (Prisma.include_statusHistory (id_of id)
                                     shipping w);
                           sp_transactions :=
                             Some (Prisma.include_transactions (id_of id)
                                     shipping w) |}
               | None => None
               end)).
Proof. reflexivity. Qed.

Lemma purchaseOrder_findUnique_eq id w :
  Prisma.purchaseOrder_findUnique id w
  = (set_db_reads (S (db_reads w)) w,
     Return (convertBigInt.purchaseOrderPayload <$>
               match tbl_purchaseOrder w !! id_of id with
               | Some row =>
                   Some {| pp_row := row;
                           pp_user := tbl_user w !! id_of (po_userId row);
                           pp_statusHistory :=
                             Some (Prisma.include_statusHistory (id_of id)
                                     purchase w);
                           pp_transactions :=
                             Some (Prisma.include_transactions (id_of id)
                                     purchase w) |}
               | None => None
               end)).
Proof. reflexivity. Qed.

(** [getShippingOrder], case by case: a hit, a miss on an existing row
    (one query, then the copy is cached), a miss without a row. *)
Lemma getShippingOrder_eq orderId w :
  OrderService.getShippingOrder orderId w
  = match cached_order shipping
            (read (RedisHelper.ORDER_DETAILS orderId) w) with
    | Some c => (w, Return (Some c))
    | None =>
        match snd (Prisma.shippingOrder_findUnique orderId w) with
        | Return (Some p) =>
            let order := {| ob_body := ShippingBody p; ob_type := None |} in
            (set_redis
               (<[RedisHelper.ORDER_DETAILS orderId :=
                    (Stringified (VOrder (cached_copy shipping order)),
                     clock w + RedisHelper.TTL_MEDIUM * 1000)]> (redis w))
               (set_db_reads (S (db_reads w)) w),
             Return (Some order))
        | _ => (set_db_reads (S (db_reads w)) w, Return None)
        end
    end.
Proof.
  unfold OrderService.getShippingOrder.
  erewrite bind_Return by apply getCachedOrder_eq.
  destruct (cached_order shipping _) as [c|]; [reflexivity|].
  unfold bind at 1. rewrite shippingOrder_findUnique_eq. cbn [snd].
  destruct (tbl_shippingOrder w !! id_of orderId) as [row|]; [|reflexivity].
  cbn [fmap option_fmap option_map].
  unfold bind at 1.
  rewrite cacheOrder_eq by apply convertBigInt_shipping_clean.
  reflexivity.
Qed.

Lemma getPurchaseOrder_eq orderId w :
  OrderService.getPurchaseOrder orderId w
  = match cached_order purchase
            (read (RedisHelper.ORDER_DETAILS orderId) w) with
    | Some c => (w, Return (Some c))
    | None =>
        match snd (Prisma.purchaseOrder_findUnique orderId w) with
        | Return (Some p) =>
            let order := {| ob_body := PurchaseBody p; ob_type := None |} in
            (set_redis
               (<[RedisHelper.ORDER_DETAILS orderId :=
                    (Stringified (VOrder (cached_copy purchase order)),
                     clock w + RedisHelper.TTL_MEDIUM * 1000)]> (redis w))
               (set_db_reads (S (db_reads w)) w),
             Return (Some order))
        | _ => (set_db_reads (S (db_reads w)) w, Return None)
        end
    end.
Proof.
  unfold OrderService.getPurchaseOrder.
  erewrite bind_Return by apply getCachedOrder_eq.
  destruct (cached_order purchase _) as [c|]; [reflexivity|].
  unfold bind at 1. rewrite purchaseOrder_findUnique_eq. cbn [snd].
  destruct (tbl_purchaseOrder w !! id_of orderId) as [row|]; [|reflexivity].
  cbn [fmap option_fmap option_map].
  unfold bind at 1.
  rewrite cacheOrder_eq by apply convertBigInt_purchase_clean.
  reflexivity.
Qed.

Lemma getShippingOrder_twice w id o :
  snd (OrderService.getShippingOrder id w) = Return (Some o) ->
  OrderService.getShippingOrder id (fst (OrderService.getShippingOrder id w))
  = (fst (OrderService.getShippingOrder id w),
     Return (Some (read_again shipping o))).
Proof.
  rewrite (getShippingOrder_eq id w).
  destruct (cached_order shipping _) as [c|] eqn:Hc.
  - intros [= ->]. cbn [fst]. rewrite getShippingOrder_eq, Hc.
    unfold read_again. rewrite (cached_order_type _ _ _ Hc). reflexivity.
  - destruct (snd (Prisma.shippingOrder_findUnique id w)) as [[p|]|e];
      try discriminate.
    intros [= <-]. cbn [fst snd].
    rewrite getShippingOrder_eq.
    rewrite read_after_insert by (reflexivity || apply TTL_MEDIUM_pos).
    reflexivity.
Qed.

Lemma getPurchaseOrder_twice w id o :
  snd (OrderService.getPurchaseOrder id w) = Return (Some o) ->
  OrderService.getPurchaseOrder id (fst (OrderService.getPurchaseOrder id w))
  = (fst (OrderService.getPurchaseOrder id w),
     Return (Some (read_again purchase o))).
Proof.
  rewrite (getPurchaseOrder_eq id w).
  destruct (cached_order purchase _) as [c|] eqn:Hc.
  - intros [= ->]. cbn [fst]. rewrite getPurchaseOrder_eq, Hc.
    unfold read_again. rewrite (cached_order_type _ _ _ Hc). reflexivity.
  - destruct (snd (Prisma.purchaseOrder_findUnique id w)) as [[p|]|e];
      try discriminate.
    intros [= <-]. cbn [fst snd].
    rewrite getPurchaseOrder_eq.
    rewrite read_after_insert by (reflexivity || apply TTL_MEDIUM_pos).
    reflexivity.
Qed.

(** An order returned by a read carries the [type] property exactly when
    the read was served from the cache. *)
Lemma getShippingOrder_hit w id o :
  snd (OrderService.getShippingOrder id w) = Return (Some o) ->
  (ob_type o = Some shipping
   <-> cached_order shipping (read (RedisHelper.ORDER_DETAILS id) w)
       = Some o)
  /\ (ob_type o = Some shipping \/ ob_type o = None).
Proof.
  rewrite (getShippingOrder_eq id w).
  destruct (cached_order shipping _) as [c|] eqn:Hc.
  - intros [= ->]. pose proof (cached_order_type _ _ _ Hc) as Ht.
    split; [split; [reflexivity|exact (fun _ => Ht)]|left; exact Ht].
  - destruct (snd (Prisma.shippingOrder_findUnique id w)) as [[p|]|e];
      try discriminate.
    intros [= <-]. cbn. split; [split; discriminate|right; reflexivity].
Qed.

Lemma getPurchaseOrder_hit w id o :
  snd (OrderService.getPurchaseOrder id w) = Return (Some o) ->
  (ob_type o = Some purchase
   <-> cached_order purchase (read (RedisHelper.ORDER_DETAILS id) w)
       = Some o)
  /\ (ob_type o = Some purchase \/ ob_type o = None).
Proof.
  rewrite (getPurchaseOrder_eq id w).
  destruct (cached_order purchase _) as [c|] eqn:Hc.
  - intros [= ->]. pose proof (cached_order_type _ _ _ Hc) as Ht.
    split; [split; [reflexivity|exact (fun _ => Ht)]|left; exact Ht].
  - destruct (snd (Prisma.purchaseOrder_findUnique id w)) as [[p|]|e];
      try discriminate.
    intros [= <-]. cbn. split; [split; discriminate|right; reflexivity].
Qed.

Lemma read_again_same type o :
  ob_type o = Some type \/ ob_type o = None ->
  (ob_type o = Some type <-> read_again type o = o).
Proof.
  intros Hcases. unfold read_again. split.
  - intros ->. reflexivity.
  - destruct Hcases as [Ht|Hnone]; [intros _; exact Ht|].
    rewrite Hnone. intros Heq.
    assert (Htype : ob_type (cached_copy type o) = ob_type o)
      by (rewrite Heq; reflexivity).
    rewrite Hnone in Htype. discriminate Htype.
Qed.

(** C8 (amended).  When [getShippingOrder] (or [getPurchaseOrder]) has
    returned an order, the same call made again straight away changes
    nothing in the world, so it issues no database query.  If the first
    answer came from the cache, the second is the same object.  If the
    first answer came from the database, the second is what [JSON.parse]
    reads from the text of [{ ...order, type }] that the first call has
    cached: it carries the [type] property, which the first answer does not
    have.  So the two answers are identical exactly when the first call
    was itself a cache hit. *)
Theorem C8_second_get_is_served_from_the_cache :
  forall (w : World) (id : BigIntValue) (o : OrderObject),
    (snd (OrderService.getShippingOrder id w) = Return (Some o) ->
       let first := OrderService.getShippingOrder id w in
       let second := OrderService.getShippingOrder id (fst first) in
       second = (fst first, Return (Some (read_again shipping o)))
       /\ (cached_order shipping (read (RedisHelper.ORDER_DETAILS id) w)
           = Some o
           <-> snd second = snd first))
    /\ (snd (OrderService.getPurchaseOrder id w) = Return (Some o) ->
          let first := OrderService.getPurchaseOrder id w in
          let second := OrderService.getPurchaseOrder id (fst first) in
          second = (fst first, Return (Some (read_again purchase o)))
          /\ (cached_order purchase (read (RedisHelper.ORDER_DETAILS id) w)
              = Some o
              <-> snd second = snd first)).
Proof.
  intros w id o. split; intros Hfirst first second.
  - pose proof (getShippingOrder_twice w id o Hfirst) as Hsecond.
    fold first in Hsecond. fold second in Hsecond.
    split; [exact Hsecond|].
    destruct (getShippingOrder_hit w id o Hfirst) as [Hhit Hcases].
    rewrite <- Hhit, (read_again_same shipping o Hcases).
    rewrite Hsecond. subst first. rewrite Hfirst. cbn [snd].
    split; [intros ->; reflexivity|intros [= Ht]; exact Ht].
  - pose proof (getPurchaseOrder_twice w id o Hfirst) as Hsecond.
    fold first in Hsecond. fold second in Hsecond.
    split; [exact Hsecond|].
    destruct (getPurchaseOrder_hit w id o Hfirst) as [Hhit Hcases].
    rewrite <- Hhit, (read_again_same purchase o Hcases).
    rewrite Hsecond. subst first. rewrite Hfirst. cbn [snd].
    split; [intros ->; reflexivity|intros [= Ht]; exact Ht].
Qed.

Lemma C8_witness :
  match snd Scenario.order_get1 with
  | Return (Some o) =>
      Scenario.order_get2
      = (fst Scenario.order_get1, Return (Some (read_again shipping o)))
  | _ => False
  end.
Proof.
  unfold Scenario.order_get2, Scenario.order_get1.
  set (w := advance (40 * Scenario.minute) (fst Scenario.order_created)).
  destruct (snd (OrderService.getShippingOrder (BigInt 1) w))
    as [[o|]|e] eqn:Hfirst.
  - exact (proj1 (proj1 (C8_second_get_is_served_from_the_cache w (BigInt 1) o)
                    Hfirst)).
  - subst w. vm_compute in Hfirst. discriminate Hfirst.
  - subst w. vm_compute in Hfirst. discriminate Hfirst.
Defined.

(** C8 as stated fails: forty minutes after order 1 was created its cache
    entry has lapsed; the first read returns the database record, the second
    the cached copy, which carries the extra [type] property. *)
Lemma C8_counterexample : ~ C8_as_stated.
Proof.
  intros H.
  destruct (H (advance (40 * Scenario.minute) (fst Scenario.order_created)) 1)
    as [Hsame _].
  - destruct (tbl_shippingOrder
                (advance (40 * Scenario.minute) (fst Scenario.order_created))
                !! 1) as [row|] eqn:Hrow.
    + exists row. reflexivity.
    + vm_compute in Hrow. discriminate Hrow.
  - vm_compute in Hsame. discriminate Hsame.
Qed.

(** Record of the run behind the counterexample: the first read, after the
    cache entry has lapsed, costs one database query and its answer has no
    [type]; the second costs none and its answer has one; apart from that
    property the two answers are the same. *)
Example order_read_twice :
  db_reads (fst Scenario.order_get1)
    = S (db_reads (fst Scenario.order_created))
  /\ db_reads (fst Scenario.order_get2) = db_reads (fst Scenario.order_get1)
  /\ fmap (M := option) ob_type <$> returned (snd Scenario.order_get1) = Some (Some None)
  /\ fmap (M := option) ob_type <$> returned (snd Scenario.order_get2)
     = Some (Some (Some shipping))
  /\ fmap (M := option) ob_body <$> returned (snd Scenario.order_get2)
     = fmap (M := option) ob_body <$> returned (snd Scenario.order_get1).
Proof. by_evaluation. Qed.

(* ===================================================================== *)
(** ** Orders: one history row per transition *)
(* ===================================================================== *)

Lemma ORDER_DETAILS_inj i j :
  RedisHelper.ORDER_DETAILS i = RedisHelper.ORDER_DETAILS j ->
  id_of i = id_of j.
Proof.
  unfold RedisHelper.ORDER_DETAILS. intros H.
  apply (inj (String.append "cache:order:")) in H.
  apply (inj pretty) in H. exact H.
Qed.

Lemma history_of_snoc orderId orderType rows h :
  Prisma.history_of orderId orderType (rows ++ [h])
  = Prisma.history_of orderId orderType rows
    ++ (if bool_decide (id_of (h_orderId h) = orderId)
           && bool_decide (h_orderType h = orderType)
        then [h] else []).
Proof.
  unfold Prisma.history_of. rewrite List.filter_app. simpl.
  destruct (bool_decide (id_of (h_orderId h) = orderId)
            && bool_decide (h_orderType h = orderType)); reflexivity.
Qed.

Lemma history_of_snoc_other orderId orderType rows h :
  id_of (h_orderId h) <> orderId \/ h_orderType h <> orderType ->
  Prisma.history_of orderId orderType (rows ++ [h])
  = Prisma.history_of orderId orderType rows.
Proof.
  intros Hne. rewrite history_of_snoc.
  destruct Hne as [Hne|Hne].
  - rewrite (bool_decide_eq_false_2 _ Hne). simpl. apply app_nil_r.
  - rewrite (bool_decide_eq_false_2 _ Hne), andb_false_r. apply app_nil_r.
Qed.

Lemma history_of_snoc_same orderId orderType rows h :
  id_of (h_orderId h) = orderId -> h_orderType h = orderType ->
  Prisma.history_of orderId orderType (rows ++ [h])
  = Prisma.history_of orderId orderType rows ++ [h].
Proof.
  intros Hid Hty. rewrite history_of_snoc.
  rewrite (bool_decide_eq_true_2 _ Hid), (bool_decide_eq_true_2 _ Hty).
  reflexivity.
Qed.

Lemma chained_snoc previous rows h :
  chained previous rows ->
  h_oldStatus h = Some (default previous (h_newStatus <$> last rows)) ->
  chained previous (rows ++ [h]).
Proof.
  revert previous. induction rows as [|r rows IH]; intros previous Hch Hold.
  - simpl in *. split; [exact Hold|exact I].
  - destruct Hch as [Hr Hrest]. simpl. split; [exact Hr|].
    apply IH; [exact Hrest|].
    rewrite Hold. f_equal.
    destruct rows as [|r' rows']; [reflexivity|].
    change (last (r :: r' :: rows')) with (last (r' :: rows')).
    destruct (last (r' :: rows')) eqn:Hl; [reflexivity|].
    apply last_None in Hl. discriminate Hl.
Qed.

Lemma history_ok_snoc n s rows h :
  history_ok n s rows ->
  h_oldStatus h = Some s ->
  history_ok (S n) (h_newStatus h) (rows ++ [h]).
Proof.
  intros (Hlen & Hwf & Hlast) Hold. unfold history_ok.
  split; [rewrite length_app; simpl; lia|].
  split.
  - destruct rows as [|first rest]; [contradiction|].
    destruct Hwf as (Hnone & Hcreated & Hch).
    simpl. split; [exact Hnone|]. split; [exact Hcreated|].
    apply chained_snoc; [exact Hch|].
    rewrite Hold. f_equal.
    destruct rest as [|r rest'].
    + simpl in *. congruence.
    + change (last (first :: r :: rest')) with (last (r :: rest')) in Hlast.
      rewrite Hlast. reflexivity.
  - rewrite last_snoc. reflexivity.
Qed.

(** The cached copy of an order shows the status of the order. *)
Lemma ob_status_cached_copy type o :
  ob_status (cached_copy type o) = ob_status o.
Proof. destruct o as [[p|p] ty]; reflexivity. Qed.

(** A world that keeps the order's row status, sequence and history rows,
    and adds to Redis under the order's key only copies of orders showing
    the stored status, keeps the invariant. *)
Lemma order_invariant_frame orderType orderId n w w' :
  order_invariant orderType orderId n w ->
  engine w' = engine w ->
  stored_status orderType orderId w' = stored_status orderType orderId w ->
  next_id orderType w <= next_id orderType w' ->
  history orderType orderId w' = history orderType orderId w ->
  (forall text e,
     redis w' !! RedisHelper.ORDER_DETAILS (BigInt orderId) = Some (text, e) ->
     redis w !! RedisHelper.ORDER_DETAILS (BigInt orderId) = Some (text, e)
     \/ exists o,
          text = Stringified (VOrder o)
          /\ (ob_type o = Some orderType ->
              stored_status orderType orderId w = Some (ob_status o))) ->
  order_invariant orderType orderId n w'.
Proof.
  intros (s & Hst & Hseq & Hcoh & Hhist) Heng Hst' Hseq' Hhist' Hredis.
  exists s. split; [congruence|]. split; [lia|].
  split; [|rewrite Hhist'; exact Hhist].
  intros text e o Ho Hparse Hty.
  destruct (Hredis text e Ho) as [Hold|(o' & -> & Hnew)].
  - apply (Hcoh text e o Hold); [|exact Hty].
    rewrite <- Hparse. unfold RedisHelper.parse_or_raw. rewrite Heng.
    reflexivity.
  - cbn [RedisHelper.parse_or_raw] in Hparse. injection Hparse as ->.
    specialize (Hnew Hty). congruence.
Qed.

(** A world in which the order's row shows a new status, one history row
    from the old status to the new one has been appended, and Redis holds
    under the order's key a copy showing the new status, has the invariant
    for one more transition. *)
Lemma order_invariant_transition orderType orderId n w w' h o e :
  order_invariant orderType orderId n w ->
  id_of (h_orderId h) = orderId -> h_orderType h = orderType ->
  Some <$> h_oldStatus h = Some (stored_status orderType orderId w) ->
  stored_status orderType orderId w' = Some (h_newStatus h) ->
  next_id orderType w <= next_id orderType w' ->
  tbl_orderStatusHistory w' = tbl_orderStatusHistory w ++ [h] ->
  redis w' !! RedisHelper.ORDER_DETAILS (BigInt orderId)
    = Some (Stringified (VOrder o), e) ->
  ob_status o = h_newStatus h ->
  order_invariant orderType orderId (S n) w'.
Proof.
  intros (s & Hst & Hseq & Hcoh & Hhist) Hid Hty Hold Hst' Hseq' Hrows
    Hredis Hstatus.
  exists (h_newStatus h). split; [exact Hst'|]. split; [lia|].
  split.
  - intros text e' o' Ho Hparse _. rewrite Hredis in Ho.
    injection Ho as <- <-. cbn [RedisHelper.parse_or_raw] in Hparse.
    injection Hparse as <-. exact Hstatus.
  - unfold history in *. rewrite Hrows, history_of_snoc_same by assumption.
    apply (history_ok_snoc n s); [exact Hhist|].
    rewrite Hst in Hold. destruct (h_oldStatus h); simpl in Hold; congruence.
Qed.

(** The key of an order depends on the integer its id writes only. *)
Lemma ORDER_DETAILS_id j orderId :
  id_of j = orderId ->
  RedisHelper.ORDER_DETAILS j = RedisHelper.ORDER_DETAILS (BigInt orderId).
Proof. intros <-. reflexivity. Qed.

(** What a write under the key of order [j] leaves under the key of the
    order the invariant is about. *)
Lemma lookup_after_cache j orderId text e text' e'
    (r : gmap string (RedisString * Z)) :
  <[RedisHelper.ORDER_DETAILS j := (text, e)]> r
    !! RedisHelper.ORDER_DETAILS (BigInt orderId) = Some (text', e') ->
  (id_of j = orderId /\ text' = text /\ e' = e)
  \/ (id_of j <> orderId
      /\ r !! RedisHelper.ORDER_DETAILS (BigInt orderId) = Some (text', e')).
Proof.
  intros Ho.
  destruct (decide (id_of j = orderId)) as [Hk|Hk].
  - rewrite (ORDER_DETAILS_id j orderId Hk), lookup_insert_eq in Ho.
    injection Ho as <- <-. left. repeat split. exact Hk.
  - rewrite lookup_insert_ne in Ho.
    + right. split; assumption.
    + intros Heq. apply ORDER_DETAILS_inj in Heq. exact (Hk Heq).
Qed.

(** *** Shipping orders *)

Lemma getShippingOrder_keeps orderType orderId n j w :
  order_invariant orderType orderId n w ->
  order_invariant orderType orderId n (fst (OrderService.getShippingOrder j w)).
Proof.
  intros Hinv. rewrite getShippingOrder_eq.
  destruct (cached_order shipping _) as [c|]; [exact Hinv|].
  rewrite shippingOrder_findUnique_eq. cbn [snd].
  destruct (tbl_shippingOrder w !! id_of j) as [row|] eqn:Hrow;
    cbn [fmap option_fmap option_map fst].
  - apply (order_invariant_frame _ _ _ w); try exact Hinv;
      try (destruct orderType; reflexivity); try reflexivity.
    intros text e Ho. cbn [redis set_redis set_db_reads] in Ho.
    apply lookup_after_cache in Ho.
    destruct Ho as [(Hk & -> & ->)|[_ Ho]]; [|left; exact Ho].
    right. eexists. split; [reflexivity|].
    cbn [cached_copy tagged JSON.image_order ob_type]. intros [= <-].
    cbn [stored_status]. rewrite <- Hk, Hrow. reflexivity.
  - apply (order_invariant_frame _ _ _ w); try exact Hinv;
      try (destruct orderType; reflexivity); try reflexivity.
    intros text e Ho. left. exact Ho.
Qed.

Lemma getShippingOrder_current orderId n w :
  order_invariant shipping orderId n w ->
  exists current,
    snd (OrderService.getShippingOrder (BigInt orderId) w)
      = Return (Some current)
    /\ stored_status shipping orderId w = Some (ob_status current).
Proof.
  intros (s & Hst & Hseq & Hcoh & Hhist). rewrite getShippingOrder_eq.
  destruct (cached_order shipping _) as [c|] eqn:Hc.
  - exists c. split; [reflexivity|]. rewrite Hst. f_equal. symmetry.
    pose proof (cached_order_type _ _ _ Hc) as Hty.
    unfold cached_order in Hc.
    destruct (read (RedisHelper.ORDER_DETAILS (BigInt orderId)) w)
      as [ | | | | | | |o| ] eqn:Hread; try discriminate.
    destruct (bool_decide (ob_type o = Some shipping)); [|discriminate].
    injection Hc as ->.
    unfold read, cache_lookup in Hread.
    destruct (redis w !! RedisHelper.ORDER_DETAILS (BigInt orderId))
      as [[text e]|] eqn:Hr; [|discriminate].
    destruct (decide (clock w < e)); [|discriminate].
    apply (Hcoh text e c Hr); [|exact Hty].
    destruct text as [raw|v]; [|exact Hread].
    destruct raw; [discriminate|exact Hread].
  - rewrite shippingOrder_findUnique_eq. cbn [snd id_of].
    cbn [stored_status] in Hst.
    destruct (tbl_shippingOrder w !! orderId) as [row|] eqn:Hrow;
      [|discriminate].
    cbn [fmap option_fmap option_map].
    eexists. split; [reflexivity|]. cbn [stored_status]. rewrite Hrow.
    reflexivity.
Qed.

Lemma updateShippingOrderStatus_eq j newStatus comment adminId w :
  OrderService.updateShippingOrderStatus j newStatus comment adminId w
  = match snd (OrderService.getShippingOrder j w) with
    | Return (Some current) =>
        let w1 := fst (OrderService.getShippingOrder j w) in
        match tbl_shippingOrder w1 !! id_of j with
        | Some row =>
            let row' := Prisma.so_with_status newStatus (clock w1) row in
            let updated :=
              {| ob_body := ShippingBody
                   (convertBigInt.shippingOrderPayload
                      {| sp_row := row';
                         sp_user := tbl_user w1 !! id_of (so_userId row');
                         sp_statusHistory := None;
                         sp_transactions := None |});
                 ob_type := None |} in
            let h := {| h_orderId := BigInt (id_of j);
                        h_orderType := shipping;
                        h_oldStatus := Some (ob_status current);
                        h_newStatus := OrderStatus_str newStatus;
                        h_comment := comment; h_adminId := adminId;
                        h_createdAt := Date (clock w1) |} in
            (set_redis
               (<[RedisHelper.ORDER_DETAILS j :=
                    (Stringified (VOrder (cached_copy shipping updated)),
                     clock w1 + RedisHelper.TTL_MEDIUM * 1000)]> (redis w1))
               (set_tbl_orderStatusHistory
                  (tbl_orderStatusHistory w1 ++ [h])
                  (set_tbl_shippingOrder
                     (<[id_of j := row']> (tbl_shippingOrder w1))
                     (seq_shippingOrder w1) w1)),
             Return updated)
        | None =>
            (w1, Throw (PrismaClientKnownRequestError "P2025"))
        end
    | Return None =>
        (fst (OrderService.getShippingOrder j w),
         Throw (Error "Order not found"))
    | Throw e => (fst (OrderService.getShippingOrder j w), Throw e)
    end.
Proof.
  unfold OrderService.updateShippingOrderStatus. unfold bind at 1.
  destruct (OrderService.getShippingOrder j w) as [w1 [[current|]|e]];
    try reflexivity.
  cbn [fst snd].
  unfold bind at 1. unfold Date_now, gets.
  unfold bind at 1.
  unfold Prisma.shippingOrder_update, Prisma.use, Prisma.key_of.
  unfold bind at 1.
  destruct (tbl_shippingOrder w1 !! id_of j) as [row|]; [|reflexivity].
  unfold ret at 1.
  unfold bind at 1. unfold OrderService.createStatusHistory,
    Prisma.orderStatusHistory_create, Prisma.use, Prisma.key_of.
  unfold bind at 1. unfold bind at 1. unfold ret at 1. unfold ret at 1.
  unfold bind at 1.
  rewrite cacheOrder_eq by apply convertBigInt_shipping_clean.
  reflexivity.
Qed.

Lemma updateShippingOrderStatus_keeps orderType orderId n j newStatus
    comment adminId w :
  order_invariant orderType orderId n w ->
  orderType = purchase \/ id_of j <> orderId ->
  order_invariant orderType orderId n
    (fst (OrderService.updateShippingOrderStatus j newStatus comment adminId w)).
Proof.
  intros Hinv Hother. rewrite updateShippingOrderStatus_eq.
  pose proof (getShippingOrder_keeps _ _ _ j w Hinv) as Hinv1.
  destruct (OrderService.getShippingOrder j w) as [w1 [[current|]|e]];
    cbn [fst snd] in *; try exact Hinv1.
  destruct (tbl_shippingOrder w1 !! id_of j) as [row|] eqn:Hrow;
    [|exact Hinv1].
  cbn zeta. cbn [fst].
  apply (order_invariant_frame _ _ _ w1); try exact Hinv1.
  - reflexivity.
  - destruct orderType; cbn [stored_status]; [|reflexivity].
    destruct Hother as [Hty|Hne]; [discriminate|].
    cbn [tbl_shippingOrder set_redis set_tbl_orderStatusHistory
         set_tbl_shippingOrder].
    rewrite lookup_insert_ne by exact Hne. reflexivity.
  - destruct orderType; reflexivity.
  - unfold history.
    cbn [tbl_orderStatusHistory set_redis set_tbl_orderStatusHistory].
    apply history_of_snoc_other. cbn [h_orderId h_orderType id_of].
    destruct Hother as [->|Hne]; [right; discriminate|left; exact Hne].
  - intros text e Ho.
    cbn [redis set_redis set_tbl_orderStatusHistory set_tbl_shippingOrder]
      in Ho.
    apply lookup_after_cache in Ho.
    destruct Ho as [(Hk & -> & ->)|[_ Ho]]; [|left; exact Ho].
    right. eexists. split; [reflexivity|].
    cbn [cached_copy tagged JSON.image_order ob_type]. intros [= <-].
    destruct Hother; [discriminate|contradiction].
Qed.

Lemma updateShippingOrderStatus_transition orderId n newStatus comment
    adminId w :
  order_invariant shipping orderId n w ->
  has_returned
    (snd (OrderService.updateShippingOrderStatus (BigInt orderId) newStatus
            comment adminId w)) = true
  /\ order_invariant shipping orderId (S n)
       (fst (OrderService.updateShippingOrderStatus (BigInt orderId)
               newStatus comment adminId w)).
Proof.
  intros Hinv. rewrite updateShippingOrderStatus_eq.
  pose proof (getShippingOrder_keeps _ _ _ (BigInt orderId) w Hinv) as Hinv1.
  destruct (getShippingOrder_current _ _ _ Hinv) as (current & Hcur & Hstatus).
  assert (Hsame : stored_status shipping orderId
                    (fst (OrderService.getShippingOrder (BigInt orderId) w))
                  = stored_status shipping orderId w).
  { rewrite getShippingOrder_eq.
    destruct (cached_order shipping _); [reflexivity|].
    rewrite shippingOrder_findUnique_eq. cbn [snd].
    destruct (tbl_shippingOrder w !! id_of (BigInt orderId));
      reflexivity. }
  destruct (OrderService.getShippingOrder (BigInt orderId) w) as [w1 o1].
  cbn [fst snd] in *. subst o1.
  rewrite <- Hsame in Hstatus. cbn [stored_status] in Hstatus.
  cbn [id_of].
  destruct (tbl_shippingOrder w1 !! orderId) as [row|] eqn:Hrow;
    [|discriminate].
  cbn zeta. cbn [fst snd has_returned].
  split; [reflexivity|].
  eapply (order_invariant_transition shipping orderId n w1 _
            {| h_orderId := BigInt orderId; h_orderType := shipping;
               h_oldStatus := Some (ob_status current);
               h_newStatus := OrderStatus_str newStatus;
               h_comment := comment; h_adminId := adminId;
               h_createdAt := Date (clock w1) |} _ _ Hinv1).
  - reflexivity.
  - reflexivity.
  - cbn [h_oldStatus stored_status]. rewrite Hrow. simpl.
    simpl in Hstatus. congruence.
  - cbn [stored_status tbl_shippingOrder set_redis
         set_tbl_orderStatusHistory set_tbl_shippingOrder h_newStatus].
    rewrite lookup_insert_eq. reflexivity.
  - reflexivity.
  - reflexivity.
  - cbn [redis set_redis set_tbl_orderStatusHistory set_tbl_shippingOrder].
    rewrite lookup_insert_eq. reflexivity.
  - reflexivity.
Qed.

Lemma createShippingOrder_eq data w :
  exists row user,
    so_id row = BigInt (seq_shippingOrder w)
    /\ so_status row = CREATED
    /\ OrderService.createShippingOrder data w
       = let order :=
           {| ob_body := ShippingBody
                (convertBigInt.shippingOrderPayload
                   {| sp_row := row; sp_user := user;
                      sp_statusHistory := None; sp_transactions := None |});
              ob_type := None |} in
         let h := {| h_orderId := BigInt (seq_shippingOrder w);
                     h_orderType := shipping;
                     h_oldStatus := None; h_newStatus := "CREATED";
                     h_comment := Some "Заказ создан"; h_adminId := None;
                     h_createdAt := Date (clock w) |} in
         (set_redis
            (<[RedisHelper.ORDER_DETAILS (BigIntString (seq_shippingOrder w)) :=
                 (Stringified (VOrder (cached_copy shipping order)),
                  clock w + RedisHelper.TTL_MEDIUM * 1000)]> (redis w))
            (set_tbl_orderStatusHistory
               (tbl_orderStatusHistory w ++ [h])
               (set_tbl_shippingOrder
                  (<[seq_shippingOrder w := row]> (tbl_shippingOrder w))
                  (seq_shippingOrder w + 1) w)),
          Return order).
Proof.
  unfold OrderService.createShippingOrder.
  unfold bind at 1. unfold Prisma.shippingOrder_create, Prisma.use.
  unfold bind at 1. unfold ret at 1.
  unfold bind at 1. unfold OrderService.createStatusHistory,
    Prisma.orderStatusHistory_create, Prisma.use, Prisma.key_of.
  unfold bind at 1. unfold bind at 1. unfold ret at 1. unfold ret at 1.
  unfold bind at 1.
  rewrite cacheOrder_eq by apply convertBigInt_shipping_clean.
  eexists. eexists. split; [|split; [|reflexivity]]; reflexivity.
Qed.

Lemma createShippingOrder_keeps orderType orderId n data w :
  order_invariant orderType orderId n w ->
  order_invariant orderType orderId n
    (fst (OrderService.createShippingOrder data w)).
Proof.
  intros Hinv.
  destruct (createShippingOrder_eq data w) as (row & user & Hid & _ & ->).
  cbn zeta. cbn [fst].
  assert (Hfresh : orderType = purchase \/ seq_shippingOrder w <> orderId).
  { destruct orderType; [right|left; reflexivity].
    destruct Hinv as (s & _ & Hlt & _). cbn [next_id] in Hlt. lia. }
  apply (order_invariant_frame _ _ _ w); try exact Hinv.
  - reflexivity.
  - destruct orderType; cbn [stored_status]; [|reflexivity].
    destruct Hfresh as [Hty|Hne]; [discriminate|].
    cbn [tbl_shippingOrder set_redis set_tbl_orderStatusHistory
         set_tbl_shippingOrder].
    rewrite lookup_insert_ne by exact Hne. reflexivity.
  - destruct orderType; cbn [next_id seq_shippingOrder seq_purchaseOrder
      set_redis set_tbl_orderStatusHistory set_tbl_shippingOrder]; lia.
  - unfold history.
    cbn [tbl_orderStatusHistory set_redis set_tbl_orderStatusHistory].
    apply history_of_snoc_other. cbn [h_orderId h_orderType id_of].
    destruct Hfresh as [->|Hne]; [right; discriminate|left; exact Hne].
  - intros text e Ho.
    cbn [redis set_redis set_tbl_orderStatusHistory set_tbl_shippingOrder]
      in Ho.
    apply lookup_after_cache in Ho.
    destruct Ho as [(Hk & -> & ->)|[_ Ho]]; [|left; exact Ho].
    right. eexists. split; [reflexivity|].
    cbn [cached_copy tagged JSON.image_order ob_type]. intros [= <-].
    cbn [id_of] in Hk. destruct Hfresh; [discriminate|contradiction].
Qed.

Lemma createShippingOrder_establishes data w :
  history shipping (seq_shippingOrder w) w = [] ->
  has_returned (snd (OrderService.createShippingOrder data w)) = true
  /\ order_invariant shipping (seq_shippingOrder w) 0
       (fst (OrderService.createShippingOrder data w)).
Proof.
  intros Hempty.
  destruct (createShippingOrder_eq data w) as (row & user & Hid & Hst & ->).
  cbn zeta. cbn [fst snd has_returned].
  split; [reflexivity|].
  exists "CREATED". split; [|split; [|split]].
  - cbn [stored_status tbl_shippingOrder set_redis
         set_tbl_orderStatusHistory set_tbl_shippingOrder].
    rewrite lookup_insert_eq. simpl. rewrite Hst. reflexivity.
  - cbn [next_id seq_shippingOrder set_redis set_tbl_orderStatusHistory
         set_tbl_shippingOrder]. lia.
  - intros text e o Ho Hparse Hty.
    cbn [redis set_redis set_tbl_orderStatusHistory set_tbl_shippingOrder]
      in Ho.
    apply lookup_after_cache in Ho.
    destruct Ho as [(_ & -> & _)|[Hne _]]; [|destruct (Hne eq_refl)].
    cbn [RedisHelper.parse_or_raw] in Hparse. injection Hparse as <-.
    rewrite ob_status_cached_copy. unfold ob_status.
    cbn [ob_body sp_row convertBigInt.shippingOrderPayload
         convertBigInt.shippingOrder so_status].
    rewrite Hst. reflexivity.
  - unfold history in *.
    cbn [tbl_orderStatusHistory set_redis set_tbl_orderStatusHistory].
    rewrite history_of_snoc_same by reflexivity. rewrite Hempty.
    repeat split.
Qed.

(** *** Purchase orders *)

Lemma getPurchaseOrder_keeps orderType orderId n j w :
  order_invariant orderType orderId n w ->
  order_invariant orderType orderId n (fst (OrderService.getPurchaseOrder j w)).
Proof.
  intros Hinv. rewrite getPurchaseOrder_eq.
  destruct (cached_order purchase _) as [c|]; [exact Hinv|].
  rewrite purchaseOrder_findUnique_eq. cbn [snd].
  destruct (tbl_purchaseOrder w !! id_of j) as [row|] eqn:Hrow;
    cbn [fmap option_fmap option_map fst].
  - apply (order_invariant_frame _ _ _ w); try exact Hinv;
      try (destruct orderType; reflexivity); try reflexivity.
    intros text e Ho. cbn [redis set_redis set_db_reads] in Ho.
    apply lookup_after_cache in Ho.
    destruct Ho as [(Hk & -> & ->)|[_ Ho]]; [|left; exact Ho].
    right. eexists. split; [reflexivity|].
    cbn [cached_copy tagged JSON.image_order ob_type]. intros [= <-].
    cbn [stored_status]. rewrite <- Hk, Hrow. reflexivity.
  - apply (order_invariant_frame _ _ _ w); try exact Hinv;
      try (destruct orderType; reflexivity); try reflexivity.
    intros text e Ho. left. exact Ho.
Qed.

Lemma getPurchaseOrder_current orderId n w :
  order_invariant purchase orderId n w ->
  exists current,
    snd (OrderService.getPurchaseOrder (BigInt orderId) w)
      = Return (Some current)
    /\ stored_status purchase orderId w = Some (ob_status current).
Proof.
  intros (s & Hst & Hseq & Hcoh & Hhist). rewrite getPurchaseOrder_eq.
  destruct (cached_order purchase _) as [c|] eqn:Hc.
  - exists c. split; [reflexivity|]. rewrite Hst. f_equal. symmetry.
    pose proof (cached_order_type _ _ _ Hc) as Hty.
    unfold cached_order in Hc.
    destruct (read (RedisHelper.ORDER_DETAILS (BigInt orderId)) w)
      as [ | | | | | | |o| ] eqn:Hread; try discriminate.
    destruct (bool_decide (ob_type o = Some purchase)); [|discriminate].
    injection Hc as ->.
    unfold read, cache_lookup in Hread.
    destruct (redis w !! RedisHelper.ORDER_DETAILS (BigInt orderId))
      as [[text e]|] eqn:Hr; [|discriminate].
    destruct (decide (clock w < e)); [|discriminate].
    apply (Hcoh text e c Hr); [|exact Hty].
    destruct text as [raw|v]; [|exact Hread].
    destruct raw; [discriminate|exact Hread].
  - rewrite purchaseOrder_findUnique_eq. cbn [snd id_of].
    cbn [stored_status] in Hst.
    destruct (tbl_purchaseOrder w !! orderId) as [row|] eqn:Hrow;
      [|discriminate].
    cbn [fmap option_fmap option_map].
    eexists. split; [reflexivity|]. cbn [stored_status]. rewrite Hrow.
    reflexivity.
Qed.

Lemma updatePurchaseOrderStatus_eq j newStatus comment adminId w :
  OrderService.updatePurchaseOrderStatus j newStatus comment adminId w
  = match snd (OrderService.getPurchaseOrder j w) with
    | Return (Some current) =>
        let w1 := fst (OrderService.getPurchaseOrder j w) in
        match tbl_purchaseOrder w1 !! id_of j with
        | Some row =>
            let row' := Prisma.po_with_status newStatus (clock w1) row in
            let updated :=
              {| ob_body := PurchaseBody
                   (convertBigInt.purchaseOrderPayload
                      {| pp_row := row';
                         pp_user := tbl_user w1 !! id_of (po_userId row');
                         pp_statusHistory := None;
                         pp_transactions := None |});
                 ob_type := None |} in
            let h := {| h_orderId := BigInt (id_of j);
                        h_orderType := purchase;
                        h_oldStatus := Some (ob_status current);
                        h_newStatus := PurchaseOrderStatus_str newStatus;
                        h_comment := comment; h_adminId := adminId;
                        h_createdAt := Date (clock w1) |} in
            (set_redis
               (<[RedisHelper.ORDER_DETAILS j :=
                    (Stringified (VOrder (cached_copy purchase updated)),
                     clock w1 + RedisHelper.TTL_MEDIUM * 1000)]> (redis w1))
               (set_tbl_orderStatusHistory
                  (tbl_orderStatusHistory w1 ++ [h])
                  (set_tbl_purchaseOrder
                     (<[id_of j := row']> (tbl_purchaseOrder w1))
                     (seq_purchaseOrder w1) w1)),
             Return updated)
        | None =>
            (w1, Throw (PrismaClientKnownRequestError "P2025"))
        end
    | Return None =>
        (fst (OrderService.getPurchaseOrder j w),
         Throw (Error "Order not found"))
    | Throw e => (fst (OrderService.getPurchaseOrder j w), Throw e)
    end.
Proof.
  unfold OrderService.updatePurchaseOrderStatus. unfold bind at 1.
  destruct (OrderService.getPurchaseOrder j w) as [w1 [[current|]|e]];
    try reflexivity.
  cbn [fst snd].
  unfold bind at 1. unfold Date_now, gets.
  unfold bind at 1.
  unfold Prisma.purchaseOrder_update, Prisma.use, Prisma.key_of.
  unfold bind at 1.
  destruct (tbl_purchaseOrder w1 !! id_of j) as [row|]; [|reflexivity].
  unfold ret at 1.
  unfold bind at 1. unfold OrderService.createStatusHistory,
    Prisma.orderStatusHistory_create, Prisma.use, Prisma.key_of.
  unfold bind at 1. unfold bind at 1. unfold ret at 1. unfold ret at 1.
  unfold bind at 1.
  rewrite cacheOrder_eq by apply convertBigInt_purchase_clean.
  reflexivity.
Qed.

Lemma updatePurchaseOrderStatus_keeps orderType orderId n j newStatus
    comment adminId w :
  order_invariant orderType orderId n w ->
  orderType = shipping \/ id_of j <> orderId ->
  order_invariant orderType orderId n
    (fst (OrderService.updatePurchaseOrderStatus j newStatus comment adminId w)).
Proof.
  intros Hinv Hother. rewrite updatePurchaseOrderStatus_eq.
  pose proof (getPurchaseOrder_keeps _ _ _ j w Hinv) as Hinv1.
  destruct (OrderService.getPurchaseOrder j w) as [w1 [[current|]|e]];
    cbn [fst snd] in *; try exact Hinv1.
  destruct (tbl_purchaseOrder w1 !! id_of j) as [row|] eqn:Hrow;
    [|exact Hinv1].
  cbn zeta. cbn [fst].
  apply (order_invariant_frame _ _ _ w1); try exact Hinv1.
  - reflexivity.
  - destruct orderType; cbn [stored_status]; [reflexivity|].
    destruct Hother as [Hty|Hne]; [discriminate|].
    cbn [tbl_purchaseOrder set_redis set_tbl_orderStatusHistory
         set_tbl_purchaseOrder].
    rewrite lookup_insert_ne by exact Hne. reflexivity.
  - destruct orderType; reflexivity.
  - unfold history.
    cbn [tbl_orderStatusHistory set_redis set_tbl_orderStatusHistory].
    apply history_of_snoc_other. cbn [h_orderId h_orderType id_of].
    destruct Hother as [->|Hne]; [right; discriminate|left; exact Hne].
  - intros text e Ho.
    cbn [redis set_redis set_tbl_orderStatusHistory set_tbl_purchaseOrder]
      in Ho.
    apply lookup_after_cache in Ho.
    destruct Ho as [(Hk & -> & ->)|[_ Ho]]; [|left; exact Ho].
    right. eexists. split; [reflexivity|].
    cbn [cached_copy tagged JSON.image_order ob_type]. intros [= <-].
    destruct Hother; [discriminate|contradiction].
Qed.

Lemma updatePurchaseOrderStatus_transition orderId n newStatus comment
    adminId w :
  order_invariant purchase orderId n w ->
  has_returned
    (snd (OrderService.updatePurchaseOrderStatus (BigInt orderId) newStatus
            comment adminId w)) = true
  /\ order_invariant purchase orderId (S n)
       (fst (OrderService.updatePurchaseOrderStatus (BigInt orderId)
               newStatus comment adminId w)).
Proof.
  intros Hinv. rewrite updatePurchaseOrderStatus_eq.
  pose proof (getPurchaseOrder_keeps _ _ _ (BigInt orderId) w Hinv) as Hinv1.
  destruct (getPurchaseOrder_current _ _ _ Hinv) as (current & Hcur & Hstatus).
  assert (Hsame : stored_status purchase orderId
                    (fst (OrderService.getPurchaseOrder (BigInt orderId) w))
                  = stored_status purchase orderId w).
  { rewrite getPurchaseOrder_eq.
    destruct (cached_order purchase _); [reflexivity|].
    rewrite purchaseOrder_findUnique_eq. cbn [snd].
    destruct (tbl_purchaseOrder w !! id_of (BigInt orderId));
      reflexivity. }
  destruct (OrderService.getPurchaseOrder (BigInt orderId) w) as [w1 o1].
  cbn [fst snd] in *. subst o1.
  rewrite <- Hsame in Hstatus. cbn [stored_status] in Hstatus.
  cbn [id_of].
  destruct (tbl_purchaseOrder w1 !! orderId) as [row|] eqn:Hrow;
    [|discriminate].
  cbn zeta. cbn [fst snd has_returned].
  split; [reflexivity|].
  eapply (order_invariant_transition purchase orderId n w1 _
            {| h_orderId := BigInt orderId; h_orderType := purchase;
               h_oldStatus := Some (ob_status current);
               h_newStatus := PurchaseOrderStatus_str newStatus;
               h_comment := comment; h_adminId := adminId;
               h_createdAt := Date (clock w1) |} _ _ Hinv1).
  - reflexivity.
  - reflexivity.
  - cbn [h_oldStatus stored_status]. rewrite Hrow. simpl.
    simpl in Hstatus. congruence.
  - cbn [stored_status tbl_purchaseOrder set_redis
         set_tbl_orderStatusHistory set_tbl_purchaseOrder h_newStatus].
    rewrite lookup_insert_eq. reflexivity.
  - reflexivity.
  - reflexivity.
  - cbn [redis set_redis set_tbl_orderStatusHistory set_tbl_purchaseOrder].
    rewrite lookup_insert_eq. reflexivity.
  - reflexivity.
Qed.

Lemma createPurchaseOrder_eq data w :
  exists row user,
    po_id row = BigInt (seq_purchaseOrder w)
    /\ po_status row = P_CREATED
    /\ OrderService.createPurchaseOrder data w
       = let order :=
           {| ob_body := PurchaseBody
                (convertBigInt.purchaseOrderPayload
                   {| pp_row := row; pp_user := user;
                      pp_statusHistory := None; pp_transactions := None |});
              ob_type := None |} in
         let h := {| h_orderId := BigInt (seq_purchaseOrder w);
                     h_orderType := purchase;
                     h_oldStatus := None; h_newStatus := "CREATED";
                     h_comment := Some "Заявка на выкуп создана"; h_adminId := None;
                     h_createdAt := Date (clock w) |} in
         (set_redis
            (<[RedisHelper.ORDER_DETAILS (BigIntString (seq_purchaseOrder w)) :=
                 (Stringified (VOrder (cached_copy purchase order)),
                  clock w + RedisHelper.TTL_MEDIUM * 1000)]> (redis w))
            (set_tbl_orderStatusHistory
               (tbl_orderStatusHistory w ++ [h])
               (set_tbl_purchaseOrder
                  (<[seq_purchaseOrder w := row]> (tbl_purchaseOrder w))
                  (seq_purchaseOrder w + 1) w)),
          Return order).
Proof.
  unfold OrderService.createPurchaseOrder.
  unfold bind at 1. unfold Prisma.purchaseOrder_create, Prisma.use.
  unfold bind at 1. unfold ret at 1.
  unfold bind at 1. unfold OrderService.createStatusHistory,
    Prisma.orderStatusHistory_create, Prisma.use, Prisma.key_of.
  unfold bind at 1. unfold bind at 1. unfold ret at 1. unfold ret at 1.
  unfold bind at 1.
  rewrite cacheOrder_eq by apply convertBigInt_purchase_clean.
  eexists. eexists. split; [|split; [|reflexivity]]; reflexivity.
Qed.

Lemma createPurchaseOrder_keeps orderType orderId n data w :
  order_invariant orderType orderId n w ->
  order_invariant orderType orderId n
    (fst (OrderService.createPurchaseOrder data w)).
Proof.
  intros Hinv.
  destruct (createPurchaseOrder_eq data w) as (row & user & Hid & _ & ->).
  cbn zeta. cbn [fst].
  assert (Hfresh : orderType = shipping \/ seq_purchaseOrder w <> orderId).
  { destruct orderType; [left; reflexivity|right].
    destruct Hinv as (s & _ & Hlt & _). cbn [next_id] in Hlt. lia. }
  apply (order_invariant_frame _ _ _ w); try exact Hinv.
  - reflexivity.
  - destruct orderType; cbn [stored_status]; [reflexivity|].
    destruct Hfresh as [Hty|Hne]; [discriminate|].
    cbn [tbl_purchaseOrder set_redis set_tbl_orderStatusHistory
         set_tbl_purchaseOrder].
    rewrite lookup_insert_ne by exact Hne. reflexivity.
  - destruct orderType; cbn [next_id seq_purchaseOrder seq_shippingOrder
      set_redis set_tbl_orderStatusHistory set_tbl_purchaseOrder]; lia.
  - unfold history.
    cbn [tbl_orderStatusHistory set_redis set_tbl_orderStatusHistory].
    apply history_of_snoc_other. cbn [h_orderId h_orderType id_of].
    destruct Hfresh as [->|Hne]; [right; discriminate|left; exact Hne].
  - intros text e Ho.
    cbn [redis set_redis set_tbl_orderStatusHistory set_tbl_purchaseOrder]
      in Ho.
    apply lookup_after_cache in Ho.
    destruct Ho as [(Hk & -> & ->)|[_ Ho]]; [|left; exact Ho].
    right. eexists. split; [reflexivity|].
    cbn [cached_copy tagged JSON.image_order ob_type]. intros [= <-].
    cbn [id_of] in Hk. destruct Hfresh; [discriminate|contradiction].
Qed.

Lemma createPurchaseOrder_establishes data w :
  history purchase (seq_purchaseOrder w) w = [] ->
  has_returned (snd (OrderService.createPurchaseOrder data w)) = true
  /\ order_invariant purchase (seq_purchaseOrder w) 0
       (fst (OrderService.createPurchaseOrder data w)).
Proof.
  intros Hempty.
  destruct (createPurchaseOrder_eq data w) as (row & user & Hid & Hst & ->).
  cbn zeta. cbn [fst snd has_returned].
  split; [reflexivity|].
  exists "CREATED". split; [|split; [|split]].
  - cbn [stored_status tbl_purchaseOrder set_redis
         set_tbl_orderStatusHistory set_tbl_purchaseOrder].
    rewrite lookup_insert_eq. simpl. rewrite Hst. reflexivity.
  - cbn [next_id seq_purchaseOrder set_redis set_tbl_orderStatusHistory
         set_tbl_purchaseOrder]. lia.
  - intros text e o Ho Hparse Hty.
    cbn [redis set_redis set_tbl_orderStatusHistory set_tbl_purchaseOrder]
      in Ho.
    apply lookup_after_cache in Ho.
    destruct Ho as [(_ & -> & _)|[Hne _]]; [|destruct (Hne eq_refl)].
    cbn [RedisHelper.parse_or_raw] in Hparse. injection Hparse as <-.
    rewrite ob_status_cached_copy. unfold ob_status.
    cbn [ob_body pp_row convertBigInt.purchaseOrderPayload
         convertBigInt.purchaseOrder po_status].
    rewrite Hst. reflexivity.
  - unfold history in *.
    cbn [tbl_orderStatusHistory set_redis set_tbl_orderStatusHistory].
    rewrite history_of_snoc_same by reflexivity. rewrite Hempty.
    repeat split.
Qed.

Lemma addTrackingNumber_keeps orderType orderId n j trackNumber kind w :
  order_invariant orderType orderId n w ->
  order_invariant orderType orderId n
    (fst (OrderService.addTrackingNumber j trackNumber kind w)).
Proof.
  intros Hinv. unfold OrderService.addTrackingNumber.
  rewrite fst_bind.
  destruct kind.
  - unfold bind, Prisma.shippingOrder_update, Prisma.use, Prisma.key_of,
      bind, ret.
    destruct (tbl_shippingOrder w !! id_of j) as [row|] eqn:Hrow;
      [|exact Hinv].
    cbn [fst snd].
    change (fst (OrderService.clearOrderCache ?i ?t ?w0)) with w0.
    apply (order_invariant_frame _ _ _ w); try exact Hinv;
      try (destruct orderType; reflexivity);
      try reflexivity; [|intros text e Ho; left; exact Ho].
    destruct orderType; cbn [stored_status]; [|reflexivity].
    cbn [tbl_shippingOrder set_tbl_shippingOrder].
    destruct (decide (id_of j = orderId)) as [<-|Hne].
    + rewrite lookup_insert_eq, Hrow. reflexivity.
    + rewrite lookup_insert_ne by exact Hne. reflexivity.
  - unfold bind, Prisma.purchaseOrder_update, Prisma.use, Prisma.key_of,
      bind, ret.
    destruct (tbl_purchaseOrder w !! id_of j) as [row|] eqn:Hrow;
      [|exact Hinv].
    cbn [fst snd].
    change (fst (OrderService.clearOrderCache ?i ?t ?w0)) with w0.
    apply (order_invariant_frame _ _ _ w); try exact Hinv;
      try (destruct orderType; reflexivity);
      try reflexivity; [|intros text e Ho; left; exact Ho].
    destruct orderType; cbn [stored_status]; [reflexivity|].
    cbn [tbl_purchaseOrder set_tbl_purchaseOrder].
    destruct (decide (id_of j = orderId)) as [<-|Hne].
    + rewrite lookup_insert_eq, Hrow. reflexivity.
    + rewrite lookup_insert_ne by exact Hne. reflexivity.
Qed.

(** *** Traces *)

Lemma run_call_step orderType orderId n c w :
  order_invariant orderType orderId n w ->
  (is_transition_of orderType orderId c = true -> snd (run_call c w) = true)
  /\ order_invariant orderType orderId
       (n + if is_transition_of orderType orderId c && snd (run_call c w)
            then 1 else 0)
       (fst (run_call c w)).
Proof.
  intros Hinv.
  destruct c as [data|data|j|j|j st cm ad|j st cm ad|j tn kind|ms];
    cbn [run_call fst snd is_transition_of].
  - split; [discriminate|]. rewrite Nat.add_0_r.
    apply createShippingOrder_keeps, Hinv.
  - split; [discriminate|]. rewrite Nat.add_0_r.
    apply createPurchaseOrder_keeps, Hinv.
  - split; [discriminate|]. rewrite Nat.add_0_r.
    apply getShippingOrder_keeps, Hinv.
  - split; [discriminate|]. rewrite Nat.add_0_r.
    apply getPurchaseOrder_keeps, Hinv.
  - destruct orderType.
    + destruct (bool_decide (j = orderId)) eqn:Hj.
      * apply bool_decide_eq_true in Hj. subst j.
        destruct (updateShippingOrderStatus_transition orderId n st cm ad w
                    Hinv) as [Hret Hinv'].
        rewrite Hret. split; [reflexivity|]. cbn [andb].
        replace (n + 1)%nat with (S n) by lia. exact Hinv'.
      * apply bool_decide_eq_false in Hj.
        split; [discriminate|]. rewrite Nat.add_0_r.
        apply updateShippingOrderStatus_keeps;
          [exact Hinv|right; exact Hj].
    + split; [discriminate|]. rewrite Nat.add_0_r.
      apply updateShippingOrderStatus_keeps; [exact Hinv|left; reflexivity].
  - destruct orderType.
    + split; [discriminate|]. rewrite Nat.add_0_r.
      apply updatePurchaseOrderStatus_keeps; [exact Hinv|left; reflexivity].
    + destruct (bool_decide (j = orderId)) eqn:Hj.
      * apply bool_decide_eq_true in Hj. subst j.
        destruct (updatePurchaseOrderStatus_transition orderId n st cm ad w
                    Hinv) as [Hret Hinv'].
        rewrite Hret. split; [reflexivity|]. cbn [andb].
        replace (n + 1)%nat with (S n) by lia. exact Hinv'.
      * apply bool_decide_eq_false in Hj.
        split; [discriminate|]. rewrite Nat.add_0_r.
        apply updatePurchaseOrderStatus_keeps; [exact Hinv|right; exact Hj].
  - split; [discriminate|]. rewrite Nat.add_0_r.
    apply addTrackingNumber_keeps, Hinv.
  - split; [discriminate|]. rewrite Nat.add_0_r.
    apply (order_invariant_frame _ _ _ w); try exact Hinv;
      try (destruct orderType; reflexivity); try reflexivity.
    intros text e Ho. left. exact Ho.
Qed.

Lemma run_calls_invariant orderType orderId cs :
  forall n w,
    order_invariant orderType orderId n w ->
    order_invariant orderType orderId
      (n + successful_transitions orderType orderId cs w)
      (run_calls cs w).
Proof.
  induction cs as [|c rest IH]; intros n w Hinv.
  - simpl. rewrite Nat.add_0_r. exact Hinv.
  - cbn [run_calls successful_transitions].
    destruct (run_call_step orderType orderId n c w Hinv) as [_ Hstep].
    rewrite Nat.add_assoc. apply IH. exact Hstep.
Qed.

(** Under the invariant every transition call on the order returns, so the
    successful ones are all of them. *)
Lemma successful_transitions_all orderType orderId cs :
  forall n w,
    order_invariant orderType orderId n w ->
    successful_transitions orderType orderId cs w
    = length (List.filter (is_transition_of orderType orderId) cs).
Proof.
  induction cs as [|c rest IH]; intros n w Hinv; [reflexivity|].
  cbn [successful_transitions List.filter].
  destruct (run_call_step orderType orderId n c w Hinv) as [Hret Hstep].
  rewrite (IH _ _ Hstep).
  destruct (is_transition_of orderType orderId c).
  - rewrite (Hret eq_refl). reflexivity.
  - reflexivity.
Qed.

Lemma create_establishes c orderType w :
  creates c = Some orderType ->
  history orderType (next_id orderType w) w = [] ->
  snd (run_call c w) = true
  /\ order_invariant orderType (next_id orderType w) 0 (fst (run_call c w)).
Proof.
  intros Hc Hempty.
  destruct c as [data|data| | | | | |]; try discriminate;
    injection Hc as <-; cbn [run_call fst snd next_id] in *.
  - apply createShippingOrder_establishes, Hempty.
  - apply createPurchaseOrder_establishes, Hempty.
Qed.

Lemma create_stores c orderType w :
  creates c = Some orderType ->
  stored_status orderType (next_id orderType w) (fst (run_call c w))
  = Some "CREATED".
Proof.
  intros Hc.
  destruct c as [data|data| | | | | |]; try discriminate;
    injection Hc as <-; cbn [run_call fst next_id stored_status].
  - destruct (createShippingOrder_eq data w) as (row & user & _ & Hst & ->).
    cbn zeta.
    cbn [fst tbl_shippingOrder set_redis set_tbl_orderStatusHistory
         set_tbl_shippingOrder].
    rewrite lookup_insert_eq. simpl. rewrite Hst. reflexivity.
  - destruct (createPurchaseOrder_eq data w) as (row & user & _ & Hst & ->).
    cbn zeta.
    cbn [fst tbl_purchaseOrder set_redis set_tbl_orderStatusHistory
         set_tbl_purchaseOrder].
    rewrite lookup_insert_eq. simpl. rewrite Hst. reflexivity.
Qed.

(** C6.  Take any state of the stores in which the id the database will
    assign next has no history rows yet.  A create call (shipping or
    purchase) returns and stores the new order, in status CREATED, under
    that id.  After any further
    trace of order-service calls and waits -- creations, reads, transitions
    and tracking updates of this or any other order -- the history of the
    order holds exactly one row more than the number of transition calls on
    it that returned; the first row has no old status and new status
    CREATED, and every later row's old status is the new status of the row
    before it.  Every transition call on the order does return. *)
Theorem C6_history_holds_one_row_per_transition_plus_one :
  forall (w : World) (create : OrderCall) (orderType : OrderType)
         (trace : list OrderCall),
    creates create = Some orderType ->
    let orderId := next_id orderType w in
    history orderType orderId w = [] ->
    let created := fst (run_call create w) in
    let N := successful_transitions orderType orderId trace created in
    let rows := history orderType orderId (run_calls trace created) in
    snd (run_call create w) = true
    /\ stored_status orderType orderId created = Some "CREATED"
    /\ N = length (List.filter (is_transition_of orderType orderId) trace)
    /\ length rows = S N
    /\ well_formed_history rows.
Proof.
  intros w create orderType trace Hcreate orderId Hempty created N rows.
  destruct (create_establishes create orderType w Hcreate Hempty)
    as [Hret Hinv].
  fold orderId in Hinv. fold created in Hinv.
  split; [exact Hret|].
  split; [exact (create_stores create orderType w Hcreate)|].
  split; [exact (successful_transitions_all _ _ trace 0%nat created Hinv)|].
  destruct (run_calls_invariant orderType orderId trace 0%nat created Hinv)
    as (s & _ & _ & _ & Hlen & Hwf & _).
  split; [exact Hlen|exact Hwf].
Qed.

Lemma C6_witness :
  let rows :=
    history shipping 1
      (run_calls Scenario.order_trace
         (fst (run_call (CreateShipping Scenario.parcel)
                 (Scenario.world_balance 0)))) in
  length rows = 3%nat /\ well_formed_history rows.
Proof.
  intros rows. subst rows.
  destruct (C6_history_holds_one_row_per_transition_plus_one
              (Scenario.world_balance 0) (CreateShipping Scenario.parcel)
              shipping Scenario.order_trace eq_refl)
    as (_ & _ & HN & Hlen & Hwf).
  - vm_compute. reflexivity.
  - split; [|exact Hwf].
    rewrite HN in Hlen. exact Hlen.
Defined.

(* ===================================================================== *)
(** ** Web sessions and tokens: the branches that do not delete *)

(* ===================================================================== *)
(** ** Web sessions and tokens: the branches that do not delete *)
(* ===================================================================== *)

(** A session that Redis does not hold is refused, and nothing changes. *)
Lemma validateWebSession_missing sessionId w :
  truthy (read (RedisHelper.ADMIN_WEB_SESSION sessionId) w) = false ->
  AdminAuthService.validateWebSession sessionId w
  = (w, Return AdminAuthService.invalid_session).
Proof.
  intros Hc. unfold AdminAuthService.validateWebSession.
  erewrite bind_Return by apply RedisHelper_get_eq.
  rewrite Hc. reflexivity.
Qed.

(** A live session of an active administrator is accepted: [lastActivity]
    becomes the current instant, the session is stored again for seven days
    from now, and [expiresAt] is what it was. *)
Lemma validateWebSession_success sessionId d a w :
  read (RedisHelper.ADMIN_WEB_SESSION sessionId) w = VSession d ->
  clock w <= sd_expiresAt d ->
  tbl_admin w !! sd_adminId d = Some a ->
  a_isActive a = true ->
  let d' := AdminAuthService.touch (clock w) d in
  AdminAuthService.validateWebSession sessionId w
  = (set_redis
       (<[RedisHelper.ADMIN_WEB_SESSION sessionId :=
            (Stringified (VSession d'),
             clock w + 7 * 24 * 60 * 60 * 1000)]> (redis w))
       (set_db_reads (S (db_reads w)) w),
     Return {| AdminAuthService.sr_valid := true;
               AdminAuthService.sr_admin := Some (convertBigInt.admin a);
               AdminAuthService.sr_session := Some d' |})
  /\ sd_expiresAt d' = sd_expiresAt d
  /\ sd_lastActivity d' = clock w.
Proof.
  intros Hc Hlive Ha Hactive d'. split; [|split; reflexivity].
  unfold AdminAuthService.validateWebSession.
  erewrite bind_Return by apply RedisHelper_get_eq.
  rewrite Hc. cbn [truthy negb].
  unfold bind at 1. unfold Date_now at 1. unfold gets.
  rewrite bool_decide_eq_false_2 by lia.
  unfold bind at 1. unfold Prisma.admin_findUnique, Prisma.use.
  unfold bind at 1. unfold ret at 1. rewrite Ha.
  cbn [fmap option_fmap option_map convertBigInt.admin a_isActive].
  rewrite Hactive.
  cbn [negb]. unfold bind at 1. unfold Date_now, gets.
  unfold bind.
  erewrite RedisHelper_setWithTTL_eq by (reflexivity || lia).
  reflexivity.
Qed.

(** A token found in neither store is answered [NotFound]. *)
Lemma validateDashboardToken_unknown token key ip w :
  truthy (read (RedisHelper.ADMIN_DASHBOARD_TOKEN token) w) = false ->
  tbl_adminDashboardToken w !! token = None ->
  snd (AdminAuthService.validateDashboardToken token key ip w)
  = Return (AdminAuthService.refusal AdminAuthService.NotFound).
Proof.
  intros Hc Hrow. rewrite validateDashboardToken_cache_miss by exact Hc.
  rewrite Hrow. reflexivity.
Qed.

(** A token that only the durable store holds cannot be validated: the
    call raises before it compares the key. *)
Lemma validateDashboardToken_durable_row_raises token key ip row w :
  truthy (read (RedisHelper.ADMIN_DASHBOARD_TOKEN token) w) = false ->
  tbl_adminDashboardToken w !! token = Some row ->
  snd (AdminAuthService.validateDashboardToken token key ip w)
  = Throw (TypeError "dbToken.expiresAt.toISOString is not a function").
Proof.
  intros Hc Hrow. rewrite validateDashboardToken_cache_miss by exact Hc.
  rewrite Hrow. reflexivity.
Qed.

(* ===================================================================== *)
(** ** The order scenario of the specification *)
(* ===================================================================== *)

(** A shipping order for user 1 with weight 5 and cost 1000 is created
    and then moved to PAID with the comment "paid by card": the order shows
    PAID and its history has the two rows CREATED and CREATED -> PAID. *)
Example order_created_then_paid :
  so_status <$> tbl_shippingOrder (fst Scenario.order_paid) !! 1 = Some PAID
  /\ history shipping 1 (fst Scenario.order_created)
     = [ {| h_orderId := BigInt 1; h_orderType := shipping;
            h_oldStatus := None;
            h_newStatus := "CREATED"; h_comment := Some "Заказ создан";
            h_adminId := None; h_createdAt := Date 0 |} ]
  /\ history shipping 1 (fst Scenario.order_paid)
     = [ {| h_orderId := BigInt 1; h_orderType := shipping;
            h_oldStatus := None;
            h_newStatus := "CREATED"; h_comment := Some "Заказ создан";
            h_adminId := None; h_createdAt := Date 0 |};
         {| h_orderId := BigInt 1; h_orderType := shipping;
            h_oldStatus := Some "CREATED"; h_newStatus := "PAID";
            h_comment := Some "paid by card"; h_adminId := None;
            h_createdAt := Date 1000 |} ].
Proof. by_evaluation. Qed.

(** Without the middleware of the client the order a query returns holds
    its ids as [bigint], and [cacheOrder] raises on it. *)
Example cacheOrder_of_engine_row :
  match tbl_shippingOrder (fst Scenario.order_created) !! 1 with
  | Some row =>
      snd (OrderService.cacheOrder (BigInt 1)
             {| ob_body := ShippingBody
                  {| sp_row := row; sp_user := None;
                     sp_statusHistory := None; sp_transactions := None |};
                ob_type := None |} shipping (fst Scenario.order_created))
      = Throw (TypeError "Do not know how to serialize a BigInt")
  | None => False
  end.
Proof. vm_compute. reflexivity. Qed.

(* ===================================================================== *)
(** ** Payments: a withdrawal the balance does not cover *)
(* ===================================================================== *)

(** Completing a WITHDRAWAL that exceeds the owner's balance throws
    [Insufficient balance] and leaves every balance as it was; the
    transaction row, written before the check, is COMPLETED. *)
Lemma updateTransactionStatus_insufficient id metadata row u w :
  tbl_transaction w !! id_of id = Some row ->
  t_type row = WITHDRAWAL ->
  tbl_user w !! id_of (t_userId row) = Some u ->
  Number.lt (Number.sub (Number.of_nullable (u_balance u))
               (Number.of_nullable (t_amount row))) (Number.of_Z 0) = true ->
  exists w',
    PaymentService.updateTransactionStatus id COMPLETED metadata w
    = (w', Throw (Error "Insufficient balance"))
    /\ tbl_user w' = tbl_user w
    /\ t_status <$> tbl_transaction w' !! id_of id = Some COMPLETED.
Proof.
  intros Hrow Hty Hu Hlt.
  unfold PaymentService.updateTransactionStatus.
  change (bool_decide (COMPLETED = COMPLETED)) with true. cbv iota.
  unfold bind at 1. unfold Date_now at 1. unfold gets at 1.
  unfold bind at 1. unfold bind at 1.
  unfold Date_now at 1. unfold gets at 1. unfold ret at 1.
  unfold bind at 1.
  unfold Prisma.transaction_update, Prisma.use, Prisma.key_of.
  unfold bind at 1. rewrite Hrow. unfold ret at 1.
  unfold bind at 1.
  unfold PaymentService.processCompletedTransaction.
  cbn [t_type PaymentService.apply_updateData t_userId t_amount tp_row
       convertBigInt.transactionPayload convertBigInt.transaction].
  rewrite Hty.
  erewrite updateUserBalance_eq
    by (rewrite convertBigInt_bigint_id; exact Hu).
  rewrite Hlt.
  eexists. split; [reflexivity|]. split; [reflexivity|].
  simpl. rewrite lookup_insert_eq. reflexivity.
Qed.

(* ===================================================================== *)
(** ** Dashboard tokens: what becomes of a mirror *)
(* ===================================================================== *)

(** A mirror that a reader finds, unused and not past its [expiresAt], is
    accepted with its key, whatever the durable row says. *)
Lemma validateDashboardToken_live_mirror token d ip w :
  read (RedisHelper.ADMIN_DASHBOARD_TOKEN token) w = VToken d ->
  td_isUsed d = false ->
  clock w <= td_expiresAt d ->
  accepts (td_adminId d)
    (snd (AdminAuthService.validateDashboardToken token (td_accessKey d)
            ip w)).
Proof.
  intros Hc Hunused Hlive.
  rewrite validateDashboardToken_cache_hit by (rewrite Hc; reflexivity).
  rewrite Hc, validate_tokenData_eq.
  rewrite bool_decide_eq_true_2 by reflexivity. rewrite Hunused.
  cbn [negb].
  rewrite bool_decide_eq_false_2 by lia.
  unfold accepts. repeat split.
Qed.

Lemma generateId_loop_world n : forall acc w,
  exists s k,
    Utils.generateId_loop n acc w = (set_random_pos k w, Return s).
Proof.
  induction n as [|n IH]; intros acc w.
  - exists acc, (random_pos w). destruct w; reflexivity.
  - cbn [Utils.generateId_loop]. unfold bind, Math_random_below.
    destruct (IH (acc +:+ charAt Utils.chars
                           (Nat.modulo (random_draws w (random_pos w))
                              (String.length Utils.chars)))
                 (set_random_pos (S (random_pos w)) w)) as (s & k & ->).
    exists s, k. reflexivity.
Qed.

(** [revokeAdminTokens] writes to the token table only, in every branch,
    and removes no row from it. *)
Lemma revokeAdminTokens_world adminId w :
  exists tbl' o,
    AdminAuthService.revokeAdminTokens adminId w
    = (set_tbl_adminDashboardToken tbl' w, o)
    /\ (forall token, is_Some (tbl_adminDashboardToken w !! token) ->
                     is_Some (tbl' !! token)).
Proof.
  rewrite revokeAdminTokens_eq. cbv zeta.
  destruct (truthy (read (RedisHelper.ADMIN_PENDING_ACCESS adminId) w));
    (eexists; eexists; split; [reflexivity|];
     intros token [row Hrow]; rewrite lookup_fmap, Hrow; eexists; reflexivity).
Qed.

(** An issue that returns leaves the mirror of every token already in the
    table where it was: the new token differs from it, and the revoke sweep
    does not reach Redis. *)
Lemma generateDashboardAccess_keeps_mirror adminId ip token row w w' a :
  tbl_adminDashboardToken w !! token = Some row ->
  AdminAuthService.generateDashboardAccess adminId ip w = (w', Return a) ->
  clock w' = clock w
  /\ read (RedisHelper.ADMIN_DASHBOARD_TOKEN token) w'
     = read (RedisHelper.ADMIN_DASHBOARD_TOKEN token) w.
Proof.
  intros Hrow. unfold AdminAuthService.generateDashboardAccess.
  unfold bind at 1.
  destruct (revokeAdminTokens_world adminId w) as (tbl' & o & -> & Hkeeps).
  destruct o as [[]|e]; [|discriminate].
  assert (Htbl : is_Some (tbl' !! token)) by (apply Hkeeps; eauto).
  unfold bind at 1. unfold Utils.generateId.
  destruct (generateId_loop_world 16 "" (set_tbl_adminDashboardToken tbl' w))
    as (accessKey & k1 & ->).
  unfold bind at 1.
  destruct (generateId_loop_world 32 ""
              (set_random_pos k1 (set_tbl_adminDashboardToken tbl' w)))
    as (newToken & k2 & ->).
  unfold bind at 1. unfold Date_now at 1. unfold gets.
  unfold bind at 1. unfold Prisma.adminDashboardToken_create, Prisma.use.
  unfold bind at 1.
  cbn [tbl_adminDashboardToken set_random_pos set_tbl_adminDashboardToken].
  destruct (Prisma.adminDashboardToken_conflict newToken accessKey tbl')
    eqn:Hconflict; [discriminate|].
  assert (Hne : newToken <> token).
  { intros ->. unfold Prisma.adminDashboardToken_conflict in Hconflict.
    rewrite (bool_decide_eq_true_2 _ Htbl) in Hconflict. discriminate. }
  unfold ret at 1.
  unfold bind at 1. unfold Date_now at 1. unfold gets.
  unfold bind at 1.
  erewrite RedisHelper_setWithTTL_eq by (reflexivity || lia).
  intros [= <- _]. split; [reflexivity|].
  unfold read, cache_lookup, RedisHelper.parse_or_raw.
  cbn [redis clock engine set_redis set_tbl_adminDashboardToken
       set_random_pos].
  rewrite lookup_insert_ne; [reflexivity|].
  unfold RedisHelper.ADMIN_DASHBOARD_TOKEN. intros Heq.
  apply (inj (String.append "admin:dashboard:")) in Heq. contradiction.
Qed.

(** Hence a token issued earlier whose mirror is live and unused is still
    accepted after a further issue that returned, although the sweep of that
    issue has marked its durable row used. *)
Lemma earlier_token_accepted_after_issue adminId ip ip' token row d w w' a :
  tbl_adminDashboardToken w !! token = Some row ->
  read (RedisHelper.ADMIN_DASHBOARD_TOKEN token) w = VToken d ->
  td_isUsed d = false ->
  clock w <= td_expiresAt d ->
  AdminAuthService.generateDashboardAccess adminId ip w = (w', Return a) ->
  accepts (td_adminId d)
    (snd (AdminAuthService.validateDashboardToken token (td_accessKey d)
            ip' w')).
Proof.
  intros Hrow Hc Hunused Hlive Hissue.
  destruct (generateDashboardAccess_keeps_mirror _ _ _ _ _ _ _ Hrow Hissue)
    as [Hclock Hmirror].
  apply validateDashboardToken_live_mirror.
  - rewrite Hmirror. exact Hc.
  - exact Hunused.
  - rewrite Hclock. exact Hlive.
Qed.

(** Likewise after [markTokenAsUsed]: the mirror is where it was, so the
    consumed token is accepted again. *)
Lemma consumed_token_accepted_again token ip ip' d w :
  read (RedisHelper.ADMIN_DASHBOARD_TOKEN token) w = VToken d ->
  td_isUsed d = false ->
  clock w <= td_expiresAt d ->
  accepts (td_adminId d)
    (snd (AdminAuthService.validateDashboardToken token (td_accessKey d) ip'
            (fst (AdminAuthService.markTokenAsUsed token ip w)))).
Proof.
  intros Hc Hunused Hlive. rewrite markTokenAsUsed_eq. cbn [fst].
  apply validateDashboardToken_live_mirror; assumption.
Qed.
